(** * Skills server ([server.py]): index loading, change detection,
      search ranking and usage tracking

    A shallow embedding of the core of [server.py].  Python values that come
    out of [json.loads] are kept dynamically typed ([json]); the module
    globals, the four locks and the objects allocated by a call live in an
    explicit [world] that every operation threads through; the document
    store on disk is a read-only argument ([store]).  Scores are IEEE
    binary64 numbers, as Python's [float].

    Text is modelled by [string]; a character stands for the code point of
    its number, U+0000 to U+00FF.  On such text [len], [lower], [isspace],
    [strip] and [split] below are Python's [str] methods; code points above
    U+00FF, among them the ones whose lower-case form is longer, are outside
    the model. *)

From Stdlib Require Import Floats ZArith Uint63 Ascii String List Lia Bool.
From stdpp Require Import gmap strings list.
Import ListNotations.

#[local] Open Scope string_scope.
#[local] Open Scope list_scope.
#[local] Set Warnings "-inexact-float,-register-all".

(** ** Python [str] operations *)

Module PyStr.

(** The code points below U+0100 that [str.lower] changes: A to Z, and
    U+00C0 to U+00DE without the multiplication sign U+00D7 *)
Definition is_upper (c : ascii) : bool :=
  let n := nat_of_ascii c in
  ((65 <=? n)%nat && (n <=? 90)%nat)
  || ((192 <=? n)%nat && (n <=? 222)%nat && negb (n =? 215)%nat).

Definition lower_char (c : ascii) : ascii :=
  if is_upper c then ascii_of_nat (nat_of_ascii c + 32) else c.

(** [s.lower()] *)
Fixpoint lower (s : string) : string :=
  match s with
  | EmptyString => EmptyString
  | String c r => String (lower_char c) (lower r)
  end.

(** [c.upper()] below U+0100, when the result stays below U+0100: a to z
    and U+00E0 to U+00FE without the division sign U+00F7 move down by 32,
    the sharp s U+00DF becomes [SS]; the micro sign U+00B5 and the y with
    diaeresis U+00FF have upper-case forms above U+00FF.  The server does
    not call [upper]; it says what the upper-case variant of a query is. *)
Definition upper_char (c : ascii) : option string :=
  let n := nat_of_ascii c in
  if (n =? 223)%nat then Some "SS"
  else if (n =? 181)%nat || (n =? 255)%nat then None
  else if ((97 <=? n)%nat && (n <=? 122)%nat)
          || ((224 <=? n)%nat && (n <=? 254)%nat && negb (n =? 247)%nat)
  then Some (String (ascii_of_nat (n - 32)) EmptyString)
  else Some (String c EmptyString).

(** [s.upper()] *)
Fixpoint upper (s : string) : option string :=
  match s with
  | EmptyString => Some EmptyString
  | String c r =>
      match upper_char c, upper r with
      | Some a, Some b => Some (a ++ b)%string
      | _, _ => None
      end
  end.

(** [s.startswith(p)] *)
Fixpoint starts_with (p s : string) : bool :=
  match p, s with
  | EmptyString, _ => true
  | String _ _, EmptyString => false
  | String a p', String b s' => Ascii.eqb a b && starts_with p' s'
  end.

(** [s.find(sub)]: index of the first occurrence, [None] for Python's -1 *)
Fixpoint find (s sub : string) {struct s} : option nat :=
  if starts_with sub s then Some 0%nat
  else match s with
       | EmptyString => None
       | String _ r => option_map S (find r sub)
       end.

(** [sub in s] *)
Definition contains (sub s : string) : bool :=
  match find s sub with Some _ => true | None => false end.

(** [s[:n]] *)
Fixpoint take (n : nat) (s : string) : string :=
  match n, s with
  | O, _ => EmptyString
  | _, EmptyString => EmptyString
  | S n', String c r => String c (take n' r)
  end.

(** [s[n:]] *)
Fixpoint drop (n : nat) (s : string) : string :=
  match n, s with
  | O, _ => s
  | _, EmptyString => EmptyString
  | S n', String _ r => drop n' r
  end.

(** [s[a:b]] for [0 <= a], [0 <= b] *)
Definition slice (a b : nat) (s : string) : string := take (b - a) (drop a s).

(** [s.count(sub)] for a non-empty [sub]: occurrences that do not overlap,
    scanned from the left; [skip] characters of the last occurrence are
    still to be passed over. *)
Fixpoint count_from (skip : nat) (sub s : string) {struct s} : nat :=
  match s with
  | EmptyString => 0
  | String _ r =>
      match skip with
      | S k => count_from k sub r
      | O => if starts_with sub s
             then S (count_from (String.length sub - 1) sub r)
             else count_from 0 sub r
      end
  end.

Definition count (s sub : string) : nat :=
  match sub with
  | EmptyString => S (String.length s)
  | _ => count_from 0 sub s
  end.

(** [s.replace(old, new)] for a non-empty [old] *)
Fixpoint replace_from (skip : nat) (old new s : string) {struct s} : string :=
  match s with
  | EmptyString => EmptyString
  | String c r =>
      match skip with
      | S k => replace_from k old new r
      | O => if starts_with old s
             then (new ++ replace_from (String.length old - 1) old new r)%string
             else String c (replace_from 0 old new r)
      end
  end.

Definition replace (s old new : string) : string := replace_from 0 old new s.

(** [c.isspace()] below U+0100: TAB, LF, VT, FF, CR, FS, GS, RS, US, the
    space, NEL (U+0085) and the no-break space (U+00A0). *)
Definition is_space (c : ascii) : bool :=
  let n := nat_of_ascii c in
  ((9 <=? n)%nat && (n <=? 13)%nat) || ((28 <=? n)%nat && (n <=? 32)%nat)
  || (n =? 133)%nat || (n =? 160)%nat.

Fixpoint lstrip (s : string) : string :=
  match s with
  | EmptyString => EmptyString
  | String c r => if is_space c then lstrip r else s
  end.

(** drops trailing white space *)
Fixpoint rstrip (s : string) : string :=
  match s with
  | EmptyString => EmptyString
  | String c r =>
      match rstrip r with
      | EmptyString => if is_space c then EmptyString else String c EmptyString
      | r' => String c r'
      end
  end.

(** [s.strip()] *)
Definition strip (s : string) : string := rstrip (lstrip s).

(** [s.split()]: the maximal runs of characters that are not white space;
    [cur] is the run being read, in reverse. *)
Fixpoint split_from (cur : list ascii) (s : string) : list string :=
  let flush := match cur with
               | [] => []
               | _ => [string_of_list_ascii (rev cur)]
               end in
  match s with
  | EmptyString => flush
  | String c r => if is_space c then flush ++ split_from [] r
                  else split_from (c :: cur) r
  end.

Definition split (s : string) : list string := split_from [] s.

(** [c * n] for a one-character string [c] *)
Fixpoint repeat (c : ascii) (n : nat) : string :=
  match n with
  | O => EmptyString
  | S k => String c (repeat c k)
  end.

End PyStr.


(** ** Exceptions and Python values *)

(** The exceptions the module can meet.  [OSError] stands for its
    subclasses too ([FileNotFoundError], [PermissionError], ...). *)
Inductive exn :=
| TypeError | KeyError | AttributeError | OSError | UnicodeDecodeError.

(** A computation that returns or raises. *)
Inductive res (A : Type) : Type :=
| Ok (a : A)
| Err (e : exn).
Arguments Ok {A} a.
Arguments Err {A} e.

Definition res_bind {A B} (m : res A) (k : A -> res B) : res B :=
  match m with
  | Ok a => k a
  | Err e => Err e
  end.

Declare Scope res_scope.
Delimit Scope res_scope with res.
Notation "'let*' x := m 'in' k" := (res_bind m (fun x => k))
  (at level 10, x name, m at level 100, k at level 200) : res_scope.

(** What [json.loads] produces: [None], [bool], [int], [float], [str],
    [list] and [dict] (string keys, in insertion order; a lookup takes the
    first binding of a key). *)
Inductive json :=
| JNull
| JBool (b : bool)
| JInt (z : Z)
| JFloat (f : float)
| JStr (s : string)
| JArr (items : list json)
| JObj (fields : list (string * json)).

Module Py.

#[local] Open Scope res_scope.

(** [d.get(k)] on the bindings of a dict *)
Fixpoint dict_get (fields : list (string * json)) (k : string) : option json :=
  match fields with
  | [] => None
  | (k', v) :: rest => if String.eqb k' k then Some v else dict_get rest k
  end.

(** [bool(v)] *)
Definition truthy (v : json) : bool :=
  match v with
  | JNull => false
  | JBool b => b
  | JInt z => negb (z =? 0)%Z
  | JFloat f => negb (PrimFloat.eqb f 0%float)
  | JStr s => negb (String.eqb s EmptyString)
  | JArr l => match l with [] => false | _ => true end
  | JObj l => match l with [] => false | _ => true end
  end.

(** [isinstance(v, str)] *)
Definition is_str (v : json) : bool :=
  match v with JStr _ => true | _ => false end.

(** [v == s] for a [str] [s] *)
Definition eq_str (v : json) (s : string) : bool :=
  match v with JStr s' => String.eqb s' s | _ => false end.

(** The numeric value of a [bool], [int] or [float]: [True == 1 == 1.0]. *)
Definition as_number (v : json) : option (Z + float) :=
  match v with
  | JBool b => Some (inl (if b then 1 else 0)%Z)
  | JInt z => Some (inl z)
  | JFloat f => Some (inr f)
  | _ => None
  end.

(** [float == int], compared exactly *)
Definition float_eq_int (f : float) (z : Z) : bool :=
  match Prim2SF f with
  | S754_zero _ => (z =? 0)%Z
  | S754_finite sg m e =>
      let sm := if sg then Z.neg m else Z.pos m in
      if (0 <=? e)%Z then (z =? sm * 2 ^ e)%Z else (z * 2 ^ (- e) =? sm)%Z
  | _ => false
  end.

Definition number_eq (a b : Z + float) : bool :=
  match a, b with
  | inl x, inl y => (x =? y)%Z
  | inr f, inr g => PrimFloat.eqb f g
  | inl x, inr g => float_eq_int g x
  | inr f, inl y => float_eq_int f y
  end.

(** [a == b] *)
Fixpoint eq (a b : json) {struct a} : bool :=
  match a, b with
  | JNull, JNull => true
  | JStr s, JStr t => String.eqb s t
  | JArr l, JArr l' =>
      (fix eq_items (l l' : list json) : bool :=
         match l, l' with
         | [], [] => true
         | x :: r, y :: r' => eq x y && eq_items r r'
         | _, _ => false
         end) l l'
  | JObj d, JObj d' =>
      (length d =? length d')%nat &&
      (fix eq_fields (d : list (string * json)) : bool :=
         match d with
         | [] => true
         | (k, v) :: r =>
             match dict_get d' k with
             | Some v' => eq v v' && eq_fields r
             | None => false
             end
         end) d
  | _, _ =>
      match as_number a, as_number b with
      | Some x, Some y => number_eq x y
      | _, _ => false
      end
  end.

(** [k in v] for a [str] [k]: key of a dict, element of a list, substring
    of a str; anything else is not iterable. *)
Definition has (k : string) (v : json) : res bool :=
  match v with
  | JObj fields => Ok (match dict_get fields k with Some _ => true | None => false end)
  | JArr items => Ok (existsb (fun x => eq_str x k) items)
  | JStr s => Ok (PyStr.contains k s)
  | _ => Err TypeError
  end.

(** [v[k]] for a [str] [k] *)
Definition getitem (v : json) (k : string) : res json :=
  match v with
  | JObj fields =>
      match dict_get fields k with
      | Some x => Ok x
      | None => Err KeyError
      end
  | _ => Err TypeError
  end.

(** [v.get(k, default)] *)
Definition get (v : json) (k : string) (default : json) : res json :=
  match v with
  | JObj fields =>
      Ok (match dict_get fields k with Some x => x | None => default end)
  | _ => Err AttributeError
  end.

(** [v.lower()] *)
Definition lower (v : json) : res string :=
  match v with
  | JStr s => Ok (PyStr.lower s)
  | _ => Err AttributeError
  end.

Fixpoint chars (s : string) : list json :=
  match s with
  | EmptyString => []
  | String c r => JStr (String c EmptyString) :: chars r
  end.

(** [iter(v)]: the elements of a list, the characters of a str, the keys of
    a dict *)
Definition iter (v : json) : res (list json) :=
  match v with
  | JArr items => Ok items
  | JStr s => Ok (chars s)
  | JObj fields => Ok (map (fun kv => JStr (fst kv)) fields)
  | _ => Err TypeError
  end.

(** [any(f(x) for x in l)]: stops at the first true, raises what [f]
    raises before that. *)
Fixpoint any (f : json -> res bool) (l : list json) : res bool :=
  match l with
  | [] => Ok false
  | x :: rest => let* b := f x in if b then Ok true else any f rest
  end.

(** [[f(x) for x in l]] *)
Fixpoint map_res {A B} (f : A -> res B) (l : list A) : res (list B) :=
  match l with
  | [] => Ok []
  | x :: rest => let* y := f x in let* ys := map_res f rest in Ok (y :: ys)
  end.

(** [next((x for x in l if p(x)), None)] *)
Fixpoint next_where (p : json -> res bool) (l : list json) : res (option json) :=
  match l with
  | [] => Ok None
  | x :: rest => let* b := p x in if b then Ok (Some x) else next_where p rest
  end.

End Py.

(** ** The document store *)

(** What reading a file as UTF-8 text gives: the text, an [OSError], or
    bytes that do not decode; [lossy] is then the text with those bytes
    dropped, which is what [errors="ignore"] returns. *)
Inductive read_result :=
| ReadOk (text : string)
| ReadOSError
| ReadUnicodeError (lossy : string).

(** [path.read_text(encoding="utf-8")] *)
Definition read_text (r : read_result) : res string :=
  match r with
  | ReadOk text => Ok text
  | ReadOSError => Err OSError
  | ReadUnicodeError _ => Err UnicodeDecodeError
  end.

(** [path.read_text(encoding="utf-8", errors="ignore")] *)
Definition read_text_ignore (r : read_result) : res string :=
  match r with
  | ReadOk text => Ok text
  | ReadOSError => Err OSError
  | ReadUnicodeError lossy => Ok lossy
  end.

(** [json.loads(meta_file.read_text(encoding="utf-8"))] *)
Inductive meta_read :=
| MetaOk (meta : json)
| MetaInvalidJSON (msg : string)
| MetaOSError
| MetaUnicodeError.

(** A file matched by [glob("*.md")] *)
Record md_file := MdFile {
  md_name : string;
  md_read : read_result
}.

(** A path yielded by [skill_dir.rglob("*")].  [tf_is_file] is
    [file.is_file()], which raises for a path that cannot be examined
    ([PermissionError], an [OSError]); [tf_mtime] is [file.stat().st_mtime],
    [None] when [stat] raises [OSError].  Time stamps are only compared for
    equality and are kept as integers. *)
Record tree_file := TreeFile {
  tf_path : string;
  tf_is_file : res bool;
  tf_mtime : option Z
}.

(** An entry of [SKILLS_DIR.iterdir()]. *)
Record dir_entry := DirEntry {
  e_name : string;
  e_is_dir : bool;
  e_inside : bool;                        (* validate_skill_path(SKILLS_DIR / name) *)
  e_meta : option meta_read;              (* _meta.json, when it exists *)
  e_skill_md : option read_result;        (* SKILL.md, when it exists *)
  e_references : option (list md_file);   (* references/*.md, when the folder exists *)
  e_scripts : option (list md_file);      (* scripts/*.md, when the folder exists *)
  e_tree : list tree_file
}.

(** What the file system answers for [SKILLS_DIR / domain / file].
    [exists()] raises [OSError] for a path that cannot be examined, as one
    with a component longer than the file system allows. *)
Record path_status := PathStatus {
  p_inside : bool;       (* validate_skill_path *)
  p_exists : res bool;
  p_read : read_result
}.

(** [refused name] is what [(SKILLS_DIR / name / "SKILL.md").exists()]
    raises, if anything: [OSError] for a name longer than the file system
    allows. *)
Record store := Store {
  root_exists : bool;                     (* SKILLS_DIR.exists() *)
  entries : list dir_entry;
  refused : string -> option exn;
  sub_path : string -> string -> path_status
}.

(** ** Messages *)

(** The error and warning strings, kept as data (the text of an arbitrary
    value inside an f-string is not needed by any property below). *)
Inductive message :=
| MissingField (skill field : string)
| NameMismatch (skill : string) (found : json)
| TagsNotList (skill : string)
| TagsNotStrings (skill : string)
| SubSkillsNotList (skill : string)
| SubSkillMissing (skill : string) (i : nat) (field : string)
| InvalidJSON (skill msg : string)
| ReadMetaFailed (skill : string)
| MissingMeta (skill : string)
| MissingSkillMd (skill : string)
| SubSkillFileNotFound (skill : string) (file : string)
| NoTags (skill : string)
| NoSubSkills (skill : string).

(** ** Module state *)

(** The value of [_INDEX]: [{"skills": [...], "validation_errors": [...]}] *)
Record index := Index {
  skills : list json;
  validation_errors : list message
}.

(** An entry of [_CONTENT_INDEX] *)
Record content_entry := ContentEntry {
  c_domain : string;
  c_sub_skill : option string;
  c_file : string;
  c_content : string
}.

(** A [{"query": ..., "timestamp": ...}] of the recent-searches deque *)
Record search_entry := SearchEntry {
  se_query : string;
  se_timestamp : string
}.

(** [_USAGE_STATS]; [searches] is the deque, oldest entry first. *)
Record usage_stats := UsageStats {
  tool_calls : gmap string nat;
  skill_loads : gmap string nat;
  searches : list search_entry;
  start_time : string
}.

(** Objects other than the module globals: the dicts and lists a call
    builds and hands out. *)
Inductive pyobj :=
| ODict (d : gmap string nat)
| OList (l : list search_entry).

(** A reference is one of the three objects held by [_USAGE_STATS] or an
    object allocated by a call. *)
Inductive ref :=
| GlobalToolCalls
| GlobalSkillLoads
| GlobalSearches
| Allocated (n : nat).

Inductive lock := INDEX_LOCK | CONTENT_INDEX_LOCK | FILE_MTIMES_LOCK | STATS_LOCK.

Inductive lock_event := Acquire (l : lock) | Release (l : lock).

Record world := World {
  _INDEX : option index;
  _CONTENT_INDEX : option (list (string * content_entry));
  _FILE_MTIMES : gmap string Z;
  _USAGE_STATS : usage_stats;
  allocated : list pyobj;       (* objects built by calls, by address *)
  held : list lock;             (* the locks the running thread holds *)
  lock_trace : list lock_event  (* every acquire and release so far *)
}.

(** ** Operations on the state: results, exceptions and locks *)

(** An operation returns, raises, or blocks for ever on a lock that its own
    thread already holds ([threading.Lock] is not reentrant). *)
Inductive outcome (A : Type) : Type :=
| Ret (a : A)
| Raise (e : exn)
| Blocked (l : lock).
Arguments Ret {A} a.
Arguments Raise {A} e.
Arguments Blocked {A} l.

Definition M (A : Type) : Type := world -> outcome A * world.

Definition ret {A} (a : A) : M A := fun w => (Ret a, w).

Definition raise {A} (e : exn) : M A := fun w => (Raise e, w).

Definition bind {A B} (m : M A) (k : A -> M B) : M B :=
  fun w =>
    match m w with
    | (Ret a, w') => k a w'
    | (Raise e, w') => (Raise e, w')
    | (Blocked l, w') => (Blocked l, w')
    end.

Definition lift {A} (r : res A) : M A :=
  match r with
  | Ok a => ret a
  | Err e => raise e
  end.

Declare Scope M_scope.
Delimit Scope M_scope with M.
Notation "'let*' x := m 'in' k" := (bind m (fun x => k))
  (at level 10, x name, m at level 100, k at level 200) : M_scope.
Notation "m ;; k" := (bind m (fun _ => k))
  (at level 100, k at level 200, right associativity) : M_scope.

Definition lock_eqb (a b : lock) : bool :=
  match a, b with
  | INDEX_LOCK, INDEX_LOCK
  | CONTENT_INDEX_LOCK, CONTENT_INDEX_LOCK
  | FILE_MTIMES_LOCK, FILE_MTIMES_LOCK
  | STATS_LOCK, STATS_LOCK => true
  | _, _ => false
  end.

Definition holds (l : lock) (hs : list lock) : bool := existsb (lock_eqb l) hs.

Definition set_INDEX (v : option index) (w : world) : world :=
  World v (_CONTENT_INDEX w) (_FILE_MTIMES w) (_USAGE_STATS w)
        (allocated w) (held w) (lock_trace w).

Definition set_CONTENT_INDEX (v : option (list (string * content_entry)))
    (w : world) : world :=
  World (_INDEX w) v (_FILE_MTIMES w) (_USAGE_STATS w)
        (allocated w) (held w) (lock_trace w).

Definition set_FILE_MTIMES (v : gmap string Z) (w : world) : world :=
  World (_INDEX w) (_CONTENT_INDEX w) v (_USAGE_STATS w)
        (allocated w) (held w) (lock_trace w).

Definition set_USAGE_STATS (v : usage_stats) (w : world) : world :=
  World (_INDEX w) (_CONTENT_INDEX w) (_FILE_MTIMES w) v
        (allocated w) (held w) (lock_trace w).

Definition set_allocated (v : list pyobj) (w : world) : world :=
  World (_INDEX w) (_CONTENT_INDEX w) (_FILE_MTIMES w) (_USAGE_STATS w)
        v (held w) (lock_trace w).

Definition set_locks (hs : list lock) (tr : list lock_event) (w : world) : world :=
  World (_INDEX w) (_CONTENT_INDEX w) (_FILE_MTIMES w) (_USAGE_STATS w)
        (allocated w) hs tr.

(** [lock.acquire()] by the running thread *)
Definition acquire (l : lock) : M unit :=
  fun w =>
    if holds l (held w) then (Blocked l, w)
    else (Ret tt, set_locks (l :: held w) (lock_trace w ++ [Acquire l]) w).

(** [lock.release()] *)
Definition release (l : lock) (w : world) : world :=
  set_locks (List.filter (fun h => negb (lock_eqb l h)) (held w))
            (lock_trace w ++ [Release l]) w.

(** [with l: body]: the lock is released when the body returns and when it
    raises. *)
Definition with_lock {A} (l : lock) (body : M A) : M A :=
  fun w =>
    match acquire l w with
    | (Ret _, w1) =>
        match body w1 with
        | (Ret a, w2) => (Ret a, release l w2)
        | (Raise e, w2) => (Raise e, release l w2)
        | (Blocked l', w2) => (Blocked l', w2)
        end
    | (Raise e, w1) => (Raise e, w1)
    | (Blocked l', w1) => (Blocked l', w1)
    end.

(** The state when the module has just been imported. *)
Definition initial_world (start : string) : world :=
  World None None ∅ (UsageStats ∅ ∅ [] start) [] [] [].

(** ** Name and metadata validation *)

#[local] Open Scope res_scope.

Definition in_range (lo hi : nat) (c : ascii) : bool :=
  let n := nat_of_ascii c in (lo <=? n)%nat && (n <=? hi)%nat.

(** The class [[a-zA-Z0-9\-_]] *)
Definition safe_char (c : ascii) : bool :=
  in_range 97 122 c || in_range 65 90 c || in_range 48 57 c
  || Ascii.eqb c "-" || Ascii.eqb c "_".

(** The rest of a match of [^[a-zA-Z0-9\-_]+$]: [$] matches at the end of
    the string and also just before a newline that ends it. *)
Fixpoint safe_rest (s : string) : bool :=
  match s with
  | EmptyString => true
  | String c r =>
      if safe_char c then safe_rest r
      else Ascii.eqb c "010" && String.eqb r EmptyString
  end.

Definition re_match_safe (s : string) : bool :=
  match s with
  | EmptyString => false
  | String c r => safe_char c && safe_rest r
  end.

Definition is_safe_skill_name (name : json) : bool :=
  if negb (Py.truthy name) || negb (Py.is_str name) then false
  else match name with
       | JStr s => re_match_safe s
       | _ => false
       end.

(** [for field in fields: if field not in v: errors.append(missing field)] *)
Fixpoint missing_fields (mk : string -> message) (fields : list string)
    (v : json) : res (list message) :=
  match fields with
  | [] => Ok []
  | field :: rest =>
      let* present := Py.has field v in
      let* more := missing_fields mk rest v in
      Ok ((if present then [] else [mk field]) ++ more)
  end.

(** The loop over [enumerate(meta["sub_skills"])], from index [i] *)
Fixpoint sub_skill_errors (skill_name : string) (i : nat) (subs : list json)
    : res (list message) :=
  match subs with
  | [] => Ok []
  | sub :: rest =>
      let* errs := missing_fields (SubSkillMissing skill_name i) ["name"; "file"] sub in
      let* more := sub_skill_errors skill_name (S i) rest in
      Ok (errs ++ more)
  end.

Definition validate_meta (meta : json) (skill_name : string) : res (list message) :=
  let* e_required :=
    missing_fields (MissingField skill_name) ["name"; "description"] meta in
  let* has_name := Py.has "name" meta in
  let* e_name :=
    if has_name then
      let* found := Py.getitem meta "name" in
      Ok (if negb (Py.eq_str found skill_name)
          then [NameMismatch skill_name found] else [])
    else Ok [] in
  let* has_tags := Py.has "tags" meta in
  let* e_tags :=
    if has_tags then
      let* tags := Py.getitem meta "tags" in
      match tags with
      | JArr items =>
          Ok (if negb (forallb Py.is_str items)
              then [TagsNotStrings skill_name] else [])
      | _ => Ok [TagsNotList skill_name]
      end
    else Ok [] in
  let* has_subs := Py.has "sub_skills" meta in
  let* e_subs :=
    if has_subs then
      let* subs := Py.getitem meta "sub_skills" in
      match subs with
      | JArr items => sub_skill_errors skill_name 0 items
      | _ => Ok [SubSkillsNotList skill_name]
      end
    else Ok [] in
  Ok (e_required ++ e_name ++ e_tags ++ e_subs).

(** ** Building the two indexes *)

(** [d[k] = v] on the bindings of a dict *)
Fixpoint dict_set {V} (k : string) (v : V) (d : list (string * V))
    : list (string * V) :=
  match d with
  | [] => [(k, v)]
  | (k', v') :: rest =>
      if String.eqb k' k then (k, v) :: rest else (k', v') :: dict_set k v rest
  end.

Fixpoint rfind_char (c : ascii) (s : string) : option nat :=
  match s with
  | EmptyString => None
  | String a r =>
      match rfind_char c r with
      | Some i => Some (S i)
      | None => if Ascii.eqb a c then Some 0%nat else None
      end
  end.

(** [Path(name).stem] *)
Definition stem (name : string) : string :=
  match rfind_char "." name with
  | Some i =>
      if (0 <? i)%nat && (i <? String.length name - 1)%nat
      then PyStr.take i name else name
  | None => name
  end.

(** One of the two loops over [folder.glob("*.md")]; [label] turns the stem
    of a file into its ["sub_skill"]. *)
Definition index_folder (skill_name folder : string) (label : string -> string)
    (files : list md_file) (idx : list (string * content_entry))
    : list (string * content_entry) :=
  fold_left
    (fun idx f =>
       match read_text_ignore (md_read f) with
       | Ok text =>
           dict_set (skill_name ++ ":" ++ folder ++ "/" ++ md_name f)
             (ContentEntry skill_name (Some (label (stem (md_name f))))
                (folder ++ "/" ++ md_name f) (PyStr.lower text))
             idx
       | Err _ => idx
       end)
    files idx.

Definition index_skill_dir (idx : list (string * content_entry)) (e : dir_entry)
    : list (string * content_entry) :=
  if negb (e_is_dir e) then idx
  else
    let skill_name := e_name e in
    let idx1 :=
      match e_skill_md e with
      | Some r =>
          match read_text_ignore r with
          | Ok text =>
              dict_set (skill_name ++ ":SKILL.md")
                (ContentEntry skill_name None "SKILL.md" (PyStr.lower text)) idx
          | Err _ => idx
          end
      | None => idx
      end in
    let idx2 :=
      match e_references e with
      | Some files => index_folder skill_name "references" (fun s => s) files idx1
      | None => idx1
      end in
    match e_scripts e with
    | Some files =>
        index_folder skill_name "scripts"
          (fun s => PyStr.replace (PyStr.replace s ".js" EmptyString)
                      ".ts" EmptyString)
          files idx2
    | None => idx2
    end.

Definition build_content_index (fs : store) : list (string * content_entry) :=
  if negb (root_exists fs) then []
  else fold_left index_skill_dir (entries fs) [].

(** The body of the loop of [load_index] over [SKILLS_DIR.iterdir()];
    [JSONDecodeError], [OSError] and [UnicodeDecodeError] are caught, what
    [validate_meta] raises is not. *)
Definition load_meta (idx : index) (e : dir_entry) : res index :=
  if e_is_dir e then
    match e_meta e with
    | None => Ok idx
    | Some (MetaOk meta) =>
        let* errors := validate_meta meta (e_name e) in
        Ok (Index (skills idx ++ [meta]) (validation_errors idx ++ errors))
    | Some (MetaInvalidJSON msg) =>
        Ok (Index (skills idx) (validation_errors idx ++ [InvalidJSON (e_name e) msg]))
    | Some MetaOSError | Some MetaUnicodeError =>
        Ok (Index (skills idx) (validation_errors idx ++ [ReadMetaFailed (e_name e)]))
    end
  else Ok idx.

Fixpoint load_metas (idx : index) (es : list dir_entry) : res index :=
  match es with
  | [] => Ok idx
  | e :: rest => let* idx' := load_meta idx e in load_metas idx' rest
  end.

#[local] Open Scope M_scope.

Definition load_index (fs : store) : M index :=
  if negb (root_exists fs) then ret (Index [] [])
  else
    let* idx := lift (load_metas (Index [] []) (entries fs)) in
    with_lock CONTENT_INDEX_LOCK
      (fun w => (Ret tt, set_CONTENT_INDEX (Some (build_content_index fs)) w)) ;;
    ret idx.

Definition get_index (fs : store) : M index :=
  with_lock INDEX_LOCK
    (fun w =>
       match _INDEX w with
       | None =>
           (let* idx := load_index fs in
            (fun w' => (Ret idx, set_INDEX (Some idx) w'))) w
       | Some idx => (Ret idx, w)
       end).

(** ** Usage tracking *)

(** The [details] dict of [track_usage]; [None] and [{}] are both
    [no_details]. *)
Record details := Details {
  d_domain : option string;
  d_sub_skill : option json;
  d_query : option string
}.

Definition no_details : details := Details None None None.

(** [if details:] *)
Definition details_truthy (d : details) : bool :=
  match d with
  | Details None None None => false
  | _ => true
  end.

(** [if k not in d: d[k] = 0] then [d[k] += 1] *)
Definition increment (k : string) (d : gmap string nat) : gmap string nat :=
  let d0 := match d !! k with None => <[k := 0%nat]> d | Some _ => d end in
  <[k := S (default 0%nat (d0 !! k))]> d0.

(** [q.append(x)] on a [deque(maxlen=maxlen)] *)
Definition deque_append {A} (maxlen : nat) (x : A) (q : list A) : list A :=
  if (maxlen =? 0)%nat then q
  else if (length q <? maxlen)%nat then q ++ [x]
  else tl q ++ [x].

(** The body of [track_usage], run under [_STATS_LOCK] *)
Definition record_usage (tool_name : string) (d : details) (now : string)
    (st : usage_stats) : usage_stats :=
  let calls := increment tool_name (tool_calls st) in
  let loads :=
    if details_truthy d then
      match d_domain d with
      | Some domain => increment domain (skill_loads st)
      | None => skill_loads st
      end
    else skill_loads st in
  let recent :=
    if details_truthy d then
      match d_query d with
      | Some query => deque_append 100 (SearchEntry query now) (searches st)
      | None => searches st
      end
    else searches st in
  UsageStats calls loads recent (start_time st).

Definition track_usage (tool_name : string) (d : details) (now : string) : M unit :=
  with_lock STATS_LOCK
    (fun w =>
       (Ret tt, set_USAGE_STATS (record_usage tool_name d now (_USAGE_STATS w)) w)).

(** ** Change detection *)

(** The body of the loop over [skill_dir.rglob("*")]; [file.is_file()] is
    outside the [try], so what it raises leaves the loop. *)
Definition visit_file (old : gmap string Z) (acc : bool * gmap string Z)
    (f : tree_file) : res (bool * gmap string Z) :=
  let '(changed, current) := acc in
  (let* is_file := tf_is_file f in
   if is_file then
     match tf_mtime f with
     | Some mtime =>
         let current' := <[tf_path f := mtime]> current in
         match old !! tf_path f with
         | Some m => Ok (if bool_decide (m ≠ mtime) then true else changed, current')
         | None => Ok (true, current')
         end
     | None => Ok (changed, current)
     end
   else Ok (changed, current))%res.

Fixpoint visit_files (old : gmap string Z) (acc : bool * gmap string Z)
    (files : list tree_file) : res (bool * gmap string Z) :=
  match files with
  | [] => Ok acc
  | f :: rest => (let* acc' := visit_file old acc f in visit_files old acc' rest)%res
  end.

Definition visit_dir (old : gmap string Z) (acc : bool * gmap string Z)
    (e : dir_entry) : res (bool * gmap string Z) :=
  if negb (e_is_dir e) then Ok acc else visit_files old acc (e_tree e).

(** The loop over [SKILLS_DIR.iterdir()] *)
Fixpoint visit_dirs (old : gmap string Z) (acc : bool * gmap string Z)
    (es : list dir_entry) : res (bool * gmap string Z) :=
  match es with
  | [] => Ok acc
  | e :: rest => (let* acc' := visit_dir old acc e in visit_dirs old acc' rest)%res
  end.

(** [any(old_file not in current_mtimes for old_file in _FILE_MTIMES)] *)
Definition some_deleted (old current : gmap string Z) : bool :=
  existsb (fun kv => bool_decide (current !! kv.1 = None)) (map_to_list old).

Definition check_for_changes (fs : store) : M bool :=
  if negb (root_exists fs) then ret false
  else
    with_lock FILE_MTIMES_LOCK
      (fun w =>
         let old := _FILE_MTIMES w in
         match visit_dirs old (false, ∅) (entries fs) with
         | Ok (changed, current) =>
             let changed := if some_deleted old current then true else changed in
             (Ret changed, set_FILE_MTIMES current w)
         | Err e => (Raise e, w)
         end).

(** One turn of the loop of [file_watcher], without the [time.sleep(5)]:
    [except Exception] swallows whatever the turn raises. *)
Definition file_watcher_cycle (fs : store) : M unit :=
  fun w =>
    match (let* changed := check_for_changes fs in
           if changed then
             let* new_index := load_index fs in
             with_lock INDEX_LOCK
               (fun w' => (Ret tt, set_INDEX (Some new_index) w'))
           else ret tt) w with
    | (Raise _, w') => (Ret tt, w')
    | r => r
    end.

(** ** The core functions behind the tools *)

(** The [{"error": ...}] results *)
Inductive error :=
| InvalidSkillName (name : json)
| InvalidSkillPath (name : string)
| SkillNotFound (name : string)
| FailedToReadSkill
| InvalidDomainName (domain : json)
| DomainNotFound (domain : string)
| SubSkillNotFound (sub_skill : json) (domain : string)
| InvalidFilePath
| FileNotFound (file : string)
| FailedToReadSubSkill
| QueryEmpty
| QueryTooLong
| TooManyTerms.

(** What [_get_skill] and [_get_sub_skill] return *)
Inductive fetched :=
| FetchError (e : error)
| SkillContent (name content : string) (sub_skills : list json) (has_references : bool)
| SubSkillContent (domain : string) (sub_skill : json) (content : string).

(** An element of the list [_list_skills] returns *)
Record skill_summary := SkillSummary {
  sm_name : json;
  sm_description : json;
  sm_sub_skills : list json
}.

(** [[sub["name"] for sub in meta.get("sub_skills", [])]] *)
Definition sub_skill_names (meta : json) : res (list json) :=
  (let* subs := Py.get meta "sub_skills" (JArr []) in
   let* items := Py.iter subs in
   Py.map_res (fun sub => Py.getitem sub "name") items)%res.

Definition summarize (s : json) : res skill_summary :=
  (let* name := Py.getitem s "name" in
   let* description := Py.getitem s "description" in
   let* subs := sub_skill_names s in
   Ok (SkillSummary name description subs))%res.

Definition _list_skills (fs : store) (now : string) : M (list skill_summary) :=
  track_usage "list_skills" no_details now ;;
  let* index := get_index fs in
  lift (Py.map_res summarize (skills index)).

(** The entry of [SKILLS_DIR / name], when there is one *)
Definition find_entry (fs : store) (name : string) : option dir_entry :=
  if root_exists fs
  then List.find (fun e => String.eqb (e_name e) name) (entries fs)
  else None.

(** [validate_skill_path(SKILLS_DIR / name)] for a safe [name]: a path that
    does not exist resolves to itself, inside [SKILLS_DIR]. *)
Definition validate_skill_dir (fs : store) (name : string) : bool :=
  match find_entry fs name with
  | Some e => e_inside e
  | None => true
  end.

(** [SKILLS_DIR / name / "SKILL.md"], when [exists()] says it is there;
    [exists()] is outside any [try] and raises for a name the file system
    refuses. *)
Definition skill_file (fs : store) (name : string) : res (option read_result) :=
  match refused fs name with
  | Some e => Err e
  | None =>
      Ok (match find_entry fs name with
          | Some e => e_skill_md e
          | None => None
          end)
  end.

(** [(SKILLS_DIR / name / "references").exists()] *)
Definition has_references (fs : store) (name : string) : bool :=
  match find_entry fs name with
  | Some e => match e_references e with Some _ => true | None => false end
  | None => false
  end.

(** [next((s for s in skills if s["name"] == name), None)] *)
Definition find_skill (skills : list json) (name : string) : res (option json) :=
  Py.next_where
    (fun s => (let* n := Py.getitem s "name" in Ok (Py.eq_str n name))%res)
    skills.

Definition _get_skill (fs : store) (now : string) (name : json) : M fetched :=
  if negb (is_safe_skill_name name) then ret (FetchError (InvalidSkillName name))
  else
    match name with
    | JStr name_s =>
        track_usage "get_skill" (Details (Some name_s) None None) now ;;
        if negb (validate_skill_dir fs name_s)
        then ret (FetchError (InvalidSkillPath name_s))
        else
          let* found := lift (skill_file fs name_s) in
          match found with
          | None => ret (FetchError (SkillNotFound name_s))
          | Some file =>
              match read_text file with
              | Err _ => ret (FetchError FailedToReadSkill)
              | Ok content =>
                  let* index := get_index fs in
                  let* found := lift (find_skill (skills index) name_s) in
                  let meta := match found with Some s => s | None => JObj [] end in
                  let* subs := lift (sub_skill_names meta) in
                  ret (SkillContent name_s content subs (has_references fs name_s))
              end
          end
    | _ => ret (FetchError (InvalidSkillName name))
    end.

Definition _get_sub_skill (fs : store) (now : string) (domain sub_skill : json)
    : M fetched :=
  if negb (is_safe_skill_name domain) then ret (FetchError (InvalidDomainName domain))
  else
    match domain with
    | JStr domain_s =>
        track_usage "get_sub_skill"
          (Details (Some domain_s) (Some sub_skill) None) now ;;
        let* index := get_index fs in
        let* found := lift (find_skill (skills index) domain_s) in
        match found with
        | None => ret (FetchError (DomainNotFound domain_s))
        | Some meta =>
            if negb (Py.truthy meta) then ret (FetchError (DomainNotFound domain_s))
            else
              let* sub :=
                lift (let* subs := Py.get meta "sub_skills" (JArr []) in
                      let* items := Py.iter subs in
                      Py.next_where
                        (fun s => let* n := Py.getitem s "name" in
                                  Ok (Py.eq n sub_skill))
                        items)%res in
              match sub with
              | None => ret (FetchError (SubSkillNotFound sub_skill domain_s))
              | Some sub =>
                  if negb (Py.truthy sub)
                  then ret (FetchError (SubSkillNotFound sub_skill domain_s))
                  else
                    let* file := lift (Py.getitem sub "file") in
                    match file with
                    | JStr file_s =>
                        let st := sub_path fs domain_s file_s in
                        if negb (p_inside st) then ret (FetchError InvalidFilePath)
                        else
                          let* there := lift (p_exists st) in
                          if negb there
                          then ret (FetchError (FileNotFound file_s))
                          else
                          match read_text (p_read st) with
                          | Ok content =>
                              ret (SubSkillContent domain_s sub_skill content)
                          | Err _ => ret (FetchError FailedToReadSubSkill)
                          end
                    | _ => raise TypeError
                    end
              end
        end
    | _ => ret (FetchError (InvalidDomainName domain))
    end.

(** The loop of [_get_skills_batch]; [results] is the list so far. *)
Fixpoint batch_loop (fs : store) (now : string) (requests : list json)
    (results : list fetched) : M (list fetched) :=
  match requests with
  | [] => ret results
  | req :: rest =>
      let* domain := lift (Py.get req "domain" JNull) in
      let* sub_skill := lift (Py.get req "sub_skill" JNull) in
      let* r := if Py.truthy sub_skill
                then _get_sub_skill fs now domain sub_skill
                else _get_skill fs now domain in
      batch_loop fs now rest (results ++ [r])
  end.

Definition _get_skills_batch (fs : store) (now : string) (requests : list json)
    : M (list fetched) :=
  track_usage "get_skills_batch" no_details now ;;
  batch_loop fs now requests [].

(** *** Metadata search *)

Inductive match_kind := MatchName | MatchDescription | MatchTags | MatchTriggers.

(** A result of [_search_skills] *)
Record hit := Hit {
  h_domain : json;
  h_sub_skill : option json;
  h_score : float;
  h_match : option match_kind
}.

(** [any(query_lower in x.lower() for x in v)] *)
Definition any_contains (query_lower : string) (v : json) : res bool :=
  (let* items := Py.iter v in
   Py.any (fun x => let* x_lower := Py.lower x in
                    Ok (PyStr.contains query_lower x_lower)) items)%res.

(** The [if]/[elif] chain on a domain record: score and match type. *)
Definition domain_match (query_lower : string) (skill : json)
    : res (float * option match_kind) :=
  (let* name := Py.getitem skill "name" in
   let* name_lower := Py.lower name in
   if PyStr.contains query_lower name_lower then Ok (0.9%float, Some MatchName)
   else
     let* description := Py.getitem skill "description" in
     let* description_lower := Py.lower description in
     if PyStr.contains query_lower description_lower
     then Ok (0.7%float, Some MatchDescription)
     else
       let* tags := Py.get skill "tags" (JArr []) in
       let* in_tags := any_contains query_lower tags in
       if in_tags then Ok (0.8%float, Some MatchTags)
       else Ok (0%float, None))%res.

(** The [if]/[elif] chain on a sub-skill *)
Definition sub_match (query_lower : string) (sub : json)
    : res (float * option match_kind) :=
  (let* name := Py.getitem sub "name" in
   let* name_lower := Py.lower name in
   if PyStr.contains query_lower name_lower then Ok (0.85%float, Some MatchName)
   else
     let* triggers := Py.get sub "triggers" (JArr []) in
     let* in_triggers := any_contains query_lower triggers in
     if in_triggers then Ok (0.9%float, Some MatchTriggers)
     else Ok (0%float, None))%res.

(** The results one sub-skill of [skill] appends *)
Definition sub_hits (query_lower : string) (skill sub : json) : res (list hit) :=
  (let* m := sub_match query_lower sub in
   if PrimFloat.ltb 0 (fst m) then
     let* domain := Py.getitem skill "name" in
     let* name := Py.getitem sub "name" in
     Ok [Hit domain (Some name) (fst m) (snd m)]
   else Ok [])%res.

Fixpoint concat_res {A B} (f : A -> res (list B)) (l : list A) : res (list B) :=
  match l with
  | [] => Ok []
  | x :: rest =>
      (let* ys := f x in let* more := concat_res f rest in Ok (ys ++ more))%res
  end.

(** The domain-level result a record appends, if any *)
Definition domain_hits (query_lower : string) (skill : json) : res (list hit) :=
  (let* m := domain_match query_lower skill in
   if PrimFloat.ltb 0 (fst m) then
     let* domain := Py.getitem skill "name" in
     Ok [Hit domain None (fst m) (snd m)]
   else Ok [])%res.

(** The body of the loop over [index["skills"]]: the results one record
    appends. *)
Definition skill_hits (query_lower : string) (skill : json) : res (list hit) :=
  (let* own := domain_hits query_lower skill in
   let* subs := Py.get skill "sub_skills" (JArr []) in
   let* items := Py.iter subs in
   let* below := concat_res (sub_hits query_lower skill) items in
   Ok (own ++ below))%res.

(** [l.sort(key=key, reverse=True)]: descending, equal keys in their
    original order. *)
Fixpoint insert_desc {A} (key : A -> float) (x : A) (l : list A) : list A :=
  match l with
  | [] => [x]
  | y :: rest =>
      if PrimFloat.ltb (key x) (key y) then y :: insert_desc key x rest
      else x :: l
  end.

Definition sort_desc {A} (key : A -> float) (l : list A) : list A :=
  fold_right (insert_desc key) [] l.

(** [max(1, min(limit, 100))] *)
Definition clamp_limit (limit : Z) : nat := Z.to_nat (Z.max 1 (Z.min limit 100)).

(** [not query or not query.strip()] *)
Definition query_blank (query : string) : bool :=
  String.eqb query EmptyString || String.eqb (PyStr.strip query) EmptyString.

(** What the two searches return: [{"error": ..., "results": []}] or
    [{"query": ..., "results": [...]}] *)
Inductive search_result (A : Type) : Type :=
| SearchError (e : error)
| SearchResults (query : string) (results : list A).
Arguments SearchError {A} e.
Arguments SearchResults {A} query results.

(** The results before sorting *)
Definition search_candidates (query_lower : string) (idx : index) : res (list hit) :=
  concat_res (skill_hits query_lower) (skills idx).

Definition _search_skills (fs : store) (now : string) (query : string) (limit : Z)
    : M (search_result hit) :=
  if query_blank query then ret (SearchError QueryEmpty)
  else if (1000 <? String.length query)%nat then ret (SearchError QueryTooLong)
  else
    let limit := clamp_limit limit in
    track_usage "search_skills" (Details None None (Some query)) now ;;
    let query_lower := PyStr.lower query in
    let* index := get_index fs in
    let* results := lift (search_candidates query_lower index) in
    ret (SearchResults query (firstn limit (sort_desc h_score results))).

(** *** Content search *)

(** A result of [_search_content] *)
Record content_hit := ContentHit {
  ch_domain : string;
  ch_sub_skill : option string;
  ch_file : string;
  ch_score : float;
  ch_snippet : string
}.

(** [float(n)] of a non-negative [int] *)
Definition float_of_nat (n : nat) : float :=
  PrimFloat.of_uint63 (Uint63.of_Z (Z.of_nat n)).

(** [min(a, b)] *)
Definition float_min (a b : float) : float :=
  if PrimFloat.ltb b a then b else a.

(** The nearest integer to [num / den], halves to the even one
    ([0 <= num], [0 < den]) *)
Definition round_half_even (num den : Z) : Z :=
  let q := (num / den)%Z in
  let r := (num mod den)%Z in
  if (2 * r <? den)%Z then q
  else if (den <? 2 * r)%Z then (q + 1)%Z
  else if Z.even q then q else (q + 1)%Z.

(** [round(x, 3)]: the exact value of [x] is rounded to the nearest multiple
    of 1/1000, halves to even, and the result is the [float] nearest to
    that decimal. *)
Definition round3 (x : float) : float :=
  match Prim2SF x with
  | S754_finite sg m e =>
      if (0 <=? e)%Z then x
      else
        let k := round_half_even (Z.pos m * 1000) (2 ^ (- e)) in
        let r := PrimFloat.div (PrimFloat.of_uint63 (Uint63.of_Z k)) 1000 in
        if sg then PrimFloat.opp r else r
  | _ => x
  end.

(** The relevance score of one indexed text *)
Definition content_score (query_lower : string) (query_words : list string)
    (content : string) : float :=
  if PyStr.contains query_lower content then
    if PyStr.contains query_lower (PyStr.take 500 content)
    then 1.2%float else 1.0%float
  else if forallb (fun word => PyStr.contains word content) query_words then
    let matches := list_sum (map (PyStr.count content) query_words) in
    PrimFloat.add 0.7 (float_min (PrimFloat.mul (float_of_nat matches) 0.05) 0.2)
  else
    let matches :=
      length (List.filter (fun word => PyStr.contains word content) query_words) in
    if (0 <? matches)%nat
    then PrimFloat.mul 0.3
           (PrimFloat.div (float_of_nat matches) (float_of_nat (length query_words)))
    else 0%float.

(** The loop of [extract_snippet] over [query.split()]: the position of the
    first word that occurs *)
Fixpoint first_word_pos (content : string) (words : list string) : option nat :=
  match words with
  | [] => None
  | word :: rest =>
      match PyStr.find content word with
      | Some pos => Some pos
      | None => first_word_pos content rest
      end
  end.

Definition extract_snippet (content query : string) (max_length : nat) : string :=
  let pos := match PyStr.find content query with
             | Some pos => Some pos
             | None => first_word_pos content (PyStr.split query)
             end in
  match pos with
  | None => (PyStr.take max_length content ++ "...")%string
  | Some pos =>
      let start := (pos - 50)%nat in
      let end_ := Nat.min (String.length content) (pos + max_length) in
      let snippet := PyStr.slice start end_ content in
      let snippet := if (0 <? start)%nat then ("..." ++ snippet)%string else snippet in
      let snippet := if (end_ <? String.length content)%nat
                     then (snippet ++ "...")%string else snippet in
      PyStr.strip (PyStr.replace snippet (String "010" EmptyString) " ")
  end.

(** The body of the loop over [_CONTENT_INDEX.items()] *)
Definition content_hits (query_lower : string) (query_words : list string)
    (kv : string * content_entry) : list content_hit :=
  let entry := snd kv in
  let content := c_content entry in
  let score := content_score query_lower query_words content in
  if PrimFloat.ltb 0 score then
    [ContentHit (c_domain entry) (c_sub_skill entry) (c_file entry)
       (round3 score) (extract_snippet content query_lower 150)]
  else [].

Definition _search_content (fs : store) (now : string) (query : string) (limit : Z)
    : M (search_result content_hit) :=
  if query_blank query then ret (SearchError QueryEmpty)
  else if (1000 <? String.length query)%nat then ret (SearchError QueryTooLong)
  else
    let query_words := PyStr.split (PyStr.lower query) in
    if (100 <? length query_words)%nat then ret (SearchError TooManyTerms)
    else
      let limit := clamp_limit limit in
      track_usage "search_content" (Details None None (Some query)) now ;;
      with_lock CONTENT_INDEX_LOCK
        ((fun w => match _CONTENT_INDEX w with
                   | None => (get_index fs ;; ret tt) w
                   | Some _ => (Ret tt, w)
                   end) ;;
         let query_lower := PyStr.lower query in
         fun w =>
           match _CONTENT_INDEX w with
           | None => (Raise AttributeError, w)
           | Some cidx =>
               let results := flat_map (content_hits query_lower query_words) cidx in
               (Ret (SearchResults query (firstn limit (sort_desc ch_score results))), w)
           end).

(** *** Reload, statistics, validation *)

(** [len(_CONTENT_INDEX) if _CONTENT_INDEX else 0], under its lock *)
Definition content_count : M nat :=
  with_lock CONTENT_INDEX_LOCK
    (fun w => (Ret (match _CONTENT_INDEX w with
                    | Some cidx => length cidx
                    | None => 0%nat
                    end), w)).

Record reloaded := Reloaded {
  skill_count : nat;
  content_files_indexed : nat;
  reload_errors : list message
}.

Definition _reload_index (fs : store) (now : string) : M reloaded :=
  let* new_index := load_index fs in
  with_lock INDEX_LOCK (fun w => (Ret tt, set_INDEX (Some new_index) w)) ;;
  track_usage "reload_index" no_details now ;;
  let* n := content_count in
  fun w =>
    match _INDEX w with
    | Some idx => (Ret (Reloaded (length (skills idx)) n (validation_errors idx)), w)
    | None => (Raise TypeError, w)
    end.

(** What a reference points to *)
Definition deref (w : world) (r : ref) : option pyobj :=
  match r with
  | GlobalToolCalls => Some (ODict (tool_calls (_USAGE_STATS w)))
  | GlobalSkillLoads => Some (ODict (skill_loads (_USAGE_STATS w)))
  | GlobalSearches => Some (OList (searches (_USAGE_STATS w)))
  | Allocated n => allocated w !! n
  end.

(** [l[-n:]] for [0 < n] *)
Definition last_n {A} (n : nat) (l : list A) : list A := skipn (length l - n) l.

(** The dict [_get_stats] returns; its three collections are objects. *)
Record stats_copy := StatsCopy {
  uptime_since : string;
  st_tool_calls : ref;
  st_skill_loads : ref;
  st_recent_searches : ref;
  st_total_skills : nat;
  st_content_files_indexed : nat
}.

Definition _get_stats (fs : store) : M stats_copy :=
  let* copy :=
    with_lock STATS_LOCK
      (fun w =>
         let st := _USAGE_STATS w in
         let a := length (allocated w) in
         (Ret (StatsCopy (start_time st) (Allocated a) (Allocated (a + 1))
                 (Allocated (a + 2)) 0 0),
          set_allocated
            (allocated w ++ [ODict (tool_calls st); ODict (skill_loads st);
                             OList (last_n 10 (searches st))]) w)) in
  let* index := get_index fs in
  let* n := content_count in
  ret (StatsCopy (uptime_since copy) (st_tool_calls copy) (st_skill_loads copy)
         (st_recent_searches copy) (length (skills index)) n).

Record validation := Validation {
  valid : bool;
  v_errors : list message;
  v_warnings : list message;
  skills_checked : nat
}.

(** The loop of [_validate_skills] over [meta.get("sub_skills", [])] *)
Fixpoint missing_sub_files (fs : store) (skill_name : string) (subs : list json)
    : res (list message) :=
  match subs with
  | [] => Ok []
  | sub :: rest =>
      (let* file := Py.getitem sub "file" in
       match file with
       | JStr file_s =>
           let* there := p_exists (sub_path fs skill_name file_s) in
           let* more := missing_sub_files fs skill_name rest in
           Ok ((if negb there
                then [SubSkillFileNotFound skill_name file_s] else []) ++ more)
       | _ => Err TypeError
       end)%res
  end.

(** The body of the loop of [_validate_skills]: the errors and warnings one
    directory adds.  Only [JSONDecodeError] is caught. *)
Definition validate_dir (fs : store) (e : dir_entry)
    : res (list message * list message) :=
  if negb (e_is_dir e) then Ok ([], [])
  else
    let skill_name := e_name e in
    match e_meta e with
    | None => Ok ([MissingMeta skill_name], [])
    | Some m =>
        let e_md := match e_skill_md e with
                    | None => [MissingSkillMd skill_name]
                    | Some _ => []
                    end in
        match m with
        | MetaInvalidJSON msg => Ok (e_md ++ [InvalidJSON skill_name msg], [])
        | MetaOSError => Err OSError
        | MetaUnicodeError => Err UnicodeDecodeError
        | MetaOk meta =>
            (let* meta_errors := validate_meta meta skill_name in
             let* subs := Py.get meta "sub_skills" (JArr []) in
             let* items := Py.iter subs in
             let* e_files := missing_sub_files fs skill_name items in
             let* tags := Py.get meta "tags" JNull in
             let* subs' := Py.get meta "sub_skills" JNull in
             Ok (e_md ++ meta_errors ++ e_files,
                 (if negb (Py.truthy tags) then [NoTags skill_name] else [])
                 ++ (if negb (Py.truthy subs') then [NoSubSkills skill_name] else [])))%res
        end
    end.

Fixpoint validate_dirs (fs : store) (es : list dir_entry)
    : res (list message * list message) :=
  match es with
  | [] => Ok ([], [])
  | e :: rest =>
      (let* here := validate_dir fs e in
       let* more := validate_dirs fs rest in
       Ok (fst here ++ fst more, snd here ++ snd more))%res
  end.

Definition _validate_skills (fs : store) : M validation :=
  if negb (root_exists fs) then raise OSError
  else
    let* found := lift (validate_dirs fs (entries fs)) in
    ret (Validation (match fst found with [] => true | _ => false end)
           (fst found) (snd found)
           (length (List.filter e_is_dir (entries fs)))).

(** ** Notions used by the statements *)

(** No lock is held: the state between two calls of a thread. *)
Definition idle (w : world) : Prop := held w = [].


(** What a walk of the store by [load_index] yields *)
Definition scan (fs : store) : res index :=
  if negb (root_exists fs) then Ok (Index [] [])
  else load_metas (Index [] []) (entries fs).

(** What [get_index] yields: the cached index, or the one a first load
    computes. *)
Definition current_index (fs : store) (w : world) : res index :=
  match _INDEX w with
  | Some idx => Ok idx
  | None => scan fs
  end.

(** How often [tool_name] has been recorded *)
Definition calls (w : world) (tool_name : string) : nat :=
  default 0%nat (tool_calls (_USAGE_STATS w) !! tool_name).

(** An operation that leaves the observation [g] of the usage statistics as
    it was, however it ends *)
Definition preserves {X A} (g : usage_stats -> X) (m : M A) : Prop :=
  forall w, g (_USAGE_STATS (snd (m w))) = g (_USAGE_STATS w).

(** [n] searches recorded one after the other *)
Definition record_searches (n : nat) (w : world) : world :=
  Nat.iter n
    (fun w => snd (track_usage "search_skills" (Details None None (Some "zod")) "now" w))
    w.

(** A sequence of [track_usage] calls *)
Fixpoint track_all (calls : list (string * details * string)) (w : world) : world :=
  match calls with
  | [] => w
  | (tool_name, d, now) :: rest =>
      track_all rest (snd (track_usage tool_name d now w))
  end.

(** The paths among [files] that are files with a modification time *)
Definition stamps (files : list tree_file) : list (string * Z) :=
  omap (fun f => match tf_is_file f with
                 | Ok true => option_map (pair (tf_path f)) (tf_mtime f)
                 | _ => None
                 end) files.

(** The files [check_for_changes] reads a modification time from, in the
    order it visits them *)
Definition timed_files (e : dir_entry) : list (string * Z) :=
  if negb (e_is_dir e) then [] else stamps (e_tree e).

(** [is_file()] answers for the path *)
Definition answers (f : tree_file) : bool :=
  match tf_is_file f with
  | Ok _ => true
  | Err _ => false
  end.

Definition dir_answers (e : dir_entry) : bool :=
  negb (e_is_dir e) || forallb answers (e_tree e).

(** Every path under the skill directories can be examined: no
    [is_file()] of the walk raises. *)
Definition examinable (fs : store) : bool := forallb dir_answers (entries fs).

Definition listed (fs : store) : list (string * Z) :=
  flat_map timed_files (entries fs).

(** [current_mtimes[path] = mtime] *)
Definition put (cur : gmap string Z) (kv : string * Z) : gmap string Z :=
  <[kv.1 := kv.2]> cur.

(** The timestamp snapshot a walk of the store produces *)
Definition sample (fs : store) : gmap string Z :=
  fold_left put (listed fs) ∅.

(** The file [kv] is new or has another modification time than in [old] *)
Definition differs (old : gmap string Z) (kv : string * Z) : bool :=
  bool_decide (old !! kv.1 ≠ Some kv.2).

(** The three ways two snapshots differ *)
Definition modified (old cur : gmap string Z) : Prop :=
  exists path m m', old !! path = Some m /\ cur !! path = Some m' /\ m <> m'.
Definition added (old cur : gmap string Z) : Prop :=
  exists path, old !! path = None /\ is_Some (cur !! path).
Definition removed (old cur : gmap string Z) : Prop :=
  exists path, is_Some (old !! path) /\ cur !! path = None.

(** The ["results"] of a search result, with its ["error"] if any: all of
    it but the echoed ["query"] *)
Definition results_of {A} (r : search_result A) : option error * list A :=
  match r with
  | SearchError e => (Some e, [])
  | SearchResults _ results => (None, results)
  end.

Definition outcome_map {A B} (f : A -> B) (o : outcome A) : outcome B :=
  match o with
  | Ret a => Ret (f a)
  | Raise e => Raise e
  | Blocked l => Blocked l
  end.

(** A value of the shape [META_SCHEMA] describes: a record with a [name]
    and a [description] that are strings, optional [tags] that are a list of
    strings, and an optional [sub_skills] list of records with a string
    [name], a string [file] and optional [triggers] that are a list of
    strings. *)
Definition str_list (v : json) : bool :=
  match v with
  | JArr items => forallb Py.is_str items
  | _ => false
  end.

Definition optional (check : json -> bool) (o : option json) : bool :=
  match o with
  | None => true
  | Some v => check v
  end.

Definition sub_conforms (sub : json) : bool :=
  match sub with
  | JObj fields =>
      match Py.dict_get fields "name", Py.dict_get fields "file" with
      | Some (JStr _), Some (JStr _) =>
          optional str_list (Py.dict_get fields "triggers")
      | _, _ => false
      end
  | _ => false
  end.

Definition conforms (skill : json) : bool :=
  match skill with
  | JObj fields =>
      match Py.dict_get fields "name", Py.dict_get fields "description" with
      | Some (JStr _), Some (JStr _) =>
          optional str_list (Py.dict_get fields "tags")
          && optional (fun v => match v with
                                | JArr subs => forallb sub_conforms subs
                                | _ => false
                                end)
               (Py.dict_get fields "sub_skills")
      | _, _ => false
      end
  | _ => false
  end.

(** The record's [name] is the string [name] *)
Definition named (name : string) (skill : json) : bool :=
  match Py.getitem skill "name" with
  | Ok v => Py.eq_str v name
  | Err _ => false
  end.

(** A domain-level result (no sub-skill) for the domain [name] *)
Definition domain_level (name : string) (h : hit) : bool :=
  match h_sub_skill h with
  | None => Py.eq_str (h_domain h) name
  | Some _ => false
  end.




(** The domain-level results a record appends, [[]] when it raises *)
Definition own_hits (ql : string) (skill : json) : list hit :=
  match domain_hits ql skill with
  | Ok own => own
  | Err _ => []
  end.

(** The largest number of locks held at once along a trace, starting with
    [n] held *)
Fixpoint peak_held (n : nat) (tr : list lock_event) : nat :=
  match tr with
  | [] => n
  | Acquire _ :: rest => Nat.max n (peak_held (S n) rest)
  | Release _ :: rest => Nat.max n (peak_held (n - 1) rest)
  end.

(** ** Sample inputs *)

Definition forms_meta : json :=
  JObj [("name", JStr "forms");
        ("description", JStr "HTML forms with validation");
        ("tags", JArr [JStr "html"; JStr "validation"]);
        ("sub_skills",
         JArr [JObj [("name", JStr "validation");
                     ("file", JStr "references/validation.md");
                     ("triggers", JArr [JStr "zod"])]])].

Definition forms_dir : dir_entry :=
  DirEntry "forms" true true (Some (MetaOk forms_meta))
    (Some (ReadOk "# Forms"))
    (Some [MdFile "validation.md" (ReadOk "Validate with Zod")]) None
    [TreeFile "/skills/forms/SKILL.md" (Ok true) (Some 1700000000%Z);
     TreeFile "/skills/forms/references" (Ok false) None;
     TreeFile "/skills/forms/references/validation.md" (Ok true)
       (Some 1700000500%Z)].

(** A file system that refuses a name of more than 255 characters *)
Definition name_limit (name : string) : option exn :=
  if (255 <? String.length name)%nat then Some OSError else None.

(** One domain, [forms], with one sub-skill *)
Definition forms_store : store :=
  Store true [forms_dir] name_limit
    (fun domain file =>
       if String.eqb domain "forms" && String.eqb file "references/validation.md"
       then PathStatus true (Ok true) (ReadOk "Validate with Zod")
       else
         match name_limit domain with
         | Some e => PathStatus true (Err e) ReadOSError
         | None => PathStatus true (Ok false) ReadOSError
         end).

(** [SKILLS_DIR] has been removed *)
Definition no_store : store :=
  Store false [] name_limit (fun _ _ => PathStatus true (Ok false) ReadOSError).

(** A domain whose [_meta.json] holds the JSON text [5] *)
Definition scalar_dir : dir_entry :=
  DirEntry "notes" true true (Some (MetaOk (JInt 5))) (Some (ReadOk "# Notes"))
    None None [TreeFile "/skills/notes/SKILL.md" (Ok true) (Some 1700000100%Z)].

(** A domain whose [_meta.json] lists a number among its sub-skills:
    [{"name": "notes", "description": "d", "sub_skills": [1]}] *)
Definition bad_sub_dir : dir_entry :=
  DirEntry "notes" true true
    (Some (MetaOk (JObj [("name", JStr "notes"); ("description", JStr "d");
                         ("sub_skills", JArr [JInt 1])])))
    (Some (ReadOk "# Notes")) None None
    [TreeFile "/skills/notes/SKILL.md" (Ok true) (Some 1700000100%Z)].

Definition store_of (es : list dir_entry) : store :=
  Store true es name_limit (sub_path forms_store).

(** ** Notions used by further properties *)

(** [None], a [bool] or a number: a value that [in] cannot search *)
Definition scalar (v : json) : bool :=
  match v with
  | JNull | JBool _ | JInt _ | JFloat _ => true
  | _ => false
  end.

(** The [sub_skills] of a record are a list that holds a scalar *)
Definition scalar_sub_skill (fields : list (string * json)) : bool :=
  match Py.dict_get fields "sub_skills" with
  | Some (JArr subs) => existsb scalar subs
  | _ => false
  end.

(** The loop of [file_watcher], one store per poll, for as many polls as
    the list is long *)
Fixpoint file_watcher (polls : list store) : M unit :=
  match polls with
  | [] => ret tt
  | fs :: rest => bind (file_watcher_cycle fs) (fun _ => file_watcher rest)
  end.

(** The metadata [load_index] parses for an entry of the store, if any *)
Definition parsed (e : dir_entry) : option json :=
  if e_is_dir e then
    match e_meta e with
    | Some (MetaOk meta) => Some meta
    | _ => None
    end
  else None.

(** The directory [e] has a [_meta.json] that is not valid JSON *)
Definition invalid_json (name msg : string) (e : dir_entry) : Prop :=
  e_is_dir e = true /\ e_name e = name /\ e_meta e = Some (MetaInvalidJSON msg).

(** What holds of every binding of a content index: the key is the domain
    and the file joined by a colon, the text is in lower case, and the
    sub-skill is missing for [SKILL.md] and only there. *)
Definition content_binding_ok (kv : string * content_entry) : Prop :=
  fst kv = (c_domain (snd kv) ++ ":" ++ c_file (snd kv))%string /\
  PyStr.lower (c_content (snd kv)) = c_content (snd kv) /\
  (c_sub_skill (snd kv) = None <-> c_file (snd kv) = "SKILL.md").

(** What [check_for_changes] answers when the snapshot stored is [old] *)
Definition change_seen (old : gmap string Z) (fs : store) : bool :=
  root_exists fs && examinable fs
  && (if some_deleted old (sample fs) then true
      else false || existsb (differs old) (listed fs)).


(** No element is followed by one with a greater key *)
Fixpoint descending {A} (key : A -> float) (l : list A) : bool :=
  match l with
  | [] => true
  | x :: rest =>
      match rest with
      | [] => true
      | y :: _ => negb (PrimFloat.ltb (key x) (key y))
      end && descending key rest
  end.

(** Only white space *)
Fixpoint all_space (s : string) : bool :=
  match s with
  | EmptyString => true
  | String c r => PyStr.is_space c && all_space r
  end.

(** The result [h] of a content search is for the indexed file [entry] *)
Definition reports (h : content_hit) (entry : content_entry) : Prop :=
  ch_domain h = c_domain entry /\ ch_sub_skill h = c_sub_skill entry
  /\ ch_file h = c_file entry.

(** The scores and match types of the metadata search: a domain-level
    result has one of the first three, a sub-skill result one of the last
    two. *)
Definition graded (h : hit) : Prop :=
  match h_sub_skill h with
  | None =>
      (h_score h, h_match h) = (0.9%float, Some MatchName)
      \/ (h_score h, h_match h) = (0.7%float, Some MatchDescription)
      \/ (h_score h, h_match h) = (0.8%float, Some MatchTags)
  | Some _ =>
      (h_score h, h_match h) = (0.85%float, Some MatchName)
      \/ (h_score h, h_match h) = (0.9%float, Some MatchTriggers)
  end.


(** The record [meta] lists a sub-skill whose name equals [wanted] and
    whose file is [file] *)
Definition lists_sub_skill (meta wanted : json) (file : string) : Prop :=
  exists subs items record n,
    Py.get meta "sub_skills" (JArr []) = Ok subs /\ Py.iter subs = Ok items /\
    In record items /\ Py.getitem record "name" = Ok n /\ Py.eq n wanted = true /\
    Py.getitem record "file" = Ok (JStr file).


(** How often a skill of the domain [name] has been asked for *)
Definition loads (w : world) (name : string) : nat :=
  default 0%nat (skill_loads (_USAGE_STATS w) !! name).

(** The entry [sm] of a listing shows the record [skill] *)
Definition shows (skill : json) (sm : skill_summary) : Prop :=
  Py.getitem skill "name" = Ok (sm_name sm) /\
  Py.getitem skill "description" = Ok (sm_description sm) /\
  sub_skill_names skill = Ok (sm_sub_skills sm).


(** Every file the directory [e] needs is there: its [SKILL.md], a
    [_meta.json] that parses, and the file of every sub-skill it lists *)
Definition complete_dir (fs : store) (e : dir_entry) : Prop :=
  e_skill_md e <> None /\
  exists meta subs items,
    e_meta e = Some (MetaOk meta) /\
    Py.get meta "sub_skills" (JArr []) = Ok subs /\ Py.iter subs = Ok items /\
    Forall (fun sub =>
              exists file,
                Py.getitem sub "file" = Ok (JStr file) /\
                p_exists (sub_path fs (e_name e) file) = Ok true)
      items.


(** The file behind [r] can be read with [errors="ignore"] *)
Definition readable (r : read_result) : bool :=
  match read_text_ignore r with
  | Ok _ => true
  | Err _ => false
  end.

(** The readable [*.md] files of a folder of a skill directory, as paths
    relative to the skill directory *)
Definition folder_files (folder : string) (files : option (list md_file))
    : list string :=
  match files with
  | Some fl =>
      map (fun f => (folder ++ "/" ++ md_name f)%string)
        (List.filter (fun f => readable (md_read f)) fl)
  | None => []
  end.

(** The files of the skill directory [e] that the content index reads *)
Definition readable_files (e : dir_entry) : list string :=
  match e_skill_md e with
  | Some r => if readable r then ["SKILL.md"] else []
  | None => []
  end
  ++ folder_files "references" (e_references e)
  ++ folder_files "scripts" (e_scripts e).


(** The result [r] under [f] *)
Definition res_map {A B} (f : A -> B) (r : res A) : res B :=
  match r with
  | Ok a => Ok (f a)
  | Err e => Err e
  end.

(** The value with every string in it lower-cased; the keys of records stay
    as they are.  Two values with the same image differ only in the letter
    case of their strings. *)
Fixpoint lower_json (v : json) : json :=
  match v with
  | JStr s => JStr (PyStr.lower s)
  | JArr items => JArr (map lower_json items)
  | JObj fields =>
      JObj (map (fun kv => let '(k, x) := kv in (k, lower_json x)) fields)
  | _ => v
  end.

(** A result with the names it echoes lower-cased *)
Definition lower_hit (h : hit) : hit :=
  Hit (lower_json (h_domain h)) (option_map lower_json (h_sub_skill h))
    (h_score h) (h_match h).

(** What a metadata search answers, apart from the echoed query and from
    the letter case of the echoed names *)
Definition lowered (r : search_result hit) : option error * list hit :=
  (fst (results_of r), map lower_hit (snd (results_of r))).

(** The store [forms_store] with other letter case in its metadata *)
Definition shouting_meta : json :=
  JObj [("name", JStr "FORMS");
        ("description", JStr "HTML Forms With Validation");
        ("tags", JArr [JStr "HTML"; JStr "Validation"]);
        ("sub_skills",
         JArr [JObj [("name", JStr "Validation");
                     ("file", JStr "references/validation.md");
                     ("triggers", JArr [JStr "ZOD"])]])].

Definition shouting_store : store :=
  store_of [DirEntry "FORMS" true true (Some (MetaOk shouting_meta))
              (Some (ReadOk "# Forms")) None None []].

(** A domain whose description holds a sharp s (U+00DF): "Masse" in German
    spelling *)
Definition sharp_s : string := String "223" EmptyString.

Definition units_store : store :=
  store_of [DirEntry "units" true true
              (Some (MetaOk (JObj [("name", JStr "units");
                                   ("description",
                                    JStr ("Ma" ++ sharp_s ++ "e"))])))
              (Some (ReadOk "# Units")) None None []].

(** * Properties *)

#[local] Arguments get_index : simpl never.
#[local] Arguments content_count : simpl never.
#[local] Arguments track_usage : simpl never.
#[local] Arguments load_index : simpl never.
#[local] Arguments Py.eq : simpl never.
#[local] Arguments skill_file : simpl never.

(** Runs the state plumbing of an operation as far as it computes. *)
Ltac run :=
  unfold bind, with_lock, acquire, release, set_INDEX, set_CONTENT_INDEX,
    set_FILE_MTIMES, set_USAGE_STATS, set_allocated, set_locks, ret, raise;
  simpl.

(** ** The usage tracker *)

Lemma track_usage_idle tool_name d now w :
  idle w ->
  exists tr,
    track_usage tool_name d now w =
      (Ret tt, World (_INDEX w) (_CONTENT_INDEX w) (_FILE_MTIMES w)
                 (record_usage tool_name d now (_USAGE_STATS w))
                 (allocated w) [] tr).
Proof.
  destruct w as [i c m u a h t]; unfold idle; simpl; intros ->.
  eexists. reflexivity.
Qed.







(** ** Reading the index *)

Lemma get_index_idle fs w idx :
  idle w -> current_index fs w = Ok idx ->
  exists c tr,
    get_index fs w =
      (Ret idx, World (Some idx) c (_FILE_MTIMES w) (_USAGE_STATS w)
                  (allocated w) [] tr).
Proof.
  destruct w as [i c m u a h t]; unfold idle, current_index, scan; simpl.
  intros -> H. unfold get_index, with_lock, acquire; simpl.
  destruct i as [idx' |]; simpl.
  - inversion H; subst. eexists _, _. reflexivity.
  - unfold load_index. destruct (root_exists fs); simpl in *.
    + rewrite H. simpl. eexists _, _. reflexivity.
    + inversion H; subst. eexists _, _. reflexivity.
Qed.

Lemma content_count_idle w :
  idle w ->
  exists tr,
    content_count w =
      (Ret (match _CONTENT_INDEX w with Some cidx => length cidx | None => 0%nat end),
       World (_INDEX w) (_CONTENT_INDEX w) (_FILE_MTIMES w) (_USAGE_STATS w)
         (allocated w) [] tr).
Proof.
  destruct w as [i c m u a h t]; unfold idle; simpl; intros ->.
  eexists. reflexivity.
Qed.

(** ** The statistics snapshot *)

Lemma track_all_idle calls w :
  idle w ->
  idle (track_all calls w) /\ allocated (track_all calls w) = allocated w.
Proof.
  revert w. induction calls as [| [[tool_name d] now] rest IH]; intros w Hw.
  - split; [exact Hw | reflexivity].
  - simpl. destruct (track_usage_idle tool_name d now w Hw) as [tr ->]. simpl.
    destruct (IH (World (_INDEX w) (_CONTENT_INDEX w) (_FILE_MTIMES w)
                    (record_usage tool_name d now (_USAGE_STATS w))
                    (allocated w) [] tr) eq_refl) as [H1 H2].
    split; [exact H1 | exact H2].
Qed.

(** C6 (amended). When no lock is held and the index is available,
    [_get_stats] returns the start time together with three objects that did
    not exist before the call: a copy of the tool-call counters, a copy of the
    skill-load counters, and a list of the last 10 entries of the
    recent-searches deque.  No later [track_usage] changes these objects. *)
Theorem get_stats_copies (fs : store) (w : world) (idx : index) :
  idle w -> current_index fs w = Ok idx ->
  let st := _USAGE_STATS w in
  exists sc w',
    _get_stats fs w = (Ret sc, w') /\
    uptime_since sc = start_time st /\
    deref w' (st_tool_calls sc) = Some (ODict (tool_calls st)) /\
    deref w' (st_skill_loads sc) = Some (ODict (skill_loads st)) /\
    deref w' (st_recent_searches sc) = Some (OList (last_n 10 (searches st))) /\
    deref w (st_tool_calls sc) = None /\
    deref w (st_skill_loads sc) = None /\
    deref w (st_recent_searches sc) = None /\
    forall calls,
      let w'' := track_all calls w' in
      deref w'' (st_tool_calls sc) = deref w' (st_tool_calls sc) /\
      deref w'' (st_skill_loads sc) = deref w' (st_skill_loads sc) /\
      deref w'' (st_recent_searches sc) = deref w' (st_recent_searches sc).
Proof.
  intros Hidle Hidx st.
  destruct w as [i c m u a h t]. unfold idle in Hidle. simpl in Hidle. subst h.
  unfold _get_stats. run.
  match goal with
  | |- context [get_index fs ?W] =>
      destruct (get_index_idle fs W idx eq_refl Hidx) as (c2 & tr2 & Hget)
  end.
  simpl in Hget. rewrite Hget.
  match goal with
  | |- context [content_count ?W] =>
      destruct (content_count_idle W eq_refl) as (tr3 & Hcount)
  end.
  simpl in Hcount. rewrite Hcount.
  eexists _, _. split; [reflexivity |].
  subst st. simpl.
  set (objs := a ++ [ODict (tool_calls u); ODict (skill_loads u);
                     OList (last_n 10 (searches u))]).
  assert (Htc : objs !! length a = Some (ODict (tool_calls u))).
  { unfold objs. rewrite lookup_app_r by lia. now rewrite Nat.sub_diag. }
  assert (Hsl : objs !! (length a + 1)%nat = Some (ODict (skill_loads u))).
  { unfold objs. rewrite lookup_app_r by lia.
    now replace (length a + 1 - length a)%nat with 1%nat by lia. }
  assert (Hrs : objs !! (length a + 2)%nat = Some (OList (last_n 10 (searches u)))).
  { unfold objs. rewrite lookup_app_r by lia.
    now replace (length a + 2 - length a)%nat with 2%nat by lia. }
  split; [reflexivity |]. split; [exact Htc |]. split; [exact Hsl |].
  split; [exact Hrs |].
  split; [apply lookup_ge_None; lia |]. split; [apply lookup_ge_None; lia |].
  split; [apply lookup_ge_None; lia |].
  intros calls.
  match goal with
  | |- context [track_all calls ?W] =>
      destruct (track_all_idle calls W eq_refl) as [_ Ha]
  end.
  simpl in Ha. unfold deref. now rewrite Ha.
Qed.

Lemma get_stats_copies_witness :
  let w := record_searches 11 (initial_world "start") in
  exists sc w',
    _get_stats forms_store w = (Ret sc, w') /\
    uptime_since sc = "start" /\
    deref w' (st_tool_calls sc) = Some (ODict (tool_calls (_USAGE_STATS w))) /\
    deref w' (st_recent_searches sc)
      = Some (OList (last_n 10 (searches (_USAGE_STATS w)))).
Proof.
  intros w.
  destruct (get_stats_copies forms_store w (Index [forms_meta] []) eq_refl eq_refl)
    as (sc & w' & H1 & H2 & H3 & _ & H5 & _).
  exists sc, w'. repeat split; assumption.
Defined.

(** C6, as stated, fails: with 11 searches in the deque the snapshot lists
    10 of them. *)
Lemma get_stats_keeps_ten_of_eleven :
  let w := record_searches 11 (initial_world "start") in
  let r := _get_stats forms_store w in
  length (searches (_USAGE_STATS w)) = 11%nat /\
  exists sc l,
    fst r = Ret sc /\
    deref (snd r) (st_recent_searches sc) = Some (OList l) /\
    length l = 10%nat /\
    deref (snd r) (st_recent_searches sc)
      <> Some (OList (searches (_USAGE_STATS w))).
Proof.
  intros w r. split; [vm_compute; reflexivity |].
  exists (StatsCopy "start" (Allocated 0) (Allocated 1) (Allocated 2) 1 2),
    (last_n 10 (searches (_USAGE_STATS w))).
  split; [vm_compute; reflexivity |].
  split; [vm_compute; reflexivity |].
  split; [vm_compute; reflexivity |].
  intros H. apply (f_equal (fun o => match o with
                                     | Some (OList l) => length l
                                     | _ => 0%nat
                                     end)) in H.
  vm_compute in H. discriminate H.
Qed.

(** ** Change detection *)

Section Changes.

Variable old : gmap string Z.

Lemma visit_files_spec files changed cur :
  forallb answers files = true ->
  visit_files old (changed, cur) files =
    Ok (changed || existsb (differs old) (stamps files),
        fold_left put (stamps files) cur).
Proof.
  revert changed cur.
  induction files as [| f files IH]; intros changed cur; cbn [forallb visit_files].
  - intros _. simpl. now rewrite orb_false_r.
  - intros H. apply andb_prop in H. destruct H as [Hf Hfiles].
    unfold answers in Hf. unfold stamps. cbn [omap list_omap]. fold (stamps files).
    unfold visit_file.
    destruct (tf_is_file f) as [[ | ] | e]; [| | discriminate Hf]; cbn [res_bind].
    + destruct (tf_mtime f) as [mtime |]; cbn [option_map];
        [| cbn [res_bind]; now apply IH].
      cbn [existsb fold_left]. unfold differs at 1, put at 2. cbn [fst snd].
      destruct (old !! tf_path f) as [m |] eqn:Hold; cbn [res_bind];
        rewrite (IH _ _ Hfiles); f_equal; f_equal.
      * destruct (decide (m = mtime)) as [-> | Hne].
        -- rewrite !bool_decide_eq_false_2 by (intros H; now apply H).
           reflexivity.
        -- rewrite !bool_decide_eq_true_2 by congruence. simpl.
           now rewrite orb_true_r.
      * rewrite bool_decide_eq_true_2 by congruence.
        simpl. now rewrite orb_true_r.
    + now apply IH.
Qed.

Lemma visit_files_raise files acc :
  forallb answers files = false -> exists e, visit_files old acc files = Err e.
Proof.
  revert acc. induction files as [| f files IH]; intros [changed cur];
    cbn [forallb visit_files]; [discriminate |].
  unfold answers at 1, visit_file.
  destruct (tf_is_file f) as [[ | ] | e]; cbn [res_bind andb].
  - intros H. destruct (tf_mtime f) as [mtime |]; [| now apply IH].
    destruct (old !! tf_path f); now apply IH.
  - intros H. now apply IH.
  - intros _. now exists e.
Qed.

Lemma visit_dirs_spec es changed cur :
  forallb dir_answers es = true ->
  visit_dirs old (changed, cur) es =
    Ok (changed || existsb (differs old) (flat_map timed_files es),
        fold_left put (flat_map timed_files es) cur).
Proof.
  revert changed cur.
  induction es as [| e es IH]; intros changed cur; cbn [forallb visit_dirs flat_map].
  - intros _. simpl. now rewrite orb_false_r.
  - intros H. apply andb_prop in H. destruct H as [He Hes].
    unfold dir_answers in He. unfold visit_dir, timed_files.
    destruct (e_is_dir e); cbn [negb orb] in *; cbv iota.
    + rewrite (visit_files_spec _ _ _ He). cbn [res_bind].
      rewrite (IH _ _ Hes), existsb_app, fold_left_app.
      now rewrite orb_assoc.
    + cbn [res_bind app]. now apply IH.
Qed.

Lemma visit_dirs_raise es acc :
  forallb dir_answers es = false -> exists e, visit_dirs old acc es = Err e.
Proof.
  revert acc. induction es as [| d es IH]; intros [changed cur];
    cbn [forallb visit_dirs]; [discriminate |].
  unfold dir_answers at 1, visit_dir.
  destruct (e_is_dir d); cbn [negb orb]; cbv iota.
  - destruct (forallb answers (e_tree d)) eqn:Hd; cbn [andb].
    + intros H. rewrite (visit_files_spec _ _ _ Hd). cbn [res_bind]. now apply IH.
    + intros _. destruct (visit_files_raise (e_tree d) (changed, cur) Hd) as [e ->].
      now exists e.
  - cbn [res_bind]. intros H. now apply IH.
Qed.

End Changes.

Lemma put_all_lookup_elem (l : list (string * Z)) (cur : gmap string Z) path m :
  fold_left put l cur !! path = Some m ->
  (path, m) ∈ l \/ cur !! path = Some m.
Proof.
  revert cur. induction l as [| [k v] l IH]; intros cur; simpl; [auto |].
  intros H. destruct (IH _ H) as [Hin | Hcur].
  - left. now right.
  - unfold put in Hcur. simpl in Hcur.
    destruct (decide (k = path)) as [-> | Hne].
    + rewrite lookup_insert_eq in Hcur. inversion Hcur; subst. left. now left.
    + rewrite lookup_insert_ne in Hcur by exact Hne. now right.
Qed.

Lemma put_all_lookup_fresh (l : list (string * Z)) (cur : gmap string Z) path :
  path ∉ l.*1 -> fold_left put l cur !! path = cur !! path.
Proof.
  revert cur. induction l as [| [k v] l IH]; intros cur Hnot; simpl; [reflexivity |].
  simpl in Hnot. rewrite not_elem_of_cons in Hnot. destruct Hnot as [Hne Hnot].
  rewrite IH by exact Hnot. unfold put. simpl. now rewrite lookup_insert_ne.
Qed.

Lemma put_all_lookup_nodup (l : list (string * Z)) (cur : gmap string Z) path m :
  NoDup l.*1 -> (path, m) ∈ l -> fold_left put l cur !! path = Some m.
Proof.
  revert cur. induction l as [| [k v] l IH]; intros cur Hnd Hin; simpl.
  - now apply elem_of_nil in Hin.
  - simpl in Hnd. apply NoDup_cons in Hnd. destruct Hnd as [Hk Hnd].
    apply elem_of_cons in Hin. destruct Hin as [Heq | Hin].
    + inversion Heq; subst. rewrite put_all_lookup_fresh by exact Hk.
      unfold put. simpl. apply lookup_insert_eq.
    + now apply IH.
Qed.

Lemma sample_lookup_elem fs path m :
  sample fs !! path = Some m -> (path, m) ∈ listed fs.
Proof.
  intros H. destruct (put_all_lookup_elem _ _ _ _ H) as [Hin | Hempty]; [exact Hin |].
  now rewrite lookup_empty in Hempty.
Qed.

Lemma changed_iff (old : gmap string Z) (fs : store) :
  NoDup (listed fs).*1 ->
  (if some_deleted old (sample fs) then true
   else false || existsb (differs old) (listed fs)) = true <->
  modified old (sample fs) \/ added old (sample fs) \/ removed old (sample fs).
Proof.
  intros Hnd. split.
  - destruct (some_deleted old (sample fs)) eqn:Hdel.
    + intros _. right. right. unfold some_deleted in Hdel.
      apply existsb_exists in Hdel. destruct Hdel as ([path m] & Hin & Hnone).
      apply list_elem_of_In, elem_of_map_to_list in Hin.
      apply bool_decide_eq_true_1 in Hnone. simpl in Hnone.
      exists path. split; [now exists m | exact Hnone].
    + simpl. intros Hex. apply existsb_exists in Hex.
      destruct Hex as ([path m] & Hin & Hdiff).
      apply list_elem_of_In in Hin.
      apply bool_decide_eq_true_1 in Hdiff. simpl in Hdiff.
      assert (Hcur : sample fs !! path = Some m)
        by (now apply put_all_lookup_nodup).
      destruct (old !! path) as [m0 |] eqn:Hold.
      * left. exists path, m0, m. repeat split; [exact Hold | exact Hcur | congruence].
      * right. left. exists path. split; [exact Hold | now exists m].
  - intros [(path & m & m' & Hold & Hcur & Hne) | [(path & Hold & [m Hcur]) | (path & [m Hold] & Hcur)]].
    + destruct (some_deleted old (sample fs)); [reflexivity |]. simpl.
      apply existsb_exists. exists (path, m'). split.
      * now apply list_elem_of_In, sample_lookup_elem.
      * apply bool_decide_eq_true_2. simpl. congruence.
    + destruct (some_deleted old (sample fs)); [reflexivity |]. simpl.
      apply existsb_exists. exists (path, m). split.
      * now apply list_elem_of_In, sample_lookup_elem.
      * apply bool_decide_eq_true_2. simpl. congruence.
    + replace (some_deleted old (sample fs)) with true; [reflexivity |].
      symmetry. apply existsb_exists. exists (path, m). split.
      * now apply list_elem_of_In, elem_of_map_to_list.
      * now apply bool_decide_eq_true_2.
Qed.

Lemma check_for_changes_idle fs w :
  idle w -> root_exists fs = true -> examinable fs = true ->
  exists tr,
    check_for_changes fs w =
      (Ret (if some_deleted (_FILE_MTIMES w) (sample fs) then true
            else false || existsb (differs (_FILE_MTIMES w)) (listed fs)),
       World (_INDEX w) (_CONTENT_INDEX w) (sample fs) (_USAGE_STATS w)
         (allocated w) [] tr).
Proof.
  destruct w as [i c m u a h t]; unfold idle; simpl; intros -> Hroot Hex.
  unfold check_for_changes. rewrite Hroot. simpl. run.
  rewrite (visit_dirs_spec _ _ _ _ Hex). eexists. reflexivity.
Qed.

Lemma check_for_changes_raises fs w :
  idle w -> root_exists fs = true -> examinable fs = false ->
  exists e tr,
    check_for_changes fs w =
      (Raise e,
       World (_INDEX w) (_CONTENT_INDEX w) (_FILE_MTIMES w) (_USAGE_STATS w)
         (allocated w) [] tr).
Proof.
  destruct w as [i c m u a h t]; unfold idle; simpl; intros -> Hroot Hex.
  unfold check_for_changes. rewrite Hroot. simpl. run.
  destruct (visit_dirs_raise m (entries fs) (false, ∅) Hex) as [e ->].
  eexists _, _. reflexivity.
Qed.




(** ** Loading the index *)

(** C2 fails on the code: a [_meta.json] that parses to a number, or whose
    [sub_skills] list holds a number, makes [validate_meta] raise a
    [TypeError] that [load_index] does not catch; nothing is returned, and
    the well-formed domain [forms] next to it is not loaded. *)
Lemma load_index_raises_on_malformed_meta :
  validate_meta (JInt 5) "notes" = Err TypeError /\
  load_index (store_of [scalar_dir; forms_dir]) (initial_world "start")
    = (Raise TypeError, initial_world "start") /\
  load_index (store_of [forms_dir; bad_sub_dir]) (initial_world "start")
    = (Raise TypeError, initial_world "start") /\
  fst (_reload_index (store_of [forms_dir; bad_sub_dir]) "now" (initial_world "start"))
    = Raise TypeError /\
  load_index (store_of [forms_dir]) (initial_world "start")
    = (Ret (Index [forms_meta] []),
       World None (Some (build_content_index forms_store)) ∅
         (UsageStats ∅ ∅ [] "start") [] []
         [Acquire CONTENT_INDEX_LOCK; Release CONTENT_INDEX_LOCK]).
Proof. repeat split; reflexivity. Qed.

(** ** Lock discipline *)

(** C9 fails on the code: the first [get_index] takes [_CONTENT_INDEX_LOCK]
    while it holds [_INDEX_LOCK]; [_search_content] on a state that has no
    content index yet takes [_INDEX_LOCK] under [_CONTENT_INDEX_LOCK] and then
    waits for ever for the lock it holds.  The explicit reload and the file
    watcher take their locks one at a time. *)
Lemma lazy_load_nests_locks :
  let w0 := initial_world "start" in
  lock_trace (snd (get_index forms_store w0))
    = [Acquire INDEX_LOCK; Acquire CONTENT_INDEX_LOCK;
       Release CONTENT_INDEX_LOCK; Release INDEX_LOCK] /\
  peak_held 0 (lock_trace (snd (get_index forms_store w0))) = 2%nat /\
  fst (_search_content forms_store "now" "zod" 10 w0) = Blocked CONTENT_INDEX_LOCK /\
  held (snd (_search_content forms_store "now" "zod" 10 w0))
    = [INDEX_LOCK; CONTENT_INDEX_LOCK] /\
  peak_held 0 (lock_trace (snd (_reload_index forms_store "now" w0))) = 1%nat /\
  peak_held 0 (lock_trace (snd (file_watcher_cycle forms_store w0))) = 1%nat.
Proof. repeat split; reflexivity. Qed.

(** ** Content search *)

Lemma starts_with_take q n s :
  PyStr.starts_with q (PyStr.take n s)
  = PyStr.starts_with q s && (String.length q <=? n)%nat.
Proof.
  revert n s. induction q as [| a q IH]; intros n s; [reflexivity |].
  destruct n as [| n], s as [| b s]; simpl; try reflexivity.
  - now rewrite andb_false_r.
  - rewrite IH. now rewrite andb_assoc.
Qed.

Lemma starts_with_empty q : PyStr.starts_with q EmptyString = true -> q = EmptyString.
Proof. destruct q; [reflexivity | discriminate]. Qed.

Lemma find_cons c s q :
  PyStr.find (String c s) q =
    if PyStr.starts_with q (String c s) then Some 0%nat
    else option_map S (PyStr.find s q).
Proof. reflexivity. Qed.

Lemma find_nil q :
  PyStr.find EmptyString q = if PyStr.starts_with q EmptyString then Some 0%nat else None.
Proof. reflexivity. Qed.

Lemma find_take q n s :
  PyStr.find (PyStr.take n s) q =
    match PyStr.find s q with
    | Some pos => if (pos + String.length q <=? n)%nat then Some pos else None
    | None => None
    end.
Proof.
  revert n. induction s as [| c s IH]; intros n.
  - replace (PyStr.take n EmptyString) with EmptyString by (destruct n; reflexivity).
    rewrite find_nil. destruct (PyStr.starts_with q EmptyString) eqn:Hq; [| reflexivity].
    apply starts_with_empty in Hq. subst q. reflexivity.
  - rewrite (find_cons c s q).
    destruct n as [| n].
    + simpl PyStr.take. rewrite find_nil.
      destruct q as [| a q]; [reflexivity |].
      replace (PyStr.starts_with (String a q) EmptyString) with false by reflexivity.
      destruct (PyStr.starts_with (String a q) (String c s)); [reflexivity |].
      destruct (PyStr.find s (String a q)) as [pos |]; [| reflexivity].
      simpl. reflexivity.
    + simpl PyStr.take. rewrite find_cons.
      pose proof (starts_with_take q (S n) (String c s)) as Ht.
      simpl PyStr.take in Ht. rewrite Ht, IH.
      destruct (PyStr.starts_with q (String c s)); simpl andb.
      * simpl Nat.add.
        destruct (Nat.leb_spec (String.length q) (S n)) as [Hle | Hgt]; [reflexivity |].
        destruct (PyStr.find s q) as [pos |]; [| reflexivity].
        destruct (Nat.leb_spec (pos + String.length q) n); [lia | reflexivity].
      * destruct (PyStr.find s q) as [pos |]; [| reflexivity].
        cbn [option_map].
        change (S pos + String.length q <=? S n)%nat
          with (pos + String.length q <=? n)%nat.
        destruct (pos + String.length q <=? n)%nat; reflexivity.
Qed.

Lemma contains_take q n s :
  PyStr.contains q (PyStr.take n s) =
    match PyStr.find s q with
    | Some pos => (pos + String.length q <=? n)%nat
    | None => false
    end.
Proof.
  unfold PyStr.contains. rewrite find_take.
  destruct (PyStr.find s q) as [pos |]; [| reflexivity].
  destruct (pos + String.length q <=? n)%nat; reflexivity.
Qed.

Lemma search_content_loaded fs now query limit w cidx :
  idle w -> _CONTENT_INDEX w = Some cidx ->
  query_blank query = false ->
  (String.length query <= 1000)%nat ->
  (length (PyStr.split (PyStr.lower query)) <= 100)%nat ->
  exists w',
    _search_content fs now query limit w =
      (Ret (SearchResults query
              (firstn (clamp_limit limit)
                 (sort_desc ch_score
                    (flat_map (content_hits (PyStr.lower query)
                                 (PyStr.split (PyStr.lower query))) cidx)))),
       w').
Proof.
  intros Hidle Hc Hblank Hlen Hwords. unfold _search_content.
  rewrite Hblank.
  destruct (Nat.ltb_spec 1000 (String.length query)) as [? | _]; [lia |].
  destruct (Nat.ltb_spec 100 (length (PyStr.split (PyStr.lower query)))) as [? | _]; [lia |].
  destruct w as [i c m u a h t]. unfold idle in Hidle. simpl in Hidle, Hc. subst h c.
  unfold track_usage. run. eexists. reflexivity.
Qed.

(** C3 (amended). For a valid query whose lower-cased text occurs in the
    content of an indexed entry, the entry is reported with score exactly 1.2
    when the first occurrence ends within the first 500 characters (the query
    is a substring of [content[:500]]), and exactly 1.0 otherwise, also when
    that occurrence starts before character 500 and runs past it. *)
Theorem exact_phrase_score (fs : store) (now query : string) (limit : Z)
    (w : world) (cidx : list (string * content_entry))
    (key : string) (entry : content_entry) :
  idle w -> _CONTENT_INDEX w = Some cidx -> In (key, entry) cidx ->
  query_blank query = false ->
  (String.length query <= 1000)%nat ->
  (length (PyStr.split (PyStr.lower query)) <= 100)%nat ->
  PyStr.contains (PyStr.lower query) (c_content entry) = true ->
  exists pos,
    PyStr.find (c_content entry) (PyStr.lower query) = Some pos /\
    let score := if (pos + String.length (PyStr.lower query) <=? 500)%nat
                 then 1.2%float else 1.0%float in
    let found := ContentHit (c_domain entry) (c_sub_skill entry) (c_file entry) score
                   (extract_snippet (c_content entry) (PyStr.lower query) 150) in
    content_score (PyStr.lower query) (PyStr.split (PyStr.lower query))
      (c_content entry) = score /\
    exists results w',
      _search_content fs now query limit w =
        (Ret (SearchResults query
                (firstn (clamp_limit limit) (sort_desc ch_score results))), w') /\
      In found results.
Proof.
  intros Hidle Hc Hin Hblank Hlen Hwords Hsub.
  unfold PyStr.contains in Hsub.
  destruct (PyStr.find (c_content entry) (PyStr.lower query)) as [pos |] eqn:Hfind;
    [| discriminate].
  exists pos. split; [reflexivity |].
  assert (Hscore :
    content_score (PyStr.lower query) (PyStr.split (PyStr.lower query)) (c_content entry)
    = if (pos + String.length (PyStr.lower query) <=? 500)%nat
      then 1.2%float else 1.0%float).
  { unfold content_score. rewrite contains_take. unfold PyStr.contains.
    rewrite Hfind. reflexivity. }
  cbv zeta. split; [exact Hscore |].
  destruct (search_content_loaded fs now query limit w cidx Hidle Hc Hblank Hlen Hwords)
    as [w' Hrun].
  eexists _, w'. split; [exact Hrun |].
  apply in_flat_map. exists (key, entry). split; [exact Hin |].
  unfold content_hits. simpl snd. rewrite Hscore.
  destruct (pos + String.length (PyStr.lower query) <=? 500)%nat; left; reflexivity.
Qed.

Lemma exact_phrase_score_witness :
  let entry := ContentEntry "forms" None "SKILL.md"
                 (PyStr.repeat "a" 498 ++ "hello world") in
  let w := World None (Some [("forms:SKILL.md", entry)]) ∅
             (UsageStats ∅ ∅ [] "start") [] [] [] in
  exists results w',
    _search_content forms_store "now" "Hello" 10 w =
      (Ret (SearchResults "Hello" (firstn 10 (sort_desc ch_score results))), w') /\
    In (ContentHit "forms" None "SKILL.md" 1.0
          (extract_snippet (c_content entry) "hello" 150)) results.
Proof.
  intros entry w.
  destruct (exact_phrase_score forms_store "now" "Hello" 10 w
              [("forms:SKILL.md", entry)] "forms:SKILL.md" entry)
    as (pos & Hpos & _ & results & w' & Hrun & Hin).
  - reflexivity.
  - reflexivity.
  - now left.
  - reflexivity.
  - simpl. lia.
  - simpl. lia.
  - vm_compute. reflexivity.
  - exists results, w'. split; [exact Hrun |].
    vm_compute in Hpos. injection Hpos as <-. exact Hin.
Defined.

(** C3, as stated, fails: a match that starts at character 498, within the
    first 500, scores 1.0. *)
Lemma boundary_match_not_boosted :
  let content := (PyStr.repeat "a" 498 ++ "hello world")%string in
  PyStr.find content "hello" = Some 498%nat /\
  (498 < 500)%nat /\
  content_score "hello" ["hello"] content = 1.0%float /\
  content_score "hello" ["hello"] content <> 1.2%float.
Proof.
  intros content. split; [vm_compute; reflexivity |]. split; [lia |].
  split; [vm_compute; reflexivity |].
  intros H. apply (f_equal (PrimFloat.eqb 1.2)) in H.
  vm_compute in H. discriminate H.
Qed.

(** ** Metadata search *)

Lemma lower_length s : String.length (PyStr.lower s) = String.length s.
Proof. induction s as [| c s IH]; simpl; [reflexivity | now rewrite IH]. Qed.

Lemma lower_char_idem c : PyStr.lower_char (PyStr.lower_char c) = PyStr.lower_char c.
Proof. destruct c as [[] [] [] [] [] [] [] []]; reflexivity. Qed.

Lemma lower_idem s : PyStr.lower (PyStr.lower s) = PyStr.lower s.
Proof.
  induction s as [| c s IH]; simpl; [reflexivity |].
  now rewrite lower_char_idem, IH.
Qed.

Lemma is_space_lower_char c : PyStr.is_space (PyStr.lower_char c) = PyStr.is_space c.
Proof. destruct c as [[] [] [] [] [] [] [] []]; reflexivity. Qed.

Lemma lower_eq_empty s : String.eqb (PyStr.lower s) EmptyString = String.eqb s EmptyString.
Proof. destruct s; reflexivity. Qed.

Lemma lstrip_lower s : PyStr.lstrip (PyStr.lower s) = PyStr.lower (PyStr.lstrip s).
Proof.
  induction s as [| c s IH]; simpl; [reflexivity |].
  rewrite is_space_lower_char. destruct (PyStr.is_space c); [exact IH | reflexivity].
Qed.

Lemma rstrip_lower s : PyStr.rstrip (PyStr.lower s) = PyStr.lower (PyStr.rstrip s).
Proof.
  induction s as [| c s IH]; simpl; [reflexivity |].
  rewrite IH, is_space_lower_char.
  destruct (PyStr.rstrip s); simpl; [| reflexivity].
  destruct (PyStr.is_space c); reflexivity.
Qed.

Lemma query_blank_lower q : query_blank (PyStr.lower q) = query_blank q.
Proof.
  unfold query_blank, PyStr.strip.
  now rewrite lstrip_lower, rstrip_lower, !lower_eq_empty.
Qed.

Lemma any_contains_str_list ql items :
  forallb Py.is_str items = true ->
  exists b, any_contains ql (JArr items) = Ok b.
Proof.
  unfold any_contains. simpl. induction items as [| x items IH]; simpl.
  - intros _. now exists false.
  - intros H. apply andb_prop in H. destruct H as [Hx Hitems].
    destruct x; try discriminate Hx. simpl.
    destruct (PyStr.contains ql (PyStr.lower s)); [now exists true | now apply IH].
Qed.

Lemma any_contains_optional ql fields key :
  optional str_list (Py.dict_get fields key) = true ->
  exists b,
    (let* v := Py.get (JObj fields) key (JArr []) in any_contains ql v)%res = Ok b.
Proof.
  simpl. destruct (Py.dict_get fields key) as [v |]; simpl.
  - intros H. destruct v; try discriminate H. now apply any_contains_str_list.
  - intros _. now exists false.
Qed.

Lemma sub_hits_conforms ql skill domain sub :
  Py.getitem skill "name" = Ok domain ->
  sub_conforms sub = true ->
  exists hs, sub_hits ql skill sub = Ok hs
             /\ Forall (fun h => exists s, h_sub_skill h = Some s) hs.
Proof.
  intros Hdomain Hsub. destruct sub as [ | | | | | | fields]; try discriminate Hsub.
  simpl in Hsub.
  destruct (Py.dict_get fields "name") as [[ | | | | name | | ] |] eqn:Hname;
    try discriminate Hsub.
  destruct (Py.dict_get fields "file") as [[ | | | | file | | ] |] eqn:Hfile;
    try discriminate Hsub.
  destruct (any_contains_optional ql fields "triggers" Hsub) as [b Hb].
  unfold sub_hits, sub_match. simpl in *. rewrite Hname. simpl.
  destruct (PyStr.contains ql (PyStr.lower name)); simpl.
  - rewrite Hdomain. simpl. eexists. split; [reflexivity |].
    constructor; [now eexists | constructor].
  - rewrite Hb. simpl. destruct b; simpl.
    + rewrite Hdomain. simpl. eexists. split; [reflexivity |].
      constructor; [now eexists | constructor].
    + eexists. split; [reflexivity | constructor].
Qed.

Lemma concat_sub_hits ql skill domain subs :
  Py.getitem skill "name" = Ok domain ->
  forallb sub_conforms subs = true ->
  exists hs, concat_res (sub_hits ql skill) subs = Ok hs
             /\ Forall (fun h => exists s, h_sub_skill h = Some s) hs.
Proof.
  intros Hdomain. induction subs as [| sub subs IH]; simpl.
  - intros _. exists []. split; [reflexivity | constructor].
  - intros H. apply andb_prop in H. destruct H as [Hsub Hsubs].
    destruct (sub_hits_conforms ql skill domain sub Hdomain Hsub) as (hs & -> & Hhs).
    destruct (IH Hsubs) as (more & -> & Hmore). simpl.
    eexists. split; [reflexivity |]. now apply Forall_app.
Qed.

Lemma skill_hits_conforms ql skill :
  conforms skill = true ->
  exists name own below,
    Py.getitem skill "name" = Ok (JStr name) /\
    domain_hits ql skill = Ok own /\
    skill_hits ql skill = Ok (own ++ below) /\
    Forall (fun h => h_sub_skill h = None /\ h_domain h = JStr name) own /\
    Forall (fun h => exists s, h_sub_skill h = Some s) below.
Proof.
  intros Hok. destruct skill as [ | | | | | | fields]; try discriminate Hok.
  simpl in Hok.
  destruct (Py.dict_get fields "name") as [[ | | | | name | | ] |] eqn:Hname;
    try discriminate Hok.
  destruct (Py.dict_get fields "description") as [[ | | | | descr | | ] |] eqn:Hdescr;
    try discriminate Hok.
  apply andb_prop in Hok. destruct Hok as [Htags Hsubs].
  destruct (any_contains_optional ql fields "tags" Htags) as [b Hb].
  assert (Hdomain : Py.getitem (JObj fields) "name" = Ok (JStr name))
    by (simpl; now rewrite Hname).
  assert (Hown : exists own,
             domain_hits ql (JObj fields) = Ok own /\
             Forall (fun h => h_sub_skill h = None /\ h_domain h = JStr name) own).
  { unfold domain_hits, domain_match. simpl in *. rewrite Hname. simpl.
    destruct (PyStr.contains ql (PyStr.lower name)); simpl.
    - eexists. split; [reflexivity |]. constructor; [now split | constructor].
    - rewrite Hdescr. simpl.
      destruct (PyStr.contains ql (PyStr.lower descr)); simpl.
      + eexists. split; [reflexivity |].
        constructor; [now split | constructor].
      + rewrite Hb. simpl. destruct b; simpl.
        * eexists. split; [reflexivity |].
          constructor; [now split | constructor].
        * eexists. split; [reflexivity | constructor]. }
  destruct Hown as (own & Hown & Hforall).
  assert (Hbelow : exists below,
             (let* subs := Py.get (JObj fields) "sub_skills" (JArr []) in
              let* items := Py.iter subs in
              concat_res (sub_hits ql (JObj fields)) items)%res = Ok below /\
             Forall (fun h => exists s, h_sub_skill h = Some s) below).
  { simpl. destruct (Py.dict_get fields "sub_skills") as [v |]; simpl in *.
    - destruct v; try discriminate Hsubs. simpl.
      now apply (concat_sub_hits ql (JObj fields) (JStr name)).
    - exists []. split; [reflexivity | constructor]. }
  destruct Hbelow as (below & Hbelow & Hforall').
  exists name, own, below. split; [exact Hdomain |]. split; [exact Hown |].
  split; [| split; assumption].
  unfold skill_hits. rewrite Hown. simpl. simpl in Hbelow.
  destruct (Py.dict_get fields "sub_skills") as [v |]; simpl in *.
  - destruct (Py.iter v); simpl in *; [| discriminate Hbelow].
    now rewrite Hbelow.
  - injection Hbelow as <-. reflexivity.
Qed.

Lemma filter_domain_level_own name name' own :
  Forall (fun h => h_sub_skill h = None /\ h_domain h = JStr name') own ->
  List.filter (domain_level name) own = if String.eqb name' name then own else [].
Proof.
  induction 1 as [| h own [Hsub Hdom] _ IH]; simpl.
  - now destruct (String.eqb name' name).
  - unfold domain_level at 1. rewrite Hsub, Hdom, IH. simpl.
    now destruct (String.eqb name' name).
Qed.

Lemma filter_domain_level_below name below :
  Forall (fun h => exists s, h_sub_skill h = Some s) below ->
  List.filter (domain_level name) below = [].
Proof.
  induction 1 as [| h below [s Hs] _ IH]; simpl; [reflexivity |].
  unfold domain_level at 1. now rewrite Hs.
Qed.

Lemma candidates_conform ql name skills errs :
  forallb conforms skills = true ->
  exists results,
    search_candidates ql (Index skills errs) = Ok results /\
    List.filter (domain_level name) results
    = flat_map (own_hits ql) (List.filter (named name) skills).
Proof.
  unfold search_candidates. simpl. induction skills as [| skill skills IH]; simpl.
  - intros _. exists []. split; reflexivity.
  - intros H. apply andb_prop in H. destruct H as [Hskill Hskills].
    destruct (skill_hits_conforms ql skill Hskill)
      as (name' & own & below & Hname & Hown & Hhits & Fown & Fbelow).
    destruct (IH Hskills) as (more & Hmore & Hfilter).
    rewrite Hhits, Hmore. simpl. eexists. split; [reflexivity |].
    rewrite !List.filter_app, Hfilter, (filter_domain_level_own name name' own Fown),
      (filter_domain_level_below name below Fbelow).
    assert (Hnamed : named name skill = String.eqb name' name)
      by (unfold named; now rewrite Hname).
    assert (Hown' : own_hits ql skill = own)
      by (unfold own_hits; now rewrite Hown).
    rewrite Hnamed. destruct (String.eqb name' name).
    + cbn [flat_map]. now rewrite Hown', app_nil_r.
    + reflexivity.
Qed.

Lemma sort_desc_perm {A} (key : A -> float) (l : list A) :
  Permutation (sort_desc key l) l.
Proof.
  induction l as [| x l IH]; simpl; [constructor |].
  transitivity (x :: sort_desc key l); [| now constructor].
  generalize (sort_desc key l). clear. intros l.
  induction l as [| y l IH]; simpl; [reflexivity |].
  destruct (PrimFloat.ltb (key x) (key y)); [| reflexivity].
  rewrite IH. apply perm_swap.
Qed.

Lemma filter_perm {A} (p : A -> bool) (l l' : list A) :
  Permutation l l' -> Permutation (List.filter p l) (List.filter p l').
Proof.
  induction 1 as [| x l l' _ IH | x y l | l l' l'' _ IH1 _ IH2]; simpl.
  - constructor.
  - destruct (p x); [now constructor | exact IH].
  - destruct (p x), (p y); try reflexivity. apply perm_swap.
  - now transitivity (List.filter p l').
Qed.

Lemma search_skills_loaded fs now query limit w idx results :
  idle w -> current_index fs w = Ok idx ->
  query_blank query = false ->
  (String.length query <= 1000)%nat ->
  search_candidates (PyStr.lower query) idx = Ok results ->
  exists w',
    _search_skills fs now query limit w =
      (Ret (SearchResults query
              (firstn (clamp_limit limit) (sort_desc h_score results))), w').
Proof.
  intros Hidle Hidx Hblank Hlen Hcand. unfold _search_skills. rewrite Hblank.
  destruct (Nat.ltb_spec 1000 (String.length query)) as [? | _]; [lia |].
  destruct (track_usage_idle "search_skills" (Details None None (Some query)) now w Hidle)
    as [tr Htrack].
  unfold bind at 1. rewrite Htrack.
  match goal with
  | |- context [World ?i ?c ?m ?u ?a [] tr] =>
      destruct (get_index_idle fs (World i c m u a [] tr) idx eq_refl Hidx)
        as (c2 & tr2 & Hget)
  end.
  unfold bind at 1. rewrite Hget. rewrite Hcand. run. eexists. reflexivity.
Qed.

Lemma search_skills_idle fs now query limit w idx :
  idle w -> current_index fs w = Ok idx ->
  query_blank query = false ->
  (String.length query <= 1000)%nat ->
  fst (_search_skills fs now query limit w)
  = match search_candidates (PyStr.lower query) idx with
    | Ok results =>
        Ret (SearchResults query
               (firstn (clamp_limit limit) (sort_desc h_score results)))
    | Err e => Raise e
    end.
Proof.
  intros Hidle Hidx Hblank Hlen. unfold _search_skills. rewrite Hblank.
  destruct (Nat.ltb_spec 1000 (String.length query)) as [? | _]; [lia |].
  destruct (track_usage_idle "search_skills" (Details None None (Some query)) now w Hidle)
    as [tr Htrack].
  unfold bind at 1. rewrite Htrack.
  match goal with
  | |- context [World ?i ?c ?m ?u ?a [] tr] =>
      destruct (get_index_idle fs (World i c m u a [] tr) idx eq_refl Hidx)
        as (c2 & tr2 & Hget)
  end.
  unfold bind at 1. rewrite Hget.
  destruct (search_candidates (PyStr.lower query) idx); reflexivity.
Qed.

(** C1 (amended). For a valid query and a domain record whose name does not
    contain the query and whose description does, whether or not a tag does,
    the record's domain-level match is "description" with score 0.7: the
    rules are tried in the order name, description, tags.  When the index
    conforms to the schema and no other record bears that name, the sorted
    results, before the cut at [limit], hold exactly one domain-level entry
    for that domain, and it is that one. *)
Theorem description_rule_before_tags (fs : store) (now query : string)
    (limit : Z) (w : world) (idx : index)
    (fields : list (string * json)) (name description : string) :
  idle w -> current_index fs w = Ok idx ->
  query_blank query = false ->
  (String.length query <= 1000)%nat ->
  forallb conforms (skills idx) = true ->
  List.filter (named name) (skills idx) = [JObj fields] ->
  Py.dict_get fields "description" = Some (JStr description) ->
  PyStr.contains (PyStr.lower query) (PyStr.lower name) = false ->
  PyStr.contains (PyStr.lower query) (PyStr.lower description) = true ->
  domain_match (PyStr.lower query) (JObj fields)
    = Ok (0.7%float, Some MatchDescription) /\
  exists results w',
    _search_skills fs now query limit w =
      (Ret (SearchResults query
              (firstn (clamp_limit limit) (sort_desc h_score results))), w') /\
    List.filter (domain_level name) (sort_desc h_score results)
      = [Hit (JStr name) None 0.7 (Some MatchDescription)].
Proof.
  intros Hidle Hidx Hblank Hlen Hconf Hunique Hdescr Hname_no Hdescr_yes.
  assert (Hin : In (JObj fields) (List.filter (named name) (skills idx)))
    by (rewrite Hunique; now left).
  apply filter_In in Hin. destruct Hin as [_ Hnamed].
  unfold named in Hnamed. simpl in Hnamed.
  destruct (Py.dict_get fields "name") as [v |] eqn:Hname; [| discriminate Hnamed].
  simpl in Hnamed. destruct v; try discriminate Hnamed. simpl in Hnamed.
  apply String.eqb_eq in Hnamed. subst s.
  assert (Hmatch : domain_match (PyStr.lower query) (JObj fields)
                   = Ok (0.7%float, Some MatchDescription)).
  { unfold domain_match. simpl. rewrite Hname. simpl. rewrite Hname_no.
    rewrite Hdescr. simpl. now rewrite Hdescr_yes. }
  split; [exact Hmatch |].
  destruct idx as [skills errs]. simpl in Hconf, Hunique.
  destruct (candidates_conform (PyStr.lower query) name skills errs Hconf)
    as (results & Hcand & Hfilter).
  destruct (search_skills_loaded fs now query limit w (Index skills errs) results
              Hidle Hidx Hblank Hlen Hcand) as [w' Hrun].
  exists results, w'. split; [exact Hrun |].
  apply Permutation_length_1_inv. symmetry.
  rewrite (filter_perm (domain_level name) _ _ (sort_desc_perm h_score results)).
  rewrite Hfilter, Hunique. simpl. unfold own_hits, domain_hits.
  rewrite Hmatch. simpl. rewrite Hname. reflexivity.
Qed.

Lemma description_rule_before_tags_witness :
  exists results w',
    _search_skills forms_store "now" "Validation" 5 (initial_world "start") =
      (Ret (SearchResults "Validation" (firstn 5 (sort_desc h_score results))), w') /\
    List.filter (domain_level "forms") (sort_desc h_score results)
      = [Hit (JStr "forms") None 0.7 (Some MatchDescription)].
Proof.
  destruct (description_rule_before_tags forms_store "now" "Validation" 5
              (initial_world "start") (Index [forms_meta] [])
              [("name", JStr "forms");
               ("description", JStr "HTML forms with validation");
               ("tags", JArr [JStr "html"; JStr "validation"]);
               ("sub_skills",
                JArr [JObj [("name", JStr "validation");
                            ("file", JStr "references/validation.md");
                            ("triggers", JArr [JStr "zod"])]])]
              "forms" "HTML forms with validation")
    as [_ H]; try reflexivity.
  - simpl. lia.
  - exact H.
Defined.

(** C1, as stated, fails: the query "validation" is in the description and
    in a tag of [forms], not in its name, and the one domain-level result is
    the "description" match with score 0.7, not "tags" with 0.8. *)
Lemma tags_do_not_beat_description :
  PyStr.contains "validation" (PyStr.lower "forms") = false /\
  PyStr.contains "validation" (PyStr.lower "HTML forms with validation") = true /\
  any_contains "validation" (JArr [JStr "html"; JStr "validation"]) = Ok true /\
  fst (_search_skills forms_store "now" "validation" 5 (initial_world "start"))
  = Ret (SearchResults "validation"
           [Hit (JStr "forms") (Some (JStr "validation")) 0.85 (Some MatchName);
            Hit (JStr "forms") None 0.7 (Some MatchDescription)]) /\
  domain_match "validation" forms_meta <> Ok (0.8%float, Some MatchTags).
Proof.
  repeat split; try (vm_compute; reflexivity).
  intros H. vm_compute in H. discriminate H.
Qed.

(** ** What the operations record *)

Section Frame.

Context {X : Type} (g : usage_stats -> X).

Lemma preserves_ret {A} (a : A) : preserves g (ret a).
Proof. intros w. reflexivity. Qed.

Lemma preserves_raise {A} (e : exn) : preserves g (@raise A e).
Proof. intros w. reflexivity. Qed.

Lemma preserves_lift {A} (r : res A) : preserves g (lift r).
Proof. intros w. destruct r; reflexivity. Qed.

Lemma preserves_bind {A B} (m : M A) (k : A -> M B) :
  preserves g m -> (forall a, preserves g (k a)) -> preserves g (bind m k).
Proof.
  intros Hm Hk w. unfold bind. specialize (Hm w).
  destruct (m w) as [[a | e | l] w1]; simpl in *; [| exact Hm | exact Hm].
  now rewrite (Hk a w1).
Qed.

Lemma preserves_with_lock {A} (l : lock) (body : M A) :
  preserves g body -> preserves g (with_lock l body).
Proof.
  intros Hbody w. unfold with_lock, acquire.
  destruct (holds l (held w)); [reflexivity |].
  match goal with |- context [body ?W] => specialize (Hbody W) end.
  destruct (body _) as [[a | e | l'] w2]; simpl in *; exact Hbody.
Qed.

Lemma preserves_load_index fs : preserves g (load_index fs).
Proof.
  unfold load_index. destruct (negb (root_exists fs)); [apply preserves_ret |].
  apply preserves_bind; [apply preserves_lift | intros idx].
  apply preserves_bind; [| intros; apply preserves_ret].
  apply preserves_with_lock. intros w. reflexivity.
Qed.

Lemma preserves_get_index fs : preserves g (get_index fs).
Proof.
  unfold get_index. apply preserves_with_lock. intros w.
  destruct (_INDEX w); [reflexivity |].
  apply (preserves_bind (load_index fs)); [apply preserves_load_index |].
  intros idx w'. reflexivity.
Qed.

Lemma preserves_content_count : preserves g content_count.
Proof. unfold content_count. apply preserves_with_lock. intros w. reflexivity. Qed.


End Frame.

Create HintDb frame.
#[local] Hint Resolve preserves_ret preserves_raise preserves_lift
  preserves_load_index preserves_get_index preserves_content_count : frame.

(** Splits an operation along its binds and branches and closes the parts
    that do not touch the statistics. *)
Ltac frame :=
  repeat first
    [ progress auto with frame
    | apply preserves_with_lock
    | apply preserves_bind; [| intros ?]
    | match goal with
      | |- preserves _ (match ?x with _ => _ end) => destruct x
      | |- preserves _ (if ?x then _ else _) => destruct x
      end ].

Lemma increment_same k (d : gmap string nat) :
  increment k d !! k = Some (S (default 0%nat (d !! k))).
Proof.
  unfold increment. destruct (d !! k) as [n |] eqn:Hk.
  - rewrite lookup_insert_eq. now rewrite Hk.
  - rewrite lookup_insert_eq. now rewrite lookup_insert_eq.
Qed.

Lemma increment_other k k' (d : gmap string nat) :
  k <> k' -> increment k d !! k' = d !! k'.
Proof.
  intros Hne. unfold increment. destruct (d !! k) as [n |] eqn:Hk.
  - now rewrite lookup_insert_ne.
  - now rewrite !lookup_insert_ne.
Qed.

Lemma tracked_then {A} tool_name d now (rest : M A) w :
  idle w -> preserves (fun st => st) rest ->
  _USAGE_STATS (snd ((track_usage tool_name d now ;; rest)%M w))
  = record_usage tool_name d now (_USAGE_STATS w).
Proof.
  intros Hidle Hrest. destruct (track_usage_idle tool_name d now w Hidle) as [tr H].
  unfold bind. rewrite H. now rewrite Hrest.
Qed.


Lemma safe_name_is_str name :
  is_safe_skill_name name = true -> exists s, name = JStr s.
Proof.
  intros H. destruct name as [ | b | z | f | s | l | l];
    try (exfalso; unfold is_safe_skill_name in H; simpl in H;
         rewrite ?orb_true_r in H; discriminate H).
  now exists s.
Qed.




Lemma load_index_idle fs w :
  idle w ->
  match scan fs with
  | Ok idx =>
      exists c tr,
        load_index fs w =
          (Ret idx, World (_INDEX w) c (_FILE_MTIMES w) (_USAGE_STATS w)
                      (allocated w) [] tr)
  | Err e => load_index fs w = (Raise e, w)
  end.
Proof.
  destruct w as [i c m u a h t]; unfold idle; simpl; intros ->.
  unfold scan, load_index. destruct (root_exists fs); simpl.
  - destruct (load_metas (Index [] []) (entries fs)) as [idx | e]; simpl.
    + eexists _, _. reflexivity.
    + reflexivity.
  - eexists _, _. reflexivity.
Qed.




(** ** Batch get *)


Lemma conforms_sub_skills fields :
  conforms (JObj fields) = true ->
  exists subs,
    (let* v := Py.get (JObj fields) "sub_skills" (JArr []) in Py.iter v)%res = Ok subs
    /\ forallb sub_conforms subs = true.
Proof.
  simpl.
  destruct (Py.dict_get fields "name") as [[ | | | | name | | ] |]; try discriminate.
  destruct (Py.dict_get fields "description") as [[ | | | | descr | | ] |];
    try discriminate.
  intros H. apply andb_prop in H. destruct H as [_ Hsubs].
  destruct (Py.dict_get fields "sub_skills") as [v |]; simpl in *.
  - destruct v; try discriminate Hsubs. now eexists.
  - now exists [].
Qed.

Lemma sub_conforms_fields sub :
  sub_conforms sub = true ->
  exists name file,
    Py.getitem sub "name" = Ok (JStr name) /\
    Py.getitem sub "file" = Ok (JStr file) /\
    Py.truthy sub = true.
Proof.
  destruct sub as [ | | | | | | fields]; try discriminate. simpl.
  destruct (Py.dict_get fields "name") as [[ | | | | name | | ] |] eqn:Hn;
    try discriminate.
  destruct (Py.dict_get fields "file") as [[ | | | | file | | ] |]; try discriminate.
  intros _. exists name, file. repeat split.
  destruct fields; [discriminate Hn | reflexivity].
Qed.

Lemma sub_names_conform subs :
  forallb sub_conforms subs = true ->
  exists names, Py.map_res (fun sub => Py.getitem sub "name") subs = Ok names.
Proof.
  induction subs as [| sub subs IH]; simpl.
  - intros _. now exists [].
  - intros H. apply andb_prop in H. destruct H as [Hsub Hsubs].
    destruct (sub_conforms_fields sub Hsub) as (n & f & -> & _).
    destruct (IH Hsubs) as [names ->]. simpl. now eexists.
Qed.


(** Runs an operation on a state in which no lock is held. *)
Ltac on_idle w Hidle :=
  destruct w as [?i ?c ?m ?u ?a ?h ?t];
  unfold idle in Hidle; simpl in Hidle; subst;
  unfold track_usage; run.

Ltac read_index fs idx Hidx :=
  match goal with
  | |- context [get_index fs ?W] =>
      let c := fresh "c" in
      let tr := fresh "tr" in
      let Hget := fresh "Hget" in
      destruct (get_index_idle fs W idx eq_refl Hidx) as (c & tr & Hget);
      simpl in Hget; rewrite Hget; clear Hget
  end.




#[local] Arguments Py.truthy : simpl never.






(** A safe name that the file system refuses: [exists()] raises in
    [_get_skill], and the batch raises with it. *)
Example batch_raises_on_long_name :
  let long := PyStr.repeat "a" 256 in
  is_safe_skill_name (JStr long) = true /\
  fst (_get_skill forms_store "now" (JStr long) (initial_world "start"))
    = Raise OSError /\
  fst (_get_skills_batch forms_store "now"
         [JObj [("domain", JStr "forms")]; JObj [("domain", JStr long)]]
         (initial_world "start"))
    = Raise OSError.
Proof. repeat split; vm_compute; reflexivity. Qed.

Example batch_mixed_run :
  fst (_get_skills_batch forms_store "now"
         [JObj [("domain", JStr "forms")];
          JObj [("domain", JStr "../forms")];
          JObj [("domain", JStr "forms"); ("sub_skill", JStr "validation")];
          JObj [("domain", JStr "charts")]]
         (initial_world "start"))
  = Ret [SkillContent "forms" "# Forms" [JStr "validation"] true;
         FetchError (InvalidSkillName (JStr "../forms"));
         SubSkillContent "forms" (JStr "validation") "Validate with Zod";
         FetchError (SkillNotFound "charts")].
Proof. vm_compute. reflexivity. Qed.


(** ** Letter case in the metadata search *)

Lemma dict_get_lower fields k :
  Py.dict_get (map (fun kv => let '(k', x) := kv in (k', lower_json x)) fields) k
  = option_map lower_json (Py.dict_get fields k).
Proof.
  induction fields as [| [k' x] fields IH]; simpl; [reflexivity |].
  destruct (String.eqb k' k); [reflexivity | exact IH].
Qed.

Lemma getitem_lower v k :
  Py.getitem (lower_json v) k = res_map lower_json (Py.getitem v k).
Proof.
  destruct v as [ | | | | | | fields]; try reflexivity.
  simpl. rewrite dict_get_lower. now destruct (Py.dict_get fields k).
Qed.

Lemma get_lower_list v k :
  Py.get (lower_json v) k (JArr []) = res_map lower_json (Py.get v k (JArr [])).
Proof.
  destruct v as [ | | | | | | fields]; try reflexivity.
  simpl. rewrite dict_get_lower. now destruct (Py.dict_get fields k).
Qed.

Lemma py_lower_lower v : Py.lower (lower_json v) = Py.lower v.
Proof.
  destruct v as [ | | | | s | | ]; try reflexivity.
  simpl. now rewrite lower_idem.
Qed.

Lemma keys_lower fields :
  map (fun kv : string * json => JStr (fst kv))
    (map (fun kv => let '(k, x) := kv in (k, lower_json x)) fields)
  = map (fun kv => JStr (fst kv)) fields.
Proof.
  induction fields as [| [k x] fields IH]; simpl; [reflexivity | now rewrite IH].
Qed.

Section QueryInText.

Variable ql : string.

Lemma any_lower_items items :
  Py.any (fun x => let* x_lower := Py.lower x in
                   Ok (PyStr.contains ql x_lower))%res (map lower_json items)
  = Py.any (fun x => let* x_lower := Py.lower x in
                     Ok (PyStr.contains ql x_lower))%res items.
Proof.
  induction items as [| x items IH]; cbn [map Py.any]; [reflexivity |].
  rewrite py_lower_lower, IH. reflexivity.
Qed.

Lemma any_lower_chars s :
  Py.any (fun x => let* x_lower := Py.lower x in
                   Ok (PyStr.contains ql x_lower))%res (Py.chars (PyStr.lower s))
  = Py.any (fun x => let* x_lower := Py.lower x in
                     Ok (PyStr.contains ql x_lower))%res (Py.chars s).
Proof.
  induction s as [| c s IH]; cbn [PyStr.lower Py.chars Py.any]; [reflexivity |].
  rewrite IH. cbn [Py.lower PyStr.lower res_bind]. now rewrite lower_char_idem.
Qed.

Lemma any_contains_lower v : any_contains ql (lower_json v) = any_contains ql v.
Proof.
  unfold any_contains.
  destruct v as [ | | | | s | items | fields]; try reflexivity;
    cbn [lower_json Py.iter res_bind].
  - apply any_lower_chars.
  - apply any_lower_items.
  - now rewrite keys_lower.
Qed.

Lemma domain_match_lower skill :
  domain_match ql (lower_json skill) = domain_match ql skill.
Proof.
  unfold domain_match. rewrite getitem_lower.
  destruct (Py.getitem skill "name") as [name | e]; cbn [res_map res_bind];
    [| reflexivity].
  rewrite py_lower_lower.
  destruct (Py.lower name) as [name_lower | e]; cbn [res_bind]; [| reflexivity].
  destruct (PyStr.contains ql name_lower); [reflexivity |].
  rewrite getitem_lower.
  destruct (Py.getitem skill "description") as [description | e];
    cbn [res_map res_bind]; [| reflexivity].
  rewrite py_lower_lower.
  destruct (Py.lower description) as [description_lower | e]; cbn [res_bind];
    [| reflexivity].
  destruct (PyStr.contains ql description_lower); [reflexivity |].
  rewrite get_lower_list.
  destruct (Py.get skill "tags" (JArr [])) as [tags | e]; cbn [res_map res_bind];
    [| reflexivity].
  now rewrite any_contains_lower.
Qed.

Lemma domain_hits_lower skill :
  domain_hits ql (lower_json skill) = res_map (map lower_hit) (domain_hits ql skill).
Proof.
  unfold domain_hits. rewrite domain_match_lower.
  destruct (domain_match ql skill) as [m | e]; cbn [res_map res_bind]; [| reflexivity].
  destruct (PrimFloat.ltb 0 (fst m)); [| reflexivity].
  rewrite getitem_lower.
  now destruct (Py.getitem skill "name") as [domain | e].
Qed.

Lemma sub_match_lower sub : sub_match ql (lower_json sub) = sub_match ql sub.
Proof.
  unfold sub_match. rewrite getitem_lower.
  destruct (Py.getitem sub "name") as [name | e]; cbn [res_map res_bind];
    [| reflexivity].
  rewrite py_lower_lower.
  destruct (Py.lower name) as [name_lower | e]; cbn [res_bind]; [| reflexivity].
  destruct (PyStr.contains ql name_lower); [reflexivity |].
  rewrite get_lower_list.
  destruct (Py.get sub "triggers" (JArr [])) as [triggers | e];
    cbn [res_map res_bind]; [| reflexivity].
  now rewrite any_contains_lower.
Qed.

Lemma sub_hits_lower skill sub :
  sub_hits ql (lower_json skill) (lower_json sub)
  = res_map (map lower_hit) (sub_hits ql skill sub).
Proof.
  unfold sub_hits. rewrite sub_match_lower.
  destruct (sub_match ql sub) as [m | e]; cbn [res_map res_bind]; [| reflexivity].
  destruct (PrimFloat.ltb 0 (fst m)); [| reflexivity].
  rewrite !getitem_lower.
  destruct (Py.getitem skill "name") as [domain | e]; cbn [res_map res_bind];
    [| reflexivity].
  now destruct (Py.getitem sub "name") as [name | e].
Qed.

Lemma concat_res_lower (f f' : json -> res (list hit)) l :
  (forall x, f' (lower_json x) = res_map (map lower_hit) (f x)) ->
  concat_res f' (map lower_json l) = res_map (map lower_hit) (concat_res f l).
Proof.
  intros Hf. induction l as [| x l IH]; cbn [map concat_res]; [reflexivity |].
  rewrite Hf, IH.
  destruct (f x) as [ys | e]; cbn [res_map res_bind]; [| reflexivity].
  destruct (concat_res f l) as [more | e]; cbn [res_map res_bind]; [| reflexivity].
  now rewrite map_app.
Qed.

Lemma skill_hits_lower skill :
  skill_hits ql (lower_json skill) = res_map (map lower_hit) (skill_hits ql skill).
Proof.
  unfold skill_hits. rewrite domain_hits_lower.
  destruct (domain_hits ql skill) as [own | e]; cbn [res_map res_bind]; [| reflexivity].
  rewrite get_lower_list.
  destruct (Py.get skill "sub_skills" (JArr [])) as [subs | e];
    cbn [res_map res_bind]; [| reflexivity].
  destruct subs as [ | | | | s | items | fields]; try reflexivity;
    cbn [lower_json Py.iter res_bind].
  - destruct s as [| c s]; cbn [PyStr.lower Py.chars concat_res res_bind res_map].
    + now rewrite map_app.
    + reflexivity.
  - rewrite (concat_res_lower (sub_hits ql skill) (sub_hits ql (lower_json skill)))
      by (intros sub; apply sub_hits_lower).
    destruct (concat_res (sub_hits ql skill) items) as [below | e];
      cbn [res_map res_bind]; [| reflexivity].
    now rewrite map_app.
  - rewrite keys_lower.
    destruct fields as [| [k x] fields]; cbn [map concat_res res_bind res_map].
    + now rewrite map_app.
    + reflexivity.
Qed.

Lemma search_candidates_lower records errs errs' :
  search_candidates ql (Index (map lower_json records) errs')
  = res_map (map lower_hit) (search_candidates ql (Index records errs)).
Proof.
  unfold search_candidates. cbn [skills].
  apply concat_res_lower. apply skill_hits_lower.
Qed.

End QueryInText.

Lemma insert_desc_map {A} (key : A -> float) (g : A -> A) x l :
  (forall a, key (g a) = key a) ->
  insert_desc key (g x) (map g l) = map g (insert_desc key x l).
Proof.
  intros Hg. induction l as [| y l IH]; [reflexivity |].
  cbn [map insert_desc]. rewrite !Hg.
  destruct (PrimFloat.ltb (key x) (key y)); [| reflexivity].
  cbn [map]. now rewrite IH.
Qed.

Lemma sort_desc_map {A} (key : A -> float) (g : A -> A) l :
  (forall a, key (g a) = key a) ->
  sort_desc key (map g l) = map g (sort_desc key l).
Proof.
  intros Hg. induction l as [| x l IH]; [reflexivity |].
  unfold sort_desc in *. cbn [map fold_right]. rewrite IH.
  now apply insert_desc_map.
Qed.

Lemma ranked_lower n results :
  map lower_hit (firstn n (sort_desc h_score results))
  = firstn n (sort_desc h_score (map lower_hit results)).
Proof.
  rewrite (sort_desc_map h_score lower_hit) by reflexivity.
  symmetry. apply firstn_map.
Qed.

(** C10 (amended). Two queries with the same lower-case form that are on
    the same side of the limit of 1000 characters get the same results, or
    the same rejection, from [_search_skills]: apart from its length and
    from being echoed, the query is used only lower-cased.  And two indexes
    that differ only in the letter case of their strings give the same
    results apart from the letter case of the names they echo, in the same
    order and with the same scores and match types: names, descriptions,
    tags, sub-skill names and triggers are lower-cased before each
    comparison. *)
Theorem search_skills_case_insensitive (fs1 fs2 : store) (now1 now2 : string)
    (query1 query2 : string) (limit : Z) (w1 w2 : world) :
  idle w1 -> idle w2 ->
  PyStr.lower query1 = PyStr.lower query2 ->
  (1000 <? String.length query1)%nat = (1000 <? String.length query2)%nat ->
  outcome_map results_of (fst (_search_skills fs1 now1 query1 limit w1))
  = outcome_map results_of (fst (_search_skills fs1 now2 query2 limit w1)) /\
  forall idx1 idx2,
    current_index fs1 w1 = Ok idx1 -> current_index fs2 w2 = Ok idx2 ->
    map lower_json (skills idx1) = map lower_json (skills idx2) ->
    outcome_map lowered (fst (_search_skills fs1 now1 query1 limit w1))
    = outcome_map lowered (fst (_search_skills fs2 now2 query2 limit w2)).
Proof.
  intros Hidle1 Hidle2 Hlower Hside.
  assert (Hblank : query_blank query1 = query_blank query2)
    by (rewrite <- (query_blank_lower query1), Hlower; apply query_blank_lower).
  split.
  - unfold _search_skills. rewrite Hblank, Hside, Hlower.
    destruct (query_blank query2); [reflexivity |].
    destruct (1000 <? String.length query2)%nat; [reflexivity |].
    destruct w1 as [i c m u a h t]. unfold idle in Hidle1. simpl in Hidle1. subst h.
    unfold track_usage, get_index, load_index. run.
    destruct i as [idx |]; simpl.
    + destruct (search_candidates (PyStr.lower query2) idx); reflexivity.
    + destruct (root_exists fs1); simpl.
      * destruct (load_metas (Index [] []) (entries fs1)) as [idx | e]; simpl;
          [| reflexivity].
        destruct (search_candidates (PyStr.lower query2) idx); reflexivity.
      * reflexivity.
  - intros idx1 idx2 Hidx1 Hidx2 Hsame.
    destruct (query_blank query2) eqn:Hblank2.
    { unfold _search_skills. now rewrite Hblank, Hblank2. }
    destruct (1000 <? String.length query2)%nat eqn:Hlong2.
    { unfold _search_skills. now rewrite Hblank, Hblank2, Hside, Hlong2. }
    rewrite (search_skills_idle fs1 now1 query1 limit w1 idx1 Hidle1 Hidx1 Hblank)
      by (now apply Nat.ltb_ge).
    rewrite (search_skills_idle fs2 now2 query2 limit w2 idx2 Hidle2 Hidx2 Hblank2)
      by (now apply Nat.ltb_ge).
    rewrite Hlower.
    destruct idx1 as [skills1 errs1], idx2 as [skills2 errs2]. cbn [skills] in Hsame.
    pose proof (search_candidates_lower (PyStr.lower query2) skills1 errs1 errs1)
      as H1.
    pose proof (search_candidates_lower (PyStr.lower query2) skills2 errs2 errs1)
      as H2.
    rewrite Hsame in H1. rewrite H1 in H2.
    destruct (search_candidates (PyStr.lower query2) (Index skills1 errs1))
      as [results1 | e1];
      destruct (search_candidates (PyStr.lower query2) (Index skills2 errs2))
        as [results2 | e2];
      cbn [res_map] in H2; try discriminate H2.
    + injection H2 as H2. unfold lowered. cbn [outcome_map results_of fst snd].
      now rewrite !ranked_lower, H2.
    + injection H2 as ->. reflexivity.
Qed.

Lemma search_skills_case_insensitive_witness :
  outcome_map results_of
    (fst (_search_skills forms_store "now" "VALIDation" 5 (initial_world "start")))
  = outcome_map results_of
      (fst (_search_skills forms_store "later" "validATION" 5 (initial_world "start")))
  /\
  outcome_map lowered
    (fst (_search_skills forms_store "now" "VALIDation" 5 (initial_world "start")))
  = outcome_map lowered
      (fst (_search_skills shouting_store "later" "validATION" 5
              (initial_world "start"))).
Proof.
  destruct (search_skills_case_insensitive forms_store shouting_store "now" "later"
              "VALIDation" "validATION" 5 (initial_world "start")
              (initial_world "start")) as [Hquery Hindex]; try reflexivity.
  split; [exact Hquery |].
  apply (Hindex (Index [forms_meta] []) (Index [shouting_meta] [])); reflexivity.
Defined.

(** C10, as stated, fails: the upper-case form of the sharp s is [SS],
    whose lower-case form is [ss].  The search lower-cases the query and the
    index and does not fold case, so the query and its upper-case variant get
    different results. *)
Lemma upper_case_query_differs :
  PyStr.upper sharp_s = Some "SS" /\
  PyStr.lower sharp_s = sharp_s /\ PyStr.lower "SS" = "ss" /\
  fst (_search_skills units_store "now" sharp_s 5 (initial_world "start"))
    = Ret (SearchResults sharp_s
             [Hit (JStr "units") None 0.7 (Some MatchDescription)]) /\
  fst (_search_skills units_store "now" "SS" 5 (initial_world "start"))
    = Ret (SearchResults "SS" []) /\
  outcome_map results_of
    (fst (_search_skills units_store "now" sharp_s 5 (initial_world "start")))
  <> outcome_map results_of
       (fst (_search_skills units_store "now" "SS" 5 (initial_world "start"))).
Proof.
  repeat split; try (vm_compute; reflexivity).
  intros H. vm_compute in H. discriminate H.
Qed.

(** * Further properties *)

(** ** Metadata validation *)

Lemma sub_skill_errors_conform skill_name i subs :
  forallb sub_conforms subs = true ->
  sub_skill_errors skill_name i subs = Ok [].
Proof.
  revert i. induction subs as [| sub subs IH]; intros i; simpl; [reflexivity |].
  intros H. apply andb_prop in H. destruct H as [Hsub Hsubs].
  rewrite (IH (S i) Hsubs).
  destruct sub as [ | | | | | | fields]; try discriminate Hsub. simpl in *.
  destruct (Py.dict_get fields "name") as [[ | | | | n | | ] |]; try discriminate Hsub.
  destruct (Py.dict_get fields "file") as [[ | | | | f | | ] |]; try discriminate Hsub.
  reflexivity.
Qed.

(** X1. A record that has the shape of the schema and whose [name] is the
    directory name passes [validate_meta] without any error. *)
Theorem validate_meta_accepts_conforming (meta : json) (skill_name : string) :
  conforms meta = true -> named skill_name meta = true ->
  validate_meta meta skill_name = Ok [].
Proof.
  intros Hconf Hnamed. destruct meta as [ | | | | | | fields]; try discriminate Hconf.
  unfold named in Hnamed. simpl in Hconf, Hnamed. unfold validate_meta. simpl.
  destruct (Py.dict_get fields "name") as [[ | | | | n | | ] |]; try discriminate Hconf.
  destruct (Py.dict_get fields "description") as [[ | | | | d | | ] |];
    try discriminate Hconf.
  apply andb_prop in Hconf. destruct Hconf as [Htags Hsubs].
  simpl in *. rewrite Hnamed. simpl.
  destruct (Py.dict_get fields "tags") as [tags |]; simpl in *.
  - destruct tags; try discriminate Htags. simpl in Htags. rewrite Htags. simpl.
    destruct (Py.dict_get fields "sub_skills") as [subs |]; simpl in *; [| reflexivity].
    destruct subs; try discriminate Hsubs.
    now rewrite (sub_skill_errors_conform skill_name 0 items0 Hsubs).
  - destruct (Py.dict_get fields "sub_skills") as [subs |]; simpl in *; [| reflexivity].
    destruct subs; try discriminate Hsubs.
    now rewrite (sub_skill_errors_conform skill_name 0 items Hsubs).
Qed.

Lemma validate_meta_accepts_conforming_witness :
  validate_meta forms_meta "forms" = Ok [].
Proof. apply validate_meta_accepts_conforming; reflexivity. Defined.

Lemma has_non_scalar k v : scalar v = false -> exists b, Py.has k v = Ok b.
Proof. destruct v; try discriminate; intros _; simpl; now eexists. Qed.

Lemma has_scalar k v : scalar v = true -> Py.has k v = Err TypeError.
Proof. destruct v; try discriminate; reflexivity. Qed.

Lemma sub_skill_errors_scalar skill_name i subs :
  existsb scalar subs = true -> sub_skill_errors skill_name i subs = Err TypeError.
Proof.
  revert i. induction subs as [| sub subs IH]; intros i; simpl; [discriminate |].
  destruct (scalar sub) eqn:Hsub; simpl.
  - intros _. now rewrite (has_scalar "name" sub Hsub).
  - intros H. rewrite (IH (S i) H).
    destruct (has_non_scalar "name" sub Hsub) as [b1 ->].
    destruct (has_non_scalar "file" sub Hsub) as [b2 ->]. reflexivity.
Qed.

Lemma sub_skill_errors_no_scalar skill_name i subs :
  existsb scalar subs = false ->
  exists errs, sub_skill_errors skill_name i subs = Ok errs
               /\ forall f, ~ In (MissingField skill_name f) errs.
Proof.
  revert i. induction subs as [| sub subs IH]; intros i; simpl.
  - intros _. exists []. split; [reflexivity | intros f []].
  - intros H. apply orb_false_elim in H. destruct H as [Hsub Hsubs].
    destruct (IH (S i) Hsubs) as (more & -> & Hmore).
    destruct (has_non_scalar "name" sub Hsub) as [b1 ->].
    destruct (has_non_scalar "file" sub Hsub) as [b2 ->]. simpl.
    eexists. split; [reflexivity |].
    intros f Hin. rewrite !in_app_iff in Hin.
    destruct Hin as [[Hin | [Hin | []]] | Hin]; [| | now apply (Hmore f)].
    + destruct b1; simpl in Hin; [contradiction | destruct Hin as [Hin | []]].
      discriminate Hin.
    + destruct b2; simpl in Hin; [contradiction | destruct Hin as [Hin | []]].
      discriminate Hin.
Qed.

(** X2. On a record, [validate_meta] raises [TypeError] exactly when
    [sub_skills] is a list that holds [None], a [bool] or a number.
    Otherwise it returns a list of errors, which reports a field as missing
    exactly when the field is [name] or [description] and the record has no
    such key. *)
Theorem validate_meta_on_record (fields : list (string * json)) (skill_name : string) :
  if scalar_sub_skill fields
  then validate_meta (JObj fields) skill_name = Err TypeError
  else exists errs,
         validate_meta (JObj fields) skill_name = Ok errs /\
         forall field,
           In (MissingField skill_name field) errs <->
           (field = "name" \/ field = "description")
           /\ Py.dict_get fields field = None.
Proof.
  unfold scalar_sub_skill, validate_meta. simpl.
  set (e_required :=
         (if match Py.dict_get fields "name" with Some _ => true | None => false end
          then [] else [MissingField skill_name "name"])
         ++ (if match Py.dict_get fields "description" with
                | Some _ => true | None => false end
             then [] else [MissingField skill_name "description"]) ++ []).
  assert (Hreq : forall field,
            In (MissingField skill_name field) e_required <->
            (field = "name" \/ field = "description")
            /\ Py.dict_get fields field = None).
  { intros field. unfold e_required. rewrite !in_app_iff.
    destruct (Py.dict_get fields "name") eqn:Hn;
      destruct (Py.dict_get fields "description") eqn:Hd; simpl; split.
    all: try (intros [[-> | ->] Hnone]; try congruence; simpl; intuition congruence).
    all: intros Hin; repeat (destruct Hin as [Hin | Hin]); try contradiction;
      injection Hin as <-; split; auto. }
  assert (Hname : exists e_name,
            (if match Py.dict_get fields "name" with Some _ => true | None => false end
             then
               let* found := match Py.dict_get fields "name" with
                             | Some x => Ok x | None => Err KeyError end in
               Ok (if negb (Py.eq_str found skill_name)
                   then [NameMismatch skill_name found] else [])
             else Ok [])%res = Ok e_name
            /\ forall f, ~ In (MissingField skill_name f) e_name).
  { destruct (Py.dict_get fields "name") as [v |]; simpl.
    - eexists. split; [reflexivity |]. intros fld.
      destruct (negb (Py.eq_str v skill_name)); simpl; [| tauto].
      intros [H | []]. discriminate H.
    - exists []. split; [reflexivity | intros fld []]. }
  destruct Hname as (e_name & -> & Hname). simpl.
  assert (Htags : exists e_tags,
            (if match Py.dict_get fields "tags" with Some _ => true | None => false end
             then
               let* tags := match Py.dict_get fields "tags" with
                            | Some x => Ok x | None => Err KeyError end in
               match tags with
               | JArr items =>
                   Ok (if negb (forallb Py.is_str items)
                       then [TagsNotStrings skill_name] else [])
               | _ => Ok [TagsNotList skill_name]
               end
             else Ok [])%res = Ok e_tags
            /\ forall f, ~ In (MissingField skill_name f) e_tags).
  { destruct (Py.dict_get fields "tags") as [v |]; simpl.
    - destruct v; simpl; eexists; (split; [reflexivity |]); intros fld;
        try (intros [H | []]; discriminate H).
      destruct (negb (forallb Py.is_str items)); simpl; [| tauto].
      intros [H | []]. discriminate H.
    - exists []. split; [reflexivity | intros fld []]. }
  destruct Htags as (e_tags & -> & Htags). simpl.
  destruct (Py.dict_get fields "sub_skills") as [v |] eqn:Hsubs; simpl.
  - destruct v; simpl;
      try (eexists; split; [reflexivity |]; intros field;
           rewrite !in_app_iff, <- (Hreq field); split;
           [intros [H | [H | [H | [H | []]]]];
              [exact H | now apply Hname in H | now apply Htags in H | discriminate H]
           | auto]).
    destruct (existsb scalar items) eqn:Hscalar.
    + now rewrite (sub_skill_errors_scalar skill_name 0 items Hscalar).
    + destruct (sub_skill_errors_no_scalar skill_name 0 items Hscalar)
        as (e_subs & -> & He). simpl.
      eexists. split; [reflexivity |]. intros field.
      rewrite !in_app_iff, <- (Hreq field). split; [| auto].
      intros [H | [H | [H | H]]];
        [exact H | now apply Hname in H | now apply Htags in H | now apply He in H].
  - eexists. split; [reflexivity |]. intros field.
    rewrite !in_app_iff, <- (Hreq field). split; [| auto].
    intros [H | [H | [H | []]]];
      [exact H | now apply Hname in H | now apply Htags in H].
Qed.

(** ** Safe names *)

Lemma is_safe_str s : is_safe_skill_name (JStr s) = re_match_safe s.
Proof. destruct s; reflexivity. Qed.

Lemma contains_char_cons c b r :
  PyStr.contains (String c EmptyString) (String b r)
  = Ascii.eqb c b || PyStr.contains (String c EmptyString) r.
Proof.
  unfold PyStr.contains. rewrite find_cons. simpl PyStr.starts_with.
  replace (PyStr.starts_with EmptyString r) with true by (destruct r; reflexivity).
  rewrite andb_true_r. destruct (Ascii.eqb c b); [reflexivity |]. simpl.
  destruct (PyStr.find r (String c EmptyString)); reflexivity.
Qed.

Lemma safe_rest_no_char c s :
  safe_char c = false -> c <> "010"%char -> safe_rest s = true ->
  PyStr.contains (String c EmptyString) s = false.
Proof.
  intros Hc Hnl. induction s as [| b r IH]; [reflexivity |].
  simpl safe_rest. rewrite contains_char_cons.
  destruct (Ascii.eqb_spec c b) as [<- | Hne]; simpl.
  - rewrite Hc. intros H. apply andb_prop in H. destruct H as [H _].
    apply Ascii.eqb_eq in H. contradiction.
  - destruct (safe_char b); [exact IH |].
    intros H. apply andb_prop in H. destruct H as [_ H].
    apply String.eqb_eq in H. subst r. reflexivity.
Qed.

(** X3. A name that [is_safe_skill_name] accepts is a non-empty string
    without a slash, a backslash or a dot, so it cannot name a path outside
    the directory it is joined to. *)
Theorem safe_name_has_no_separator (s : string) :
  is_safe_skill_name (JStr s) = true ->
  s <> EmptyString /\
  PyStr.contains "/" s = false /\
  PyStr.contains "\" s = false /\
  PyStr.contains "." s = false.
Proof.
  rewrite is_safe_str. destruct s as [| c r]; [discriminate |].
  simpl. intros H. apply andb_prop in H. destruct H as [Hc Hr].
  assert (Hrest : safe_rest (String c r) = true) by (simpl; now rewrite Hc).
  split; [discriminate |].
  repeat split; apply safe_rest_no_char; try reflexivity; try discriminate; exact Hrest.
Qed.

Lemma safe_name_has_no_separator_witness :
  "component-library" <> EmptyString /\
  PyStr.contains "/" "component-library" = false /\
  PyStr.contains "\" "component-library" = false /\
  PyStr.contains "." "component-library" = false.
Proof. apply safe_name_has_no_separator. reflexivity. Defined.

Lemma safe_rest_newline s :
  safe_rest s = true -> PyStr.contains (String "010" EmptyString) s = false ->
  safe_rest (s ++ String "010" EmptyString) = true.
Proof.
  induction s as [| b r IH]; [reflexivity |].
  simpl. rewrite contains_char_cons.
  destruct (safe_char b).
  - intros Hr H. apply orb_false_elim in H. now apply IH.
  - intros H Hno. apply andb_prop in H. destruct H as [H _].
    apply Ascii.eqb_eq in H. subst b. discriminate Hno.
Qed.

(** X4. [$] also matches before a final newline: a safe name followed by
    one newline character is accepted as well. *)
Theorem safe_name_with_trailing_newline (s : string) :
  is_safe_skill_name (JStr s) = true ->
  PyStr.contains (String "010" EmptyString) s = false ->
  is_safe_skill_name (JStr (s ++ String "010" EmptyString)) = true.
Proof.
  rewrite !is_safe_str. destruct s as [| c r]; [discriminate |].
  simpl. rewrite contains_char_cons.
  intros H Hno. apply andb_prop in H. destruct H as [Hc Hr].
  rewrite Hc. simpl. apply orb_false_elim in Hno. destruct Hno as [_ Hno].
  now apply safe_rest_newline.
Qed.

Lemma safe_name_with_trailing_newline_witness :
  is_safe_skill_name (JStr ("forms" ++ String "010" EmptyString)) = true.
Proof. apply safe_name_with_trailing_newline; reflexivity. Defined.

(** ** Loading and reloading *)

Lemma missing_fields_no_json mk fields v errs name msg :
  (forall f, mk f <> InvalidJSON name msg) ->
  missing_fields mk fields v = Ok errs -> ~ In (InvalidJSON name msg) errs.
Proof.
  intros Hmk. revert errs. induction fields as [| f fields IH]; intros errs; simpl.
  - intros [= <-] [].
  - destruct (Py.has f v) as [b | e]; simpl; [| discriminate].
    destruct (missing_fields mk fields v) as [more | e]; simpl; [| discriminate].
    intros [= <-] Hin. apply in_app_iff in Hin. destruct Hin as [Hin | Hin].
    + destruct b; simpl in Hin; [contradiction | destruct Hin as [Hin | []]].
      now apply (Hmk f).
    + now apply (IH more).
Qed.

Lemma sub_skill_errors_no_json skill_name i subs errs name msg :
  sub_skill_errors skill_name i subs = Ok errs -> ~ In (InvalidJSON name msg) errs.
Proof.
  revert i errs. induction subs as [| sub subs IH]; intros i errs;
    cbn [sub_skill_errors].
  - intros [= <-] [].
  - destruct (missing_fields (SubSkillMissing skill_name i) ["name"; "file"] sub)
      as [here | e] eqn:Hhere; cbn [res_bind]; [| discriminate].
    destruct (sub_skill_errors skill_name (S i) subs) as [more | e] eqn:Hmore;
      cbn [res_bind]; [| discriminate].
    intros [= <-] Hin. apply in_app_iff in Hin. destruct Hin as [Hin | Hin].
    + revert Hin. eapply missing_fields_no_json; [| exact Hhere]. discriminate.
    + now apply (IH (S i) more).
Qed.

Lemma validate_meta_no_json meta skill_name errs name msg :
  validate_meta meta skill_name = Ok errs -> ~ In (InvalidJSON name msg) errs.
Proof.
  unfold validate_meta.
  destruct (missing_fields (MissingField skill_name) ["name"; "description"] meta)
    as [e_required | e] eqn:Hreq; simpl; [| discriminate].
  destruct (Py.has "name" meta) as [has_name | e]; simpl; [| discriminate].
  match goal with
  | |- (let* e_name := ?m in _)%res = _ -> _ =>
      destruct m as [e_name | e] eqn:Hname; simpl; [| discriminate]
  end.
  destruct (Py.has "tags" meta) as [has_tags | e]; simpl; [| discriminate].
  match goal with
  | |- (let* e_tags := ?m in _)%res = _ -> _ =>
      destruct m as [e_tags | e] eqn:Htags; simpl; [| discriminate]
  end.
  destruct (Py.has "sub_skills" meta) as [has_subs | e]; simpl; [| discriminate].
  match goal with
  | |- (let* e_subs := ?m in _)%res = _ -> _ =>
      destruct m as [e_subs | e] eqn:Hsubs; simpl; [| discriminate]
  end.
  intros [= <-] Hin. rewrite !in_app_iff in Hin.
  destruct Hin as [Hin | [Hin | [Hin | Hin]]].
  - revert Hin. eapply missing_fields_no_json; [| exact Hreq]. discriminate.
  - destruct has_name; [| injection Hname as <-; contradiction].
    destruct (Py.getitem meta "name") as [found | e]; simpl in Hname; [| discriminate].
    injection Hname as <-.
    destruct (negb (Py.eq_str found skill_name)); simpl in Hin; [| contradiction].
    destruct Hin as [Hin | []]. discriminate Hin.
  - destruct has_tags; [| injection Htags as <-; contradiction].
    destruct (Py.getitem meta "tags") as [tags | e]; simpl in Htags; [| discriminate].
    destruct tags; injection Htags as <-;
      try (destruct Hin as [Hin | []]; discriminate Hin).
    destruct (negb (forallb Py.is_str items)); simpl in Hin; [| contradiction].
    destruct Hin as [Hin | []]. discriminate Hin.
  - destruct has_subs; [| injection Hsubs as <-; contradiction].
    destruct (Py.getitem meta "sub_skills") as [subs | e]; simpl in Hsubs;
      [| discriminate].
    destruct subs; try (injection Hsubs as <-; destruct Hin as [Hin | []];
                        discriminate Hin).
    revert Hin. eapply sub_skill_errors_no_json. exact Hsubs.
Qed.

Lemma load_metas_spec es acc idx :
  load_metas acc es = Ok idx ->
  skills idx = skills acc ++ omap parsed es /\
  forall name msg,
    In (InvalidJSON name msg) (validation_errors idx) <->
    In (InvalidJSON name msg) (validation_errors acc)
    \/ exists e, In e es /\ invalid_json name msg e.
Proof.
  revert acc. induction es as [| e es IH]; intros acc; simpl.
  - intros [= <-]. split; [now rewrite app_nil_r |].
    intros name msg. split; [auto | intros [H | (e & [] & _)]; exact H].
  - destruct (load_meta acc e) as [acc' | err] eqn:Hload; simpl; [| discriminate].
    intros Hrest. destruct (IH acc' Hrest) as [Hskills Herrs].
    assert (Hstep :
      skills acc' = skills acc ++ match parsed e with Some m => [m] | None => [] end /\
      forall name msg,
        In (InvalidJSON name msg) (validation_errors acc') <->
        In (InvalidJSON name msg) (validation_errors acc) \/ invalid_json name msg e).
    { unfold load_meta in Hload. unfold parsed, invalid_json.
      destruct (e_is_dir e).
      - destruct (e_meta e) as [[meta | bad | |] |].
        + destruct (validate_meta meta (e_name e)) as [errors | err] eqn:Hv;
            simpl in Hload; [| discriminate].
          injection Hload as <-. simpl. split; [reflexivity |].
          intros name msg. rewrite in_app_iff. split.
          * intros [H | H]; [now left |].
            now apply (validate_meta_no_json _ _ _ name msg Hv) in H.
          * intros [H | (_ & _ & H)]; [now left | discriminate H].
        + injection Hload as <-. simpl. split; [now rewrite app_nil_r |].
          intros name msg. rewrite in_app_iff. simpl. split.
          * intros [H | [H | []]]; [now left |]. injection H as <- <-. now right.
          * intros [H | (_ & <- & H)]; [now left |]. injection H as <-. auto.
        + injection Hload as <-. simpl. split; [now rewrite app_nil_r |].
          intros name msg. rewrite in_app_iff. simpl. split.
          * intros [H | [H | []]]; [now left | discriminate H].
          * intros [H | (_ & _ & H)]; [now left | discriminate H].
        + injection Hload as <-. simpl. split; [now rewrite app_nil_r |].
          intros name msg. rewrite in_app_iff. simpl. split.
          * intros [H | [H | []]]; [now left | discriminate H].
          * intros [H | (_ & _ & H)]; [now left | discriminate H].
        + injection Hload as <-. split; [now rewrite app_nil_r |].
          intros name msg.
          split; [auto | intros [H | (_ & _ & H)]; [exact H | discriminate H]].
      - injection Hload as <-. split; [now rewrite app_nil_r |].
        intros name msg.
        split; [auto | intros [H | (H & _)]; [exact H | discriminate H]]. }
    destruct Hstep as [Hskills' Herrs']. split.
    + rewrite Hskills, Hskills'. rewrite <- app_assoc. f_equal.
      destruct (parsed e); reflexivity.
    + intros name msg. rewrite Herrs, Herrs'. split.
      * intros [[H | H] | (e' & Hin & H)]; [now left | right; exists e; auto |].
        right. exists e'. auto.
      * intros [H | (e' & [<- | Hin] & H)]; [auto | auto |].
        right. exists e'. auto.
Qed.

(** X5. Whenever a walk of an existing store returns, the index holds the
    metadata of every directory whose [_meta.json] parses, in directory
    order and whether or not validation found errors in it; a directory
    whose [_meta.json] is not valid JSON is left out and the error list names
    it, and only such directories are named so. *)
Theorem load_keeps_every_parsed_record (fs : store) (idx : index) :
  root_exists fs = true -> scan fs = Ok idx ->
  skills idx = omap parsed (entries fs) /\
  forall name msg,
    In (InvalidJSON name msg) (validation_errors idx) <->
    exists e, In e (entries fs) /\ invalid_json name msg e.
Proof.
  unfold scan. intros -> Hscan. simpl in Hscan.
  destruct (load_metas_spec _ _ _ Hscan) as [Hskills Herrs].
  split; [exact Hskills |].
  intros name msg. rewrite Herrs. simpl. tauto.
Qed.

Lemma load_keeps_every_parsed_record_witness :
  let fs := store_of
              [forms_dir;
               DirEntry "broken" true true (Some (MetaInvalidJSON "Expecting value"))
                 None None None [];
               DirEntry "misnamed" true true
                 (Some (MetaOk (JObj [("name", JStr "other")]))) None None None []] in
  let idx := Index [forms_meta; JObj [("name", JStr "other")]]
               [InvalidJSON "broken" "Expecting value";
                MissingField "misnamed" "description";
                NameMismatch "misnamed" (JStr "other")] in
  scan fs = Ok idx /\ skills idx = omap parsed (entries fs).
Proof.
  intros fs idx. split; [reflexivity |].
  apply (load_keeps_every_parsed_record fs idx); reflexivity.
Defined.




(** X7. Once the index is loaded, [get_index] returns it from the cache:
    a later call returns the same index whatever the store has become. *)
Theorem get_index_caches (fs fs' : store) (w : world) (idx : index) :
  idle w -> current_index fs w = Ok idx ->
  exists w1 w2,
    get_index fs w = (Ret idx, w1) /\
    get_index fs' w1 = (Ret idx, w2) /\
    _INDEX w2 = Some idx /\
    _CONTENT_INDEX w2 = _CONTENT_INDEX w1.
Proof.
  intros Hidle Hidx.
  destruct (get_index_idle fs w idx Hidle Hidx) as (c1 & tr1 & H1).
  eexists _, _. split; [exact H1 |].
  unfold get_index. run. split; [reflexivity |]. split; reflexivity.
Qed.

Lemma get_index_caches_witness :
  exists w1 w2,
    get_index forms_store (initial_world "start") = (Ret (Index [forms_meta] []), w1) /\
    get_index no_store w1 = (Ret (Index [forms_meta] []), w2) /\
    _INDEX w2 = Some (Index [forms_meta] []) /\
    _CONTENT_INDEX w2 = _CONTENT_INDEX w1.
Proof.
  apply (get_index_caches forms_store no_store (initial_world "start")); reflexivity.
Defined.

#[local] Arguments build_content_index : simpl never.

Lemma load_index_content fs w idx :
  idle w -> scan fs = Ok idx ->
  exists tr,
    load_index fs w =
      (Ret idx,
       World (_INDEX w)
         (if root_exists fs then Some (build_content_index fs) else _CONTENT_INDEX w)
         (_FILE_MTIMES w) (_USAGE_STATS w) (allocated w) [] tr).
Proof.
  destruct w as [i c m u a h t]; unfold idle; simpl; intros ->.
  unfold scan, load_index. destruct (root_exists fs); simpl.
  - intros ->. simpl. eexists. reflexivity.
  - intros [= <-]. eexists. reflexivity.
Qed.

Lemma reload_index_idle fs now w idx :
  idle w -> scan fs = Ok idx ->
  exists tr,
    _reload_index fs now w =
      (Ret (Reloaded (length (skills idx))
              (if root_exists fs then length (build_content_index fs)
               else match _CONTENT_INDEX w with
                    | Some cidx => length cidx
                    | None => 0%nat
                    end)
              (validation_errors idx)),
       World (Some idx)
         (if root_exists fs then Some (build_content_index fs) else _CONTENT_INDEX w)
         (_FILE_MTIMES w)
         (record_usage "reload_index" no_details now (_USAGE_STATS w))
         (allocated w) [] tr).
Proof.
  intros Hidle Hscan.
  destruct (load_index_content fs w idx Hidle Hscan) as [tr0 Hload].
  unfold _reload_index. unfold bind at 1. rewrite Hload.
  unfold track_usage, content_count. run.
  destruct (root_exists fs); eexists; reflexivity.
Qed.

(** X8. A reload of an existing store that loads without raising replaces
    both the metadata index and the content index by what is on disk, and
    reports their sizes and the validation errors; [get_index] then serves
    the new index, and a second reload of the same store reports the same. *)
Theorem reload_replaces_both_indexes (fs : store) (now now' : string)
    (w : world) (idx : index) :
  idle w -> root_exists fs = true -> scan fs = Ok idx ->
  let report := Reloaded (length (skills idx)) (length (build_content_index fs))
                  (validation_errors idx) in
  exists w1 w2,
    _reload_index fs now w = (Ret report, w1) /\
    _INDEX w1 = Some idx /\
    _CONTENT_INDEX w1 = Some (build_content_index fs) /\
    fst (get_index fs w1) = Ret idx /\
    _reload_index fs now' w1 = (Ret report, w2).
Proof.
  intros Hidle Hroot Hscan report.
  destruct (reload_index_idle fs now w idx Hidle Hscan) as [tr1 H1].
  rewrite Hroot in H1.
  match type of H1 with
  | _ = (_, ?W) =>
      destruct (reload_index_idle fs now' W idx eq_refl Hscan) as [tr2 H2];
      destruct (get_index_idle fs W idx eq_refl eq_refl) as (c & tr3 & H3)
  end.
  rewrite Hroot in H2.
  eexists _, _. split; [exact H1 |]. split; [reflexivity |]. split; [reflexivity |].
  split; [now rewrite H3 | exact H2].
Qed.

Lemma reload_replaces_both_indexes_witness :
  exists w1 w2,
    _reload_index forms_store "now" (initial_world "start")
      = (Ret (Reloaded 1 2 []), w1) /\
    _INDEX w1 = Some (Index [forms_meta] []) /\
    _CONTENT_INDEX w1 = Some (build_content_index forms_store) /\
    fst (get_index forms_store w1) = Ret (Index [forms_meta] []) /\
    _reload_index forms_store "later" w1 = (Ret (Reloaded 1 2 []), w2).
Proof.
  apply (reload_replaces_both_indexes forms_store "now" "later"
           (initial_world "start") (Index [forms_meta] [])); reflexivity.
Defined.

(** X9. When [SKILLS_DIR] is missing, a reload empties the metadata index
    but leaves the content index as it was, and reports the size of that
    old content index. *)
Theorem reload_without_root_keeps_content (fs : store) (now : string) (w : world) :
  idle w -> root_exists fs = false ->
  exists w1,
    _reload_index fs now w
      = (Ret (Reloaded 0
                (match _CONTENT_INDEX w with
                 | Some cidx => length cidx
                 | None => 0%nat
                 end) []), w1) /\
    _INDEX w1 = Some (Index [] []) /\
    _CONTENT_INDEX w1 = _CONTENT_INDEX w.
Proof.
  intros Hidle Hroot.
  assert (Hscan : scan fs = Ok (Index [] [])) by (unfold scan; now rewrite Hroot).
  destruct (reload_index_idle fs now w (Index [] []) Hidle Hscan) as [tr H].
  rewrite Hroot in H. eexists. split; [exact H |]. split; reflexivity.
Qed.

Lemma reload_without_root_keeps_content_witness :
  let w := snd (get_index forms_store (initial_world "start")) in
  exists w1,
    _reload_index no_store "now" w = (Ret (Reloaded 0 2 []), w1) /\
    _INDEX w1 = Some (Index [] []) /\
    _CONTENT_INDEX w1 = Some (build_content_index forms_store).
Proof.
  intros w. apply (reload_without_root_keeps_content no_store "now" w); reflexivity.
Defined.

(** ** The content index *)

Lemma dict_set_keys {V} (k : string) (v : V) (d : list (string * V)) k' :
  k' ∈ (dict_set k v d).*1 <-> k' = k \/ k' ∈ d.*1.
Proof.
  induction d as [| [k0 v0] d IH]; simpl.
  - rewrite list_elem_of_singleton, elem_of_nil. tauto.
  - destruct (String.eqb_spec k0 k) as [-> | Hne]; simpl.
    + rewrite !elem_of_cons. tauto.
    + rewrite !elem_of_cons, IH. tauto.
Qed.

Lemma dict_set_nodup {V} (k : string) (v : V) (d : list (string * V)) :
  NoDup d.*1 -> NoDup (dict_set k v d).*1.
Proof.
  induction d as [| [k0 v0] d IH]; simpl; intros Hnd.
  - apply NoDup_singleton.
  - apply NoDup_cons in Hnd. destruct Hnd as [Hk0 Hnd].
    destruct (String.eqb_spec k0 k) as [-> | Hne]; simpl.
    + apply NoDup_cons. split; assumption.
    + apply NoDup_cons. split; [| now apply IH].
      rewrite dict_set_keys. intros [-> | H]; [now apply Hne | now apply Hk0].
Qed.

Lemma dict_set_forall {V} (P : string * V -> Prop) k v (d : list (string * V)) :
  P (k, v) -> Forall P d -> Forall P (dict_set k v d).
Proof.
  intros Hkv. induction 1 as [| [k0 v0] d H0 Hd IH]; simpl.
  - now constructor.
  - destruct (String.eqb k0 k); constructor; assumption.
Qed.

Lemma contains_char_app c (a b : string) :
  PyStr.contains (String c EmptyString) (a ++ String c b) = true.
Proof.
  induction a as [| x a IH].
  - change (EmptyString ++ String c b)%string with (String c b).
    rewrite contains_char_cons. now rewrite Ascii.eqb_refl.
  - change (String x a ++ String c b)%string with (String x (a ++ String c b)).
    rewrite contains_char_cons, IH. apply orb_true_r.
Qed.

Lemma index_folder_inv skill_name folder label files idx :
  NoDup idx.*1 /\ Forall content_binding_ok idx ->
  NoDup (index_folder skill_name folder label files idx).*1
  /\ Forall content_binding_ok (index_folder skill_name folder label files idx).
Proof.
  unfold index_folder. revert idx.
  induction files as [| f files IH]; intros idx [Hnd Hok]; simpl; [now split |].
  apply IH. destruct (read_text_ignore (md_read f)) as [text | e]; [| now split].
  split; [now apply dict_set_nodup |].
  apply dict_set_forall; [| exact Hok].
  split; [reflexivity |]. split; [apply lower_idem |]. simpl. split; [discriminate |].
  intros H. exfalso.
  pose proof (contains_char_app "/" folder (md_name f)) as Hslash.
  change (String "/" (md_name f)) with ("/" ++ md_name f)%string in Hslash.
  rewrite H in Hslash. discriminate Hslash.
Qed.

(** X10. The content index [build_content_index] returns has no two
    bindings with the same key; in every binding the key is the domain and
    the file joined by a colon, the text is in lower case, and the sub-skill
    is missing exactly for the file [SKILL.md]. *)
Theorem content_index_well_formed (fs : store) :
  NoDup (build_content_index fs).*1 /\
  Forall content_binding_ok (build_content_index fs).
Proof.
  unfold build_content_index.
  destruct (negb (root_exists fs)); [split; constructor |].
  assert (H : forall es idx,
            NoDup idx.*1 /\ Forall content_binding_ok idx ->
            NoDup (fold_left index_skill_dir es idx).*1
            /\ Forall content_binding_ok (fold_left index_skill_dir es idx)).
  { induction es as [| e es IH]; intros idx Hidx; simpl; [exact Hidx |].
    apply IH. unfold index_skill_dir.
    destruct (negb (e_is_dir e)); [exact Hidx |].
    assert (H1 : NoDup
                   (match e_skill_md e with
                    | Some r =>
                        match read_text_ignore r with
                        | Ok text =>
                            dict_set (e_name e ++ ":SKILL.md")
                              (ContentEntry (e_name e) None "SKILL.md"
                                 (PyStr.lower text)) idx
                        | Err _ => idx
                        end
                    | None => idx
                    end).*1 /\
                 Forall content_binding_ok
                   (match e_skill_md e with
                    | Some r =>
                        match read_text_ignore r with
                        | Ok text =>
                            dict_set (e_name e ++ ":SKILL.md")
                              (ContentEntry (e_name e) None "SKILL.md"
                                 (PyStr.lower text)) idx
                        | Err _ => idx
                        end
                    | None => idx
                    end)).
    { destruct Hidx as [Hnd Hok].
      destruct (e_skill_md e) as [r |]; [| now split].
      destruct (read_text_ignore r) as [text | err]; [| now split].
      split; [now apply dict_set_nodup |].
      apply dict_set_forall; [| exact Hok].
      split; [reflexivity |]. split; [apply lower_idem |]. simpl. tauto. }
    destruct (e_references e) as [refs |];
      destruct (e_scripts e) as [scripts |];
      repeat apply index_folder_inv; exact H1. }
  apply H. split; constructor.
Qed.

Lemma length_app_str (a b : string) :
  String.length (a ++ b) = (String.length a + String.length b)%nat.
Proof. induction a as [| c a IH]; simpl; [reflexivity | now rewrite IH]. Qed.

Lemma take_app_exact (a b : string) : PyStr.take (String.length a) (a ++ b) = a.
Proof. induction a as [| c a IH]; simpl; [now destruct b | now rewrite IH]. Qed.

Lemma rfind_char_app c (a b : string) :
  rfind_char c (a ++ b) =
    match rfind_char c b with
    | Some i => Some (String.length a + i)%nat
    | None => rfind_char c a
    end.
Proof.
  induction a as [| x a IH].
  - change (EmptyString ++ b)%string with b. simpl.
    destruct (rfind_char c b); reflexivity.
  - change (String x a ++ b)%string with (String x (a ++ b)).
    cbn [rfind_char String.length]. rewrite IH.
    destruct (rfind_char c b); reflexivity.
Qed.

(** X11. The stem of a file name that ends in [.md] is the name without
    that ending, as long as something precedes the ending; this is the
    sub-skill label of a reference file in the content index. *)
Theorem stem_of_markdown_file (base : string) :
  base <> EmptyString -> stem (base ++ ".md") = base.
Proof.
  intros Hbase. unfold stem. rewrite rfind_char_app. simpl rfind_char.
  cbv iota beta. rewrite Nat.add_0_r, length_app_str.
  destruct base as [| c base]; [contradiction |].
  assert (H1 : (0 <? String.length (String c base))%nat = true) by reflexivity.
  assert (H2 : (String.length (String c base)
                <? String.length (String c base) + String.length ".md" - 1)%nat = true).
  { apply Nat.ltb_lt. simpl. lia. }
  rewrite H1, H2. apply take_app_exact.
Qed.

Lemma stem_of_markdown_file_witness : stem ("advanced.v2" ++ ".md") = "advanced.v2".
Proof. apply stem_of_markdown_file. discriminate. Defined.

(** ** Snippets *)

Lemma length_take n s : (String.length (PyStr.take n s) <= n)%nat.
Proof.
  revert s. induction n as [| n IH]; intros s; simpl; [lia |].
  destruct s as [| c s]; simpl; [lia |]. specialize (IH s). lia.
Qed.

Lemma length_lstrip s : (String.length (PyStr.lstrip s) <= String.length s)%nat.
Proof.
  induction s as [| c s IH]; simpl; [lia |].
  destruct (PyStr.is_space c); simpl; lia.
Qed.

Lemma length_rstrip s : (String.length (PyStr.rstrip s) <= String.length s)%nat.
Proof.
  induction s as [| c s IH]; simpl; [lia |].
  destruct (PyStr.rstrip s); simpl in *; [| lia].
  destruct (PyStr.is_space c); simpl; lia.
Qed.

Lemma length_strip s : (String.length (PyStr.strip s) <= String.length s)%nat.
Proof.
  unfold PyStr.strip. pose proof (length_rstrip (PyStr.lstrip s)).
  pose proof (length_lstrip s). lia.
Qed.

Lemma replace_char_cons c d x s :
  PyStr.replace (String x s) (String c EmptyString) (String d EmptyString)
  = String (if Ascii.eqb c x then d else x)
      (PyStr.replace s (String c EmptyString) (String d EmptyString)).
Proof.
  unfold PyStr.replace. simpl.
  replace (PyStr.starts_with EmptyString s) with true by (destruct s; reflexivity).
  rewrite andb_true_r. destruct (Ascii.eqb c x); reflexivity.
Qed.

Lemma length_replace_char c d s :
  String.length (PyStr.replace s (String c EmptyString) (String d EmptyString))
  = String.length s.
Proof.
  induction s as [| x s IH]; [reflexivity |].
  rewrite replace_char_cons. simpl. now rewrite IH.
Qed.

Lemma replace_char_gone c d s :
  c <> d ->
  PyStr.contains (String c EmptyString)
    (PyStr.replace s (String c EmptyString) (String d EmptyString)) = false.
Proof.
  intros Hne. induction s as [| x s IH]; [reflexivity |].
  rewrite replace_char_cons, contains_char_cons, IH, orb_false_r.
  destruct (Ascii.eqb_spec c x) as [<- | Hx].
  - now apply Ascii.eqb_neq.
  - now apply Ascii.eqb_neq.
Qed.

Lemma lstrip_keeps_absent c s :
  PyStr.contains (String c EmptyString) s = false ->
  PyStr.contains (String c EmptyString) (PyStr.lstrip s) = false.
Proof.
  induction s as [| x s IH]; simpl; [auto |].
  destruct (PyStr.is_space x); [| auto].
  rewrite contains_char_cons. intros H. apply orb_false_elim in H. now apply IH.
Qed.

Lemma rstrip_keeps_absent c s :
  PyStr.contains (String c EmptyString) s = false ->
  PyStr.contains (String c EmptyString) (PyStr.rstrip s) = false.
Proof.
  induction s as [| x s IH]; [auto |].
  rewrite contains_char_cons. intros H. apply orb_false_elim in H.
  destruct H as [Hx Hs]. specialize (IH Hs). simpl.
  destruct (PyStr.rstrip s) as [| y r].
  - destruct (PyStr.is_space x); [reflexivity |].
    rewrite contains_char_cons, Hx. reflexivity.
  - rewrite contains_char_cons, Hx. exact IH.
Qed.

Lemma first_word_pos_some content words :
  existsb (fun word => PyStr.contains word content) words = true ->
  exists pos, first_word_pos content words = Some pos.
Proof.
  induction words as [| word words IH]; simpl; [discriminate |].
  unfold PyStr.contains at 1.
  destruct (PyStr.find content word) as [pos |]; simpl; [now eexists | exact IH].
Qed.

(** X12. When the query, or one of its words, occurs in the content,
    [extract_snippet] returns text without any newline, of at most
    [max_length + 56] characters: the window of [50 + max_length] characters
    around the match and the two ellipses. *)
Theorem snippet_is_one_short_line (content query : string) (max_length : nat) :
  PyStr.contains query content = true
  \/ existsb (fun word => PyStr.contains word content) (PyStr.split query) = true ->
  PyStr.contains (String "010" EmptyString) (extract_snippet content query max_length)
    = false /\
  (String.length (extract_snippet content query max_length) <= max_length + 56)%nat.
Proof.
  intros Hfound. unfold extract_snippet.
  assert (Hpos : exists pos,
            match PyStr.find content query with
            | Some pos => Some pos
            | None => first_word_pos content (PyStr.split query)
            end = Some pos).
  { unfold PyStr.contains in Hfound.
    destruct (PyStr.find content query) as [pos |]; [now eexists |].
    destruct Hfound as [H | H]; [discriminate | now apply first_word_pos_some]. }
  destruct Hpos as [pos ->].
  set (start := (pos - 50)%nat).
  set (end_ := Nat.min (String.length content) (pos + max_length)).
  set (s0 := PyStr.slice start end_ content).
  set (s1 := if (0 <? start)%nat then ("..." ++ s0)%string else s0).
  set (s2 := if (end_ <? String.length content)%nat then (s1 ++ "...")%string else s1).
  split.
  - unfold PyStr.strip. apply rstrip_keeps_absent, lstrip_keeps_absent.
    apply replace_char_gone. discriminate.
  - pose proof (length_strip
                  (PyStr.replace s2 (String "010" EmptyString) " ")) as Hstrip.
    rewrite length_replace_char in Hstrip.
    assert (H0 : (String.length s0 <= max_length + 50)%nat).
    { unfold s0, PyStr.slice. pose proof (length_take (end_ - start) (PyStr.drop start content)).
      unfold end_, start in *. lia. }
    assert (H1 : (String.length s1 <= max_length + 53)%nat).
    { unfold s1. destruct (0 <? start)%nat; [| lia].
      rewrite length_app_str. simpl. lia. }
    assert (H2 : (String.length s2 <= max_length + 56)%nat).
    { unfold s2. destruct (end_ <? String.length content)%nat; [| lia].
      rewrite length_app_str. simpl. lia. }
    lia.
Qed.

Lemma snippet_is_one_short_line_witness :
  let content := (PyStr.repeat "a" 498 ++ "hello" ++ String "010" "world")%string in
  PyStr.contains (String "010" EmptyString) (extract_snippet content "hello there" 150)
    = false /\
  (String.length (extract_snippet content "hello there" 150) <= 150 + 56)%nat.
Proof.
  intros content. apply snippet_is_one_short_line. right. vm_compute. reflexivity.
Defined.

(** ** The file watcher *)

Lemma file_watcher_cycle_idle fs w :
  idle w ->
  exists w',
    file_watcher_cycle fs w = (Ret tt, w') /\ idle w' /\
    _USAGE_STATS w' = _USAGE_STATS w /\
    _FILE_MTIMES w'
    = (if root_exists fs && examinable fs then sample fs else _FILE_MTIMES w) /\
    (_INDEX w', _CONTENT_INDEX w') =
      if change_seen (_FILE_MTIMES w) fs
      then match scan fs with
           | Ok idx => (Some idx, Some (build_content_index fs))
           | Err _ => (_INDEX w, _CONTENT_INDEX w)
           end
      else (_INDEX w, _CONTENT_INDEX w).
Proof.
  intros Hidle. unfold file_watcher_cycle, change_seen.
  destruct (root_exists fs) eqn:Hroot.
  - destruct (examinable fs) eqn:Hex.
    + destruct (check_for_changes_idle fs w Hidle Hroot Hex) as [tr Hcheck].
      unfold bind at 1. rewrite Hcheck. cbn [andb].
      destruct (if some_deleted (_FILE_MTIMES w) (sample fs) then true
                else false || existsb (differs (_FILE_MTIMES w)) (listed fs));
        cbv beta iota.
      * match goal with
        | |- context [World ?i ?c ?m ?u ?a [] tr] =>
            pose proof (load_index_idle fs (World i c m u a [] tr) eq_refl) as Hload;
            pose proof (load_index_content fs (World i c m u a [] tr)) as Hcontent
        end.
        destruct (scan fs) as [idx | e].
        -- destruct (Hcontent idx eq_refl eq_refl) as [tr' Hrun].
           unfold bind. rewrite Hrun, Hroot. run.
           eexists. split; [reflexivity |]. repeat split.
        -- unfold bind. rewrite Hload.
           eexists. split; [reflexivity |]. repeat split.
      * run. eexists. split; [reflexivity |]. repeat split.
    + destruct (check_for_changes_raises fs w Hidle Hroot Hex) as (e & tr & Hcheck).
      unfold bind at 1. rewrite Hcheck. cbn [andb].
      eexists. split; [reflexivity |]. repeat split.
  - unfold check_for_changes. rewrite Hroot. run.
    exists w. repeat split. exact Hidle.
Qed.

(** X13. Started with no lock held, the file watcher completes every poll:
    whatever a poll raises is swallowed, no lock stays held, and the usage
    statistics are not touched.  As long as every store polled is one whose
    walk raises, both indexes stay as they were. *)
Theorem watcher_survives_failing_loads (polls : list store) (w : world) :
  idle w ->
  exists w',
    file_watcher polls w = (Ret tt, w') /\ idle w' /\
    _USAGE_STATS w' = _USAGE_STATS w /\
    (Forall (fun fs => exists e, scan fs = Err e) polls ->
     _INDEX w' = _INDEX w /\ _CONTENT_INDEX w' = _CONTENT_INDEX w).
Proof.
  revert w. induction polls as [| fs polls IH]; intros w Hidle.
  - exists w. repeat split. exact Hidle.
  - destruct (file_watcher_cycle_idle fs w Hidle)
      as (w1 & Hcycle & Hidle1 & Hstats1 & _ & Hindexes).
    destruct (IH w1 Hidle1) as (w' & Hrest & Hidle' & Hstats' & Hkeep).
    exists w'. cbn [file_watcher]. unfold bind. rewrite Hcycle.
    split; [exact Hrest |]. split; [exact Hidle' |].
    split; [congruence |].
    intros Hall. apply Forall_cons_1 in Hall. destruct Hall as [[e He] Hall].
    rewrite He in Hindexes.
    assert (Hsame : (_INDEX w1, _CONTENT_INDEX w1) = (_INDEX w, _CONTENT_INDEX w))
      by (destruct (change_seen (_FILE_MTIMES w) fs); exact Hindexes).
    injection Hsame as Hi Hc. destruct (Hkeep Hall) as [Hi' Hc'].
    split; congruence.
Qed.

Lemma watcher_survives_failing_loads_witness :
  let bad := store_of [forms_dir; bad_sub_dir] in
  let w := snd (get_index forms_store (initial_world "start")) in
  exists w',
    file_watcher [bad; bad; bad] w = (Ret tt, w') /\ idle w' /\
    _USAGE_STATS w' = _USAGE_STATS w /\
    (Forall (fun fs => exists e, scan fs = Err e) [bad; bad; bad] ->
     _INDEX w' = _INDEX w /\ _CONTENT_INDEX w' = _CONTENT_INDEX w).
Proof.
  intros bad w. apply (watcher_survives_failing_loads [bad; bad; bad] w).
  reflexivity.
Defined.

(** X14. One poll of the watcher over an existing store whose walk returns.
    When every path under the skill directories can be examined, the
    snapshot of modification times is replaced by the one sampled; when a
    file was modified, added or removed since the stored snapshot, both
    indexes are replaced by what is on disk; otherwise they stay as they
    were.  When some path cannot be examined ([is_file] raises), the poll
    still completes, and the snapshot and both indexes stay as they were. *)
Theorem watcher_reloads_on_change (fs : store) (w : world) (idx : index) :
  idle w -> root_exists fs = true -> NoDup (listed fs).*1 -> scan fs = Ok idx ->
  exists w',
    file_watcher_cycle fs w = (Ret tt, w') /\
    (examinable fs = true ->
     _FILE_MTIMES w' = sample fs /\
     (modified (_FILE_MTIMES w) (sample fs) \/ added (_FILE_MTIMES w) (sample fs)
      \/ removed (_FILE_MTIMES w) (sample fs) ->
      _INDEX w' = Some idx /\ _CONTENT_INDEX w' = Some (build_content_index fs)) /\
     (~ (modified (_FILE_MTIMES w) (sample fs) \/ added (_FILE_MTIMES w) (sample fs)
         \/ removed (_FILE_MTIMES w) (sample fs)) ->
      _INDEX w' = _INDEX w /\ _CONTENT_INDEX w' = _CONTENT_INDEX w)) /\
    (examinable fs = false ->
     _FILE_MTIMES w' = _FILE_MTIMES w /\
     _INDEX w' = _INDEX w /\ _CONTENT_INDEX w' = _CONTENT_INDEX w).
Proof.
  intros Hidle Hroot Hnd Hscan.
  destruct (file_watcher_cycle_idle fs w Hidle)
    as (w' & Hcycle & _ & _ & Hmtimes & Hindexes).
  rewrite Hroot in Hmtimes. rewrite Hscan in Hindexes.
  pose proof (changed_iff (_FILE_MTIMES w) fs Hnd) as Hiff.
  unfold change_seen in Hindexes. rewrite Hroot in Hindexes.
  exists w'. split; [exact Hcycle |]. split.
  - intros Hex. rewrite Hex in Hmtimes, Hindexes. cbn [andb] in Hmtimes, Hindexes.
    split; [exact Hmtimes |].
    destruct (if some_deleted (_FILE_MTIMES w) (sample fs) then true
              else false || existsb (differs (_FILE_MTIMES w)) (listed fs)).
    + injection Hindexes as Hi Hc. split; [now intros _ |].
      intros Hno. exfalso. apply Hno, Hiff. reflexivity.
    + injection Hindexes as Hi Hc. split; [| now intros _].
      intros Hyes. apply Hiff in Hyes. discriminate Hyes.
  - intros Hex. rewrite Hex in Hmtimes, Hindexes. cbn [andb] in Hmtimes, Hindexes.
    injection Hindexes as Hi Hc. now repeat split.
Qed.

Lemma watcher_reloads_on_change_witness :
  let w := initial_world "start" in
  let locked := store_of [DirEntry "forms" true true (Some (MetaOk forms_meta))
                            (Some (ReadOk "# Forms")) None None
                            [TreeFile "/skills/forms/private/notes.md"
                               (Err OSError) None]] in
  (exists w',
     file_watcher_cycle forms_store w = (Ret tt, w') /\
     _FILE_MTIMES w' = sample forms_store /\
     _INDEX w' = Some (Index [forms_meta] []) /\
     _CONTENT_INDEX w' = Some (build_content_index forms_store)) /\
  (exists w',
     file_watcher_cycle locked w = (Ret tt, w') /\
     _FILE_MTIMES w' = _FILE_MTIMES w /\
     _INDEX w' = _INDEX w /\ _CONTENT_INDEX w' = _CONTENT_INDEX w).
Proof.
  intros w locked. split.
  - destruct (watcher_reloads_on_change forms_store w (Index [forms_meta] []))
      as (w' & Hcycle & Hyes & _).
    + reflexivity.
    + reflexivity.
    + simpl. repeat (apply NoDup_cons; split;
                     [rewrite ?elem_of_cons, elem_of_nil; intros H;
                      repeat (destruct H as [H | H]; [discriminate H |]); exact H |]).
      apply NoDup_nil_2.
    + reflexivity.
    + exists w'. split; [exact Hcycle |].
      destruct (Hyes eq_refl) as (Hm & Hchanged & _).
      split; [exact Hm |]. apply Hchanged.
      right. left. exists "/skills/forms/SKILL.md". split; [reflexivity |].
      exists 1700000000%Z. vm_compute. reflexivity.
  - destruct (watcher_reloads_on_change locked w (Index [forms_meta] []))
      as (w' & Hcycle & _ & Hno).
    + reflexivity.
    + reflexivity.
    + apply NoDup_nil_2.
    + reflexivity.
    + exists w'. split; [exact Hcycle |]. exact (Hno eq_refl).
Defined.

(** ** Ranking and truncation of search results *)

Lemma SFcompare_asym x y : SFcompare x y = Some Lt -> SFcompare y x = Some Gt.
Proof.
  destruct x as [sx | sx | | sx mx ex], y as [sy | sy | | sy my ey]; simpl;
    try discriminate; try (destruct sx; try destruct sy; simpl; congruence).
  change (Pos.compare_cont Eq mx my) with (Pos.compare mx my).
  change (Pos.compare_cont Eq my mx) with (Pos.compare my mx).
  rewrite (Z.compare_antisym ex ey), (Pos.compare_antisym mx my).
  destruct sx, sy; try congruence; intros H; injection H as H;
    destruct (ex ?= ey)%Z; simpl in *; try discriminate H; try reflexivity;
    destruct (mx ?= my)%positive; simpl in *; congruence.
Qed.

Lemma float_ltb_asym x y : PrimFloat.ltb x y = true -> PrimFloat.ltb y x = false.
Proof.
  rewrite !FloatAxioms.ltb_spec. unfold SFltb. intros H.
  destruct (SFcompare (Prim2SF x) (Prim2SF y)) as [[ | | ] |] eqn:Hc;
    try discriminate H.
  now rewrite (SFcompare_asym _ _ Hc).
Qed.

Lemma insert_desc_descending {A} (key : A -> float) x l :
  descending key l = true -> descending key (insert_desc key x l) = true.
Proof.
  induction l as [| y rest IH]; [reflexivity |].
  intros Hl. cbn [insert_desc].
  destruct (PrimFloat.ltb (key x) (key y)) eqn:Hxy.
  - cbn [descending] in Hl |- *. apply andb_prop in Hl. destruct Hl as [Hhead Hrest].
    rewrite (IH Hrest), andb_true_r.
    destruct rest as [| z rest']; cbn [insert_desc].
    + now rewrite (float_ltb_asym _ _ Hxy).
    + destruct (PrimFloat.ltb (key x) (key z)); [exact Hhead |].
      now rewrite (float_ltb_asym _ _ Hxy).
  - change (negb (PrimFloat.ltb (key x) (key y)) && descending key (y :: rest) = true).
    now rewrite Hxy, Hl.
Qed.

Lemma sort_desc_descending {A} (key : A -> float) l :
  descending key (sort_desc key l) = true.
Proof.
  induction l as [| x l IH]; [reflexivity |].
  now apply insert_desc_descending.
Qed.

Lemma firstn_descending {A} (key : A -> float) n l :
  descending key l = true -> descending key (firstn n l) = true.
Proof.
  revert n. induction l as [| x rest IH]; intros n Hl; [now destruct n |].
  destruct n as [| n]; [reflexivity |].
  cbn [firstn descending] in Hl |- *. apply andb_prop in Hl. destruct Hl as [Hhead Hrest].
  rewrite (IH n Hrest), andb_true_r.
  destruct rest as [| y rest']; [now destruct n |].
  destruct n; [reflexivity | exact Hhead].
Qed.

Lemma clamp_limit_bounds limit : (1 <= clamp_limit limit <= 100)%nat.
Proof. unfold clamp_limit. lia. Qed.

Lemma ranked_forall {A} (P : A -> Prop) (key : A -> float) n l :
  Forall P l -> Forall P (firstn n (sort_desc key l)).
Proof.
  rewrite !Forall_forall. intros H x Hx. apply H.
  apply (subseteq_take n _ x) in Hx.
  now rewrite (sort_desc_perm key l) in Hx.
Qed.

Lemma ranked_bounds {A} (key : A -> float) limit (l : list A) :
  (length (firstn (clamp_limit limit) (sort_desc key l)) <= clamp_limit limit <= 100)%nat
  /\ descending key (firstn (clamp_limit limit) (sort_desc key l)) = true.
Proof.
  pose proof (clamp_limit_bounds limit).
  pose proof (firstn_le_length (clamp_limit limit) (sort_desc key l)).
  split; [lia |]. apply firstn_descending, sort_desc_descending.
Qed.

(** ** Results of the content search *)

Lemma split_from_nil cur s :
  PyStr.split_from cur s = [] -> cur = [] /\ all_space s = true.
Proof.
  revert cur. induction s as [| c s IH]; intros cur; simpl.
  - destruct cur; [auto | discriminate].
  - destruct (PyStr.is_space c); simpl.
    + intros H. apply app_eq_nil in H. destruct H as [Hflush Hrest].
      destruct cur; [| discriminate Hflush]. now destruct (IH [] Hrest).
    + intros H. destruct (IH _ H) as [Hcur _]. discriminate Hcur.
Qed.

Lemma all_space_strip s : all_space s = true -> PyStr.strip s = EmptyString.
Proof.
  unfold PyStr.strip. induction s as [| c s IH]; simpl; [reflexivity |].
  intros H. apply andb_prop in H. destruct H as [-> Hs]. now apply IH.
Qed.

Lemma split_nonblank query : query_blank query = false -> PyStr.split query <> [].
Proof.
  unfold query_blank. intros H Hsplit. apply orb_false_elim in H.
  destruct H as [_ H]. apply split_from_nil in Hsplit. destruct Hsplit as [_ Hs].
  now rewrite (all_space_strip _ Hs) in H.
Qed.

Lemma filter_nonempty_existsb {A} (p : A -> bool) l :
  (0 < length (List.filter p l))%nat -> existsb p l = true.
Proof.
  induction l as [| x l IH]; simpl; [lia |].
  destruct (p x); [reflexivity | exact IH].
Qed.

Lemma content_hits_match ql words kv h :
  words <> [] -> In h (content_hits ql words kv) ->
  reports h (snd kv) /\
  (PyStr.contains ql (c_content (snd kv)) = true
   \/ existsb (fun word => PyStr.contains word (c_content (snd kv))) words = true).
Proof.
  intros Hwords. unfold content_hits.
  destruct (PrimFloat.ltb 0
              (content_score ql words (c_content (snd kv)))) eqn:Hscore;
    [| contradiction].
  intros [<- | []]. split; [repeat split |].
  unfold content_score in Hscore.
  destruct (PyStr.contains ql (c_content (snd kv))); [now left | right].
  destruct (forallb (fun word => PyStr.contains word (c_content (snd kv))) words)
    eqn:Hall.
  - destruct words as [| word words]; [contradiction |].
    simpl in Hall |- *. apply andb_prop in Hall. destruct Hall as [-> _]. reflexivity.
  - destruct (Nat.ltb_spec 0
                (length (List.filter
                           (fun word => PyStr.contains word (c_content (snd kv)))
                           words))) as [Hpos | _].
    + now apply filter_nonempty_existsb.
    + vm_compute in Hscore. discriminate Hscore.
Qed.

(** X15. For a valid query on a loaded content index, with no lock held,
    [_search_content] returns at most [max(1, min(limit, 100))] results, no
    result followed by one with a greater score; every result is for a file
    of the index whose text contains the lower-cased query or at least one
    of its words. *)
Theorem search_content_hits_match (fs : store) (now query : string) (limit : Z)
    (w : world) (cidx : list (string * content_entry)) :
  idle w -> _CONTENT_INDEX w = Some cidx ->
  query_blank query = false ->
  (String.length query <= 1000)%nat ->
  (length (PyStr.split (PyStr.lower query)) <= 100)%nat ->
  exists results w',
    _search_content fs now query limit w = (Ret (SearchResults query results), w') /\
    (length results <= clamp_limit limit <= 100)%nat /\
    descending ch_score results = true /\
    Forall (fun h =>
              exists key entry,
                In (key, entry) cidx /\ reports h entry /\
                (PyStr.contains (PyStr.lower query) (c_content entry) = true
                 \/ existsb (fun word => PyStr.contains word (c_content entry))
                      (PyStr.split (PyStr.lower query)) = true))
      results.
Proof.
  intros Hidle Hc Hblank Hlen Hwords.
  destruct (search_content_loaded fs now query limit w cidx Hidle Hc Hblank Hlen Hwords)
    as [w' Hrun].
  eexists _, w'. split; [exact Hrun |].
  destruct (ranked_bounds ch_score limit
              (flat_map (content_hits (PyStr.lower query)
                           (PyStr.split (PyStr.lower query))) cidx))
    as [Hbound Hdesc].
  split; [exact Hbound |]. split; [exact Hdesc |].
  apply ranked_forall. apply Forall_forall. intros h Hh.
  apply list_elem_of_In, in_flat_map in Hh. destruct Hh as ([key entry] & Hin & Hh).
  assert (Hsplit : PyStr.split (PyStr.lower query) <> []).
  { apply split_nonblank. now rewrite query_blank_lower. }
  destruct (content_hits_match _ _ _ _ Hsplit Hh) as [Hrep Hfound].
  exists key, entry. split; [exact Hin |]. split; [exact Hrep | exact Hfound].
Qed.

Lemma search_content_hits_match_witness :
  let w := snd (get_index forms_store (initial_world "start")) in
  exists results w',
    _search_content forms_store "now" "Zod schema" 0 w
      = (Ret (SearchResults "Zod schema" results), w') /\
    (length results <= clamp_limit 0 <= 100)%nat /\
    descending ch_score results = true /\
    Forall (fun h =>
              exists key entry,
                In (key, entry) (build_content_index forms_store) /\ reports h entry /\
                (PyStr.contains (PyStr.lower "Zod schema") (c_content entry) = true
                 \/ existsb (fun word => PyStr.contains word (c_content entry))
                      (PyStr.split (PyStr.lower "Zod schema")) = true))
      results.
Proof.
  intros w.
  apply (search_content_hits_match forms_store "now" "Zod schema" 0 w
           (build_content_index forms_store)).
  - reflexivity.
  - reflexivity.
  - reflexivity.
  - simpl. lia.
  - vm_compute. lia.
Defined.

(** ** Results of the metadata search *)

Lemma concat_res_forall {A B} (P : B -> Prop) (f : A -> res (list B)) l r :
  (forall x ys, f x = Ok ys -> Forall P ys) ->
  concat_res f l = Ok r -> Forall P r.
Proof.
  intros Hf. revert r. induction l as [| x l IH]; intros r; simpl.
  - intros [= <-]. constructor.
  - destruct (f x) as [ys | e] eqn:Hx; [| discriminate]. simpl.
    destruct (concat_res f l) as [more | e]; [| discriminate]. simpl.
    intros [= <-]. apply Forall_app. split; [now apply (Hf x) | now apply IH].
Qed.

Lemma domain_hits_graded ql skill own :
  domain_hits ql skill = Ok own -> Forall graded own.
Proof.
  unfold domain_hits, domain_match.
  destruct (Py.getitem skill "name") as [name | e]; [| discriminate].
  cbn [res_bind].
  destruct (Py.lower name) as [name_lower | e]; [| discriminate]. cbn [res_bind].
  destruct (PyStr.contains ql name_lower).
  { cbn [res_bind fst snd]. intros [= <-]. repeat constructor. }
  destruct (Py.getitem skill "description") as [description | e]; [| discriminate].
  cbn [res_bind].
  destruct (Py.lower description) as [description_lower | e]; [| discriminate].
  cbn [res_bind].
  destruct (PyStr.contains ql description_lower).
  { cbn [res_bind fst snd]. intros [= <-].
    constructor; [right; left; reflexivity | constructor]. }
  destruct (Py.get skill "tags" (JArr [])) as [tags | e]; [| discriminate].
  cbn [res_bind].
  destruct (any_contains ql tags) as [[ | ] | e]; [| | discriminate];
    cbn [res_bind fst snd].
  - intros [= <-]. constructor; [right; right; reflexivity | constructor].
  - intros [= <-]. constructor.
Qed.

Lemma sub_hits_graded ql skill sub hs :
  sub_hits ql skill sub = Ok hs -> Forall graded hs.
Proof.
  unfold sub_hits, sub_match.
  destruct (Py.getitem sub "name") as [name | e]; [| discriminate].
  cbn [res_bind].
  destruct (Py.lower name) as [name_lower | e]; [| discriminate]. cbn [res_bind].
  destruct (Py.getitem skill "name") as [domain | e].
  - destruct (PyStr.contains ql name_lower).
    { cbn [res_bind fst snd]. intros [= <-]. repeat constructor. }
    destruct (Py.get sub "triggers" (JArr [])) as [triggers | e']; [| discriminate].
    cbn [res_bind].
    destruct (any_contains ql triggers) as [[ | ] | e']; [| | discriminate];
      cbn [res_bind fst snd].
    + intros [= <-]. constructor; [right; reflexivity | constructor].
    + intros [= <-]. constructor.
  - destruct (PyStr.contains ql name_lower).
    { cbn [res_bind fst snd]. discriminate. }
    destruct (Py.get sub "triggers" (JArr [])) as [triggers | e']; [| discriminate].
    cbn [res_bind].
    destruct (any_contains ql triggers) as [[ | ] | e']; [| | discriminate];
      cbn [res_bind fst snd].
    + discriminate.
    + intros [= <-]. constructor.
Qed.

Lemma skill_hits_graded ql skill hs :
  skill_hits ql skill = Ok hs -> Forall graded hs.
Proof.
  unfold skill_hits.
  destruct (domain_hits ql skill) as [own | e] eqn:Hown; [| discriminate].
  cbn [res_bind].
  destruct (Py.get skill "sub_skills" (JArr [])) as [subs | e]; [| discriminate].
  cbn [res_bind].
  destruct (Py.iter subs) as [items | e]; [| discriminate]. cbn [res_bind].
  destruct (concat_res (sub_hits ql skill) items) as [below | e] eqn:Hbelow;
    [| discriminate].
  cbn [res_bind]. intros [= <-]. apply Forall_app. split.
  - now apply (domain_hits_graded ql skill).
  - apply (concat_res_forall graded (sub_hits ql skill) items below); [| exact Hbelow].
    intros sub ys. apply sub_hits_graded.
Qed.

(** X16. For a valid query on an index that conforms to the schema, with no
    lock held, [_search_skills] returns at most [max(1, min(limit, 100))]
    results, no result followed by one with a greater score.  A domain-level
    result has score 0.9 with match type name, 0.7 with description or 0.8
    with tags; a sub-skill result has 0.85 with name or 0.9 with triggers. *)
Theorem search_skills_ranked (fs : store) (now query : string) (limit : Z)
    (w : world) (idx : index) :
  idle w -> current_index fs w = Ok idx ->
  query_blank query = false ->
  (String.length query <= 1000)%nat ->
  forallb conforms (skills idx) = true ->
  exists results w',
    _search_skills fs now query limit w = (Ret (SearchResults query results), w') /\
    (length results <= clamp_limit limit <= 100)%nat /\
    descending h_score results = true /\
    Forall graded results.
Proof.
  intros Hidle Hidx Hblank Hlen Hconf.
  destruct idx as [skills errs]. simpl in Hconf.
  destruct (candidates_conform (PyStr.lower query) EmptyString skills errs Hconf)
    as (candidates & Hcand & _).
  destruct (search_skills_loaded fs now query limit w (Index skills errs) candidates
              Hidle Hidx Hblank Hlen Hcand) as [w' Hrun].
  eexists _, w'. split; [exact Hrun |].
  destruct (ranked_bounds h_score limit candidates) as [Hbound Hdesc].
  split; [exact Hbound |]. split; [exact Hdesc |].
  apply ranked_forall.
  apply (concat_res_forall graded (skill_hits (PyStr.lower query)) skills candidates);
    [| exact Hcand].
  intros skill ys. apply skill_hits_graded.
Qed.

Lemma search_skills_ranked_witness :
  exists results w',
    _search_skills forms_store "now" "Valid" 500 (initial_world "start")
      = (Ret (SearchResults "Valid" results), w') /\
    (length results <= clamp_limit 500 <= 100)%nat /\
    descending h_score results = true /\
    Forall graded results.
Proof.
  apply (search_skills_ranked forms_store "now" "Valid" 500 (initial_world "start")
           (Index [forms_meta] [])).
  - reflexivity.
  - reflexivity.
  - reflexivity.
  - simpl. lia.
  - reflexivity.
Defined.

(** ** What the two loaders read *)

Lemma bind_ret_inv {A B} (m : M A) (k : A -> M B) w b w' :
  bind m k w = (Ret b, w') ->
  exists a w1, m w = (Ret a, w1) /\ k a w1 = (Ret b, w').
Proof.
  unfold bind. destruct (m w) as [[a | e | l] w1]; try discriminate.
  intros H. now exists a, w1.
Qed.

Lemma lift_ret_inv {A} (r : res A) w a w' :
  lift r w = (Ret a, w') -> r = Ok a /\ w' = w.
Proof.
  destruct r as [x | e]; simpl; unfold ret, raise; [| discriminate].
  intros [= <- <-]. now split.
Qed.

Lemma get_index_ret_inv fs w idx w' :
  get_index fs w = (Ret idx, w') -> _INDEX w' = Some idx.
Proof.
  unfold get_index, with_lock, acquire.
  destruct (holds INDEX_LOCK (held w)); [discriminate |].
  cbn [_INDEX set_locks]. destruct (_INDEX w) as [cached |] eqn:Hcached.
  - intros [= <- <-]. exact Hcached.
  - unfold bind.
    match goal with
    | |- context [load_index fs ?W] => destruct (load_index fs W) as [[x | e | l] w2]
    end; try discriminate.
    intros [= <- <-]. reflexivity.
Qed.

Lemma next_where_some p l x :
  Py.next_where p l = Ok (Some x) -> In x l /\ p x = Ok true.
Proof.
  induction l as [| y l IH]; simpl; [discriminate |].
  destruct (p y) as [[ | ] | e] eqn:Hy; simpl; [| | discriminate].
  - intros [= <-]. split; [now left | exact Hy].
  - intros H. destruct (IH H) as [Hin Hp]. split; [now right | exact Hp].
Qed.

Lemma find_skill_some skills name meta :
  find_skill skills name = Ok (Some meta) -> In meta skills /\ named name meta = true.
Proof.
  unfold find_skill. intros H. apply next_where_some in H. destruct H as [Hin Hp].
  split; [exact Hin |]. unfold named.
  destruct (Py.getitem meta "name") as [n | e]; simpl in Hp; [| discriminate Hp].
  now injection Hp.
Qed.

(** X17. Whenever [_get_sub_skill] returns content, from whatever state it
    was called in: the domain is a safe name and has a record in the index
    now cached; that record lists a sub-skill with the name asked for; and
    the content is the text of that sub-skill's file under the domain
    directory, a path that [validate_skill_path] accepted and that exists. *)
Theorem get_sub_skill_reads_validated_path (fs : store) (now : string)
    (domain sub_skill : json) (w w' : world) (d : string) (sub : json)
    (content : string) :
  _get_sub_skill fs now domain sub_skill w = (Ret (SubSkillContent d sub content), w') ->
  domain = JStr d /\ is_safe_skill_name domain = true /\ sub = sub_skill /\
  exists index meta file,
    _INDEX w' = Some index /\ In meta (skills index) /\ named d meta = true /\
    lists_sub_skill meta sub_skill file /\
    p_inside (sub_path fs d file) = true /\
    p_exists (sub_path fs d file) = Ok true /\
    read_text (p_read (sub_path fs d file)) = Ok content.
Proof.
  intros H. unfold _get_sub_skill in H.
  destruct (is_safe_skill_name domain) eqn:Hsafe; [| discriminate H].
  destruct (safe_name_is_str domain Hsafe) as [s ->].
  cbn [negb] in H. cbv iota in H.
  apply bind_ret_inv in H. destruct H as (u & w1 & _ & H).
  apply bind_ret_inv in H. destruct H as (index & w2 & Hget & H).
  apply get_index_ret_inv in Hget.
  apply bind_ret_inv in H. destruct H as (found & w3 & Hfound & H).
  apply lift_ret_inv in Hfound. destruct Hfound as [Hfound ->].
  destruct found as [meta |]; [| discriminate H].
  apply find_skill_some in Hfound. destruct Hfound as [Hmeta Hnamed].
  destruct (Py.truthy meta); [| discriminate H]. cbn [negb] in H. cbv iota in H.
  apply bind_ret_inv in H. destruct H as (o & w3 & Hsub & H).
  apply lift_ret_inv in Hsub. destruct Hsub as [Hsub ->].
  destruct (Py.get meta "sub_skills" (JArr [])) as [subs | e] eqn:Hsubs;
    [| discriminate Hsub].
  cbn [res_bind] in Hsub.
  destruct (Py.iter subs) as [items | e] eqn:Hitems; [| discriminate Hsub].
  cbn [res_bind] in Hsub.
  destruct o as [record |]; [| discriminate H].
  apply next_where_some in Hsub. destruct Hsub as [Hrecord Hname].
  destruct (Py.getitem record "name") as [n | e] eqn:Hn; [| discriminate Hname].
  cbn [res_bind] in Hname. injection Hname as Hname.
  destruct (Py.truthy record); [| discriminate H]. cbn [negb] in H. cbv iota in H.
  apply bind_ret_inv in H. destruct H as (file & w3 & Hfile & H).
  apply lift_ret_inv in Hfile. destruct Hfile as [Hfile ->].
  destruct file as [ | | | | file | | ]; try discriminate H.
  destruct (p_inside (sub_path fs s file)) eqn:Hinside; [| discriminate H].
  cbn [negb] in H. cbv iota in H.
  apply bind_ret_inv in H. destruct H as (there & w3 & Hexists & H).
  apply lift_ret_inv in Hexists. destruct Hexists as [Hexists ->].
  destruct there; [| discriminate H].
  destruct (read_text (p_read (sub_path fs s file))) as [text | e] eqn:Hread;
    [| discriminate H].
  cbn [negb] in H. cbv iota in H. unfold ret in H.
  injection H as <- <- <- <-.
  split; [reflexivity |]. split; [reflexivity |]. split; [reflexivity |].
  exists index, meta, file. split; [exact Hget |]. split; [exact Hmeta |].
  split; [exact Hnamed |]. split; [| now repeat split].
  exists subs, items, record, n. repeat split; assumption.
Qed.

Lemma get_sub_skill_reads_validated_path_witness :
  let w' := snd (_get_sub_skill forms_store "now" (JStr "forms") (JStr "validation")
                   (initial_world "start")) in
  JStr "forms" = JStr "forms" /\ is_safe_skill_name (JStr "forms") = true /\
  JStr "validation" = JStr "validation" /\
  exists index meta file,
    _INDEX w' = Some index /\ In meta (skills index) /\ named "forms" meta = true /\
    lists_sub_skill meta (JStr "validation") file /\
    p_inside (sub_path forms_store "forms" file) = true /\
    p_exists (sub_path forms_store "forms" file) = Ok true /\
    read_text (p_read (sub_path forms_store "forms" file)) = Ok "Validate with Zod".
Proof.
  intros w'.
  apply (get_sub_skill_reads_validated_path forms_store "now" (JStr "forms")
           (JStr "validation") (initial_world "start") w').
  reflexivity.
Defined.

(** X18. Whenever [_get_skill] returns content, from whatever state it was
    called in: the name is safe, [validate_skill_path] accepted the
    directory, the content is the text of the [SKILL.md] in it, and the
    sub-skill names are those of the first record of that name in the index
    now cached, or none when the index has no such record. *)
Theorem get_skill_reads_validated_path (fs : store) (now : string) (name : json)
    (w w' : world) (s content : string) (subs : list json) (refs : bool) :
  _get_skill fs now name w = (Ret (SkillContent s content subs refs), w') ->
  name = JStr s /\ is_safe_skill_name name = true /\
  validate_skill_dir fs s = true /\
  (exists file, skill_file fs s = Ok (Some file) /\ read_text file = Ok content) /\
  refs = has_references fs s /\
  exists index found,
    _INDEX w' = Some index /\ find_skill (skills index) s = Ok found /\
    match found with
    | Some meta => sub_skill_names meta = Ok subs
    | None => subs = []
    end.
Proof.
  intros H. unfold _get_skill in H.
  destruct (is_safe_skill_name name) eqn:Hsafe; [| discriminate H].
  destruct (safe_name_is_str name Hsafe) as [n ->].
  cbn [negb] in H. cbv iota in H.
  apply bind_ret_inv in H. destruct H as (u & w1 & _ & H).
  destruct (validate_skill_dir fs n) eqn:Hdir; [| discriminate H].
  cbn [negb] in H. cbv iota in H.
  apply bind_ret_inv in H. destruct H as (o & w2 & Hfile & H).
  apply lift_ret_inv in Hfile. destruct Hfile as [Hfile ->].
  destruct o as [file |]; [| discriminate H].
  destruct (read_text file) as [text | e] eqn:Hread; [| discriminate H].
  cbn [negb] in H. cbv iota in H.
  apply bind_ret_inv in H. destruct H as (index & w2 & Hget & H).
  apply get_index_ret_inv in Hget.
  apply bind_ret_inv in H. destruct H as (found & w3 & Hfound & H).
  apply lift_ret_inv in Hfound. destruct Hfound as [Hfound ->].
  apply bind_ret_inv in H. destruct H as (names & w3 & Hnames & H).
  apply lift_ret_inv in Hnames. destruct Hnames as [Hnames ->].
  unfold ret in H. injection H as <- <- <- <- <-.
  split; [reflexivity |]. split; [reflexivity |]. split; [exact Hdir |].
  split; [now exists file |]. split; [reflexivity |].
  exists index, found. split; [exact Hget |]. split; [exact Hfound |].
  destruct found as [meta |]; [exact Hnames |].
  vm_compute in Hnames. now injection Hnames.
Qed.

Lemma get_skill_reads_validated_path_witness :
  let w' := snd (_get_skill forms_store "now" (JStr "forms") (initial_world "start")) in
  JStr "forms" = JStr "forms" /\ is_safe_skill_name (JStr "forms") = true /\
  validate_skill_dir forms_store "forms" = true /\
  (exists file, skill_file forms_store "forms" = Ok (Some file)
                /\ read_text file = Ok "# Forms") /\
  true = has_references forms_store "forms" /\
  exists index found,
    _INDEX w' = Some index /\ find_skill (skills index) "forms" = Ok found /\
    match found with
    | Some meta => sub_skill_names meta = Ok [JStr "validation"]
    | None => [JStr "validation"] = []
    end.
Proof.
  intros w'.
  apply (get_skill_reads_validated_path forms_store "now" (JStr "forms")
           (initial_world "start") w').
  reflexivity.
Defined.



(** ** The skill-load counters *)

(** X20. With no lock held, [_get_skill] and [_get_sub_skill] called with a
    safe name add one to the load counter of that name and leave the
    counters of other names alone, whatever the store holds: the load is
    counted before anything is looked up, also for a domain that does not
    exist, and a sub-skill load is counted for its domain. *)
Theorem loads_counted_before_lookup (fs : store) (now : string) (w : world)
    (s : string) (sub_skill : json) :
  idle w -> is_safe_skill_name (JStr s) = true ->
  let w1 := snd (_get_skill fs now (JStr s) w) in
  let w2 := snd (_get_sub_skill fs now (JStr s) sub_skill w) in
  loads w1 s = S (loads w s) /\ loads w2 s = S (loads w s) /\
  forall other, other <> s ->
    loads w1 other = loads w other /\ loads w2 other = loads w other.
Proof.
  intros Hidle Hsafe w1 w2.
  assert (H1 : _USAGE_STATS w1
               = record_usage "get_skill" (Details (Some s) None None) now
                   (_USAGE_STATS w)).
  { unfold w1, _get_skill. rewrite Hsafe. cbn [negb]. cbv iota.
    apply tracked_then; [exact Hidle | frame]. }
  assert (H2 : _USAGE_STATS w2
               = record_usage "get_sub_skill" (Details (Some s) (Some sub_skill) None)
                   now (_USAGE_STATS w)).
  { unfold w2, _get_sub_skill. rewrite Hsafe. cbn [negb]. cbv iota.
    apply tracked_then; [exact Hidle | frame]. }
  unfold loads. rewrite H1, H2. cbn [record_usage details_truthy d_domain skill_loads].
  rewrite increment_same.
  split; [reflexivity |]. split; [reflexivity |].
  intros other Hother. rewrite increment_other by congruence. now split.
Qed.

Lemma loads_counted_before_lookup_witness :
  let w := initial_world "start" in
  let w1 := snd (_get_skill no_store "now" (JStr "charts") w) in
  let w2 := snd (_get_sub_skill no_store "now" (JStr "charts") (JStr "bars") w) in
  loads w1 "charts" = S (loads w "charts") /\
  loads w2 "charts" = S (loads w "charts") /\
  forall other, other <> "charts" ->
    loads w1 other = loads w other /\ loads w2 other = loads w other.
Proof.
  intros w.
  apply (loads_counted_before_lookup no_store "now" w "charts" (JStr "bars"));
    reflexivity.
Defined.

(** ** Listing the skills *)

Lemma map_res_forall2 {A B} (f : A -> res B) l r :
  Py.map_res f l = Ok r -> Forall2 (fun x y => f x = Ok y) l r.
Proof.
  revert r. induction l as [| x l IH]; intros r; simpl.
  - intros [= <-]. constructor.
  - destruct (f x) as [y | e] eqn:Hx; [| discriminate]. simpl.
    destruct (Py.map_res f l) as [ys | e]; [| discriminate]. simpl.
    intros [= <-]. constructor; [exact Hx | now apply IH].
Qed.

Lemma map_res_total {A B} (f : A -> res B) l :
  Forall (fun x => exists y, f x = Ok y) l -> exists r, Py.map_res f l = Ok r.
Proof.
  induction 1 as [| x l [y Hy] _ [r Hr]]; simpl.
  - now exists [].
  - rewrite Hy, Hr. simpl. now eexists.
Qed.

Lemma map_res_err {A B} (f : A -> res B) l x e :
  In x l -> f x = Err e -> exists e', Py.map_res f l = Err e'.
Proof.
  intros Hin Hx. induction l as [| y l IH]; [contradiction |].
  simpl. destruct Hin as [-> | Hin].
  - rewrite Hx. now eexists.
  - destruct (f y); simpl; [| now eexists].
    destruct (IH Hin) as [e' ->]. now eexists.
Qed.

Lemma summarize_conforms skill :
  conforms skill = true -> exists sm, summarize skill = Ok sm.
Proof.
  intros Hconf. destruct skill as [ | | | | | | fields]; try discriminate Hconf.
  destruct (conforms_sub_skills fields Hconf) as (subs & Hiter & Hsubs).
  destruct (sub_names_conform subs Hsubs) as [names Hnames].
  unfold summarize, sub_skill_names. simpl in Hconf |- *.
  destruct (Py.dict_get fields "name") as [[ | | | | name | | ] |];
    try discriminate Hconf.
  destruct (Py.dict_get fields "description") as [[ | | | | descr | | ] |];
    try discriminate Hconf.
  simpl in Hiter |- *.
  destruct (Py.dict_get fields "sub_skills") as [v |]; simpl in *.
  - rewrite Hiter. simpl. rewrite Hnames. simpl. now eexists.
  - injection Hiter as <-. simpl in Hnames. injection Hnames as <-. now eexists.
Qed.

Lemma summarize_shows skill sm : summarize skill = Ok sm -> shows skill sm.
Proof.
  unfold summarize, shows.
  destruct (Py.getitem skill "name") as [name | e]; [| discriminate].
  cbn [res_bind].
  destruct (Py.getitem skill "description") as [descr | e]; [| discriminate].
  cbn [res_bind].
  destruct (sub_skill_names skill) as [subs | e]; [| discriminate].
  cbn [res_bind]. intros [= <-]. repeat split.
Qed.

Lemma list_skills_idle fs now w idx :
  idle w -> current_index fs w = Ok idx ->
  fst (_list_skills fs now w)
  = match Py.map_res summarize (skills idx) with
    | Ok summaries => Ret summaries
    | Err e => Raise e
    end.
Proof.
  intros Hidle Hidx. unfold _list_skills.
  on_idle w Hidle. read_index fs idx Hidx.
  destruct (Py.map_res summarize (skills idx)); reflexivity.
Qed.

(** X21. With no lock held and an index that conforms to the schema,
    [_list_skills] returns one entry per record of the index, in the order
    of the index, each with the name, the description and the sub-skill
    names of its record. *)
Theorem list_skills_shows_every_record (fs : store) (now : string) (w : world)
    (idx : index) :
  idle w -> current_index fs w = Ok idx ->
  forallb conforms (skills idx) = true ->
  exists summaries,
    fst (_list_skills fs now w) = Ret summaries /\
    Forall2 shows (skills idx) summaries.
Proof.
  intros Hidle Hidx Hconf.
  destruct (map_res_total summarize (skills idx)) as [summaries Hmap].
  { apply Forall_forall. intros skill Hin. apply summarize_conforms.
    rewrite forallb_forall in Hconf. now apply Hconf, list_elem_of_In. }
  exists summaries. rewrite (list_skills_idle fs now w idx Hidle Hidx), Hmap.
  split; [reflexivity |].
  apply map_res_forall2 in Hmap.
  eapply Forall2_impl; [exact Hmap |]. intros skill sm. apply summarize_shows.
Qed.

Lemma list_skills_shows_every_record_witness :
  exists summaries,
    fst (_list_skills forms_store "now" (initial_world "start")) = Ret summaries /\
    Forall2 shows [forms_meta] summaries.
Proof.
  apply (list_skills_shows_every_record forms_store "now" (initial_world "start")
           (Index [forms_meta] [])); reflexivity.
Defined.

(** X22. A record that lacks [name] or [description] is kept in the index
    by [load_index], which only reports it; with such a record in the
    index, [_list_skills] raises and lists nothing, also not the records
    that are complete. *)
Theorem list_skills_raises_on_incomplete_record (fs : store) (now : string)
    (w : world) (idx : index) (fields : list (string * json)) :
  idle w -> current_index fs w = Ok idx ->
  In (JObj fields) (skills idx) ->
  Py.dict_get fields "name" = None \/ Py.dict_get fields "description" = None ->
  exists e, fst (_list_skills fs now w) = Raise e.
Proof.
  intros Hidle Hidx Hin Hmissing.
  assert (Hraise : exists e, summarize (JObj fields) = Err e).
  { unfold summarize. simpl.
    destruct (Py.dict_get fields "name") as [name |]; simpl; [| now eexists].
    destruct Hmissing as [Hname | ->]; [discriminate Hname | now eexists]. }
  destruct Hraise as [e He].
  destruct (map_res_err summarize (skills idx) (JObj fields) e Hin He) as [e' Hmap].
  exists e'. now rewrite (list_skills_idle fs now w idx Hidle Hidx), Hmap.
Qed.

Lemma list_skills_raises_on_incomplete_record_witness :
  let fs := store_of [forms_dir;
                      DirEntry "drafts" true true
                        (Some (MetaOk (JObj [("name", JStr "drafts")])))
                        (Some (ReadOk "# Drafts")) None None []] in
  scan fs = Ok (Index [forms_meta; JObj [("name", JStr "drafts")]]
                  [MissingField "drafts" "description"]) /\
  exists e, fst (_list_skills fs "now" (initial_world "start")) = Raise e.
Proof.
  intros fs. split; [reflexivity |].
  apply (list_skills_raises_on_incomplete_record fs "now" (initial_world "start")
           (Index [forms_meta; JObj [("name", JStr "drafts")]]
              [MissingField "drafts" "description"])
           [("name", JStr "drafts")]).
  - reflexivity.
  - reflexivity.
  - right. now left.
  - now right.
Defined.

(** ** Content search before the content index exists *)

(** X23. [_search_content] cannot build the content index it needs.  Called
    with a valid query, no lock held and no content index: when the metadata
    index is missing too and the store loads, the call waits for ever for
    [_CONTENT_INDEX_LOCK], which it holds itself; in every other case it
    raises.  It never returns results. *)
Theorem search_content_cannot_initialise (fs : store) (now query : string)
    (limit : Z) (w : world) :
  idle w -> _CONTENT_INDEX w = None ->
  query_blank query = false ->
  (String.length query <= 1000)%nat ->
  (length (PyStr.split (PyStr.lower query)) <= 100)%nat ->
  match _INDEX w, root_exists fs, scan fs with
  | None, true, Ok _ =>
      fst (_search_content fs now query limit w) = Blocked CONTENT_INDEX_LOCK
  | None, true, Err e => fst (_search_content fs now query limit w) = Raise e
  | _, _, _ => fst (_search_content fs now query limit w) = Raise AttributeError
  end.
Proof.
  intros Hidle Hnone Hblank Hlen Hwords. unfold _search_content. rewrite Hblank.
  destruct (Nat.ltb_spec 1000 (String.length query)) as [? | _]; [lia |].
  destruct (Nat.ltb_spec 100 (length (PyStr.split (PyStr.lower query)))) as [? | _];
    [lia |].
  destruct w as [i c m u a h t]. unfold idle in Hidle. simpl in Hidle, Hnone.
  subst h c. cbn [_INDEX]. unfold track_usage, get_index, load_index, scan.
  destruct i as [idx |]; [run; reflexivity |].
  destruct (root_exists fs); [| run; reflexivity].
  cbn [negb]. cbv iota.
  destruct (load_metas (Index [] []) (entries fs)) as [idx | e]; run; reflexivity.
Qed.

Lemma search_content_cannot_initialise_witness :
  fst (_search_content no_store "now" "zod" 5 (initial_world "start"))
    = Raise AttributeError.
Proof.
  apply (search_content_cannot_initialise no_store "now" "zod" 5
           (initial_world "start")).
  - reflexivity.
  - reflexivity.
  - reflexivity.
  - simpl. lia.
  - simpl. lia.
Defined.

(** ** What a valid store holds *)

Lemma missing_sub_files_none fs skill_name items :
  missing_sub_files fs skill_name items = Ok [] ->
  Forall (fun sub =>
            exists file,
              Py.getitem sub "file" = Ok (JStr file) /\
              p_exists (sub_path fs skill_name file) = Ok true)
    items.
Proof.
  induction items as [| sub items IH]; [constructor |].
  cbn [missing_sub_files].
  destruct (Py.getitem sub "file") as [[ | | | | file | | ] | e] eqn:Hfile;
    cbn [res_bind]; try discriminate.
  destruct (p_exists (sub_path fs skill_name file)) as [there | e] eqn:Hthere;
    cbn [res_bind]; [| discriminate].
  destruct (missing_sub_files fs skill_name items) as [more | e]; cbn [res_bind];
    [| discriminate].
  intros [= Hnil]. apply app_eq_nil in Hnil. destruct Hnil as [Hhere ->].
  constructor; [| now apply IH].
  exists file. split; [exact Hfile |].
  destruct there; [exact Hthere | discriminate Hhere].
Qed.

Lemma validate_dir_complete fs e warns :
  validate_dir fs e = Ok ([], warns) -> e_is_dir e = true -> complete_dir fs e.
Proof.
  unfold validate_dir. intros H Hdir. rewrite Hdir in H. cbn [negb] in H. cbv iota in H.
  destruct (e_meta e) as [[meta | bad | |] |] eqn:Hmeta; try discriminate H.
  - destruct (validate_meta meta (e_name e)) as [meta_errors | err];
      cbn [res_bind] in H; [| discriminate H].
    destruct (Py.get meta "sub_skills" (JArr [])) as [subs | err] eqn:Hsubs;
      cbn [res_bind] in H; [| discriminate H].
    destruct (Py.iter subs) as [items | err] eqn:Hitems; cbn [res_bind] in H;
      [| discriminate H].
    destruct (missing_sub_files fs (e_name e) items) as [e_files | err] eqn:Hfiles;
      cbn [res_bind] in H; [| discriminate H].
    destruct (Py.get meta "tags" JNull) as [tags | err]; cbn [res_bind] in H;
      [| discriminate H].
    destruct (Py.get meta "sub_skills" JNull) as [subs' | err]; cbn [res_bind] in H;
      [| discriminate H].
    apply (f_equal (fun r => match r with
                             | Ok (errs, _) => errs
                             | Err _ => []
                             end)) in H.
    cbv beta iota in H. apply app_eq_nil in H. destruct H as [Hmd H].
    apply app_eq_nil in H. destruct H as [_ ->].
    split.
    + destruct (e_skill_md e); [discriminate | discriminate Hmd].
    + exists meta, subs, items. split; [exact Hmeta |]. split; [exact Hsubs |].
      split; [exact Hitems |]. now apply missing_sub_files_none.
  - apply (f_equal (fun r => match r with
                             | Ok (errs, _) => errs
                             | Err _ => []
                             end)) in H.
    cbv beta iota in H. apply app_eq_nil in H. destruct H as [_ H]. discriminate H.
Qed.

(** X24. When [_validate_skills] reports a store as valid, every directory
    of the store has a [SKILL.md] and a [_meta.json] that parses, and the
    file of every sub-skill the metadata lists exists. *)
Theorem valid_store_is_complete (fs : store) (w : world) (v : validation) :
  fst (_validate_skills fs w) = Ret v -> valid v = true ->
  Forall (fun e => e_is_dir e = true -> complete_dir fs e) (entries fs).
Proof.
  unfold _validate_skills.
  destruct (root_exists fs); cbn [negb]; cbv iota; [| discriminate].
  unfold bind, lift.
  destruct (validate_dirs fs (entries fs)) as [[errs warns] | err] eqn:Hdirs;
    [| discriminate].
  unfold ret. cbn [fst snd]. intros [= <-]. cbn [valid]. intros Hvalid.
  assert (Hnil : errs = []) by (destruct errs; [reflexivity | discriminate]).
  subst errs. clear Hvalid. revert warns Hdirs.
  induction (entries fs) as [| e es IH]; intros warns Hdirs; [constructor |].
  cbn [validate_dirs] in Hdirs.
  destruct (validate_dir fs e) as [[here_e here_w] | err] eqn:Hdir;
    cbn [res_bind] in Hdirs; [| discriminate Hdirs].
  destruct (validate_dirs fs es) as [[more_e more_w] | err]; cbn [res_bind] in Hdirs;
    [| discriminate Hdirs].
  cbn [fst snd] in Hdirs. injection Hdirs as Herrs _.
  apply app_eq_nil in Herrs. destruct Herrs as [-> ->].
  constructor; [| now apply (IH more_w)].
  now apply (validate_dir_complete fs e here_w).
Qed.

Lemma valid_store_is_complete_witness :
  Forall (fun e => e_is_dir e = true -> complete_dir forms_store e)
    (entries forms_store).
Proof.
  apply (valid_store_is_complete forms_store (initial_world "start")
           (Validation true [] [] 1)); reflexivity.
Defined.

(** ** Searching an index that holds an incomplete record *)

Lemma concat_res_err {A B} (f : A -> res (list B)) l x e :
  In x l -> f x = Err e -> exists e', concat_res f l = Err e'.
Proof.
  intros Hin Hx. induction l as [| y l IH]; [contradiction |].
  simpl. destruct Hin as [-> | Hin].
  - rewrite Hx. now eexists.
  - destruct (f y); simpl; [| now eexists].
    destruct (IH Hin) as [e' ->]. now eexists.
Qed.

(** X25. A record without [name] is kept in the index by [load_index],
    which only reports it; with such a record in the index, every valid
    query makes [_search_skills] raise: no result is returned, also none
    from the records that are complete. *)
Theorem search_skills_raises_on_nameless_record (fs : store) (now query : string)
    (limit : Z) (w : world) (idx : index) (fields : list (string * json)) :
  idle w -> current_index fs w = Ok idx ->
  query_blank query = false ->
  (String.length query <= 1000)%nat ->
  In (JObj fields) (skills idx) -> Py.dict_get fields "name" = None ->
  exists e, fst (_search_skills fs now query limit w) = Raise e.
Proof.
  intros Hidle Hidx Hblank Hlen Hin Hname.
  assert (Hraise : skill_hits (PyStr.lower query) (JObj fields) = Err KeyError).
  { unfold skill_hits, domain_hits, domain_match. simpl. now rewrite Hname. }
  destruct (concat_res_err (skill_hits (PyStr.lower query)) (skills idx)
              (JObj fields) KeyError Hin Hraise) as [e He].
  exists e. rewrite (search_skills_idle fs now query limit w idx Hidle Hidx Hblank Hlen).
  unfold search_candidates. now rewrite He.
Qed.

Lemma search_skills_raises_on_nameless_record_witness :
  let fs := store_of [forms_dir;
                      DirEntry "drafts" true true
                        (Some (MetaOk (JObj [("description", JStr "Drafts")])))
                        (Some (ReadOk "# Drafts")) None None []] in
  scan fs = Ok (Index [forms_meta; JObj [("description", JStr "Drafts")]]
                  [MissingField "drafts" "name"]) /\
  exists e, fst (_search_skills fs "now" "forms" 5 (initial_world "start")) = Raise e.
Proof.
  intros fs. split; [reflexivity |].
  apply (search_skills_raises_on_nameless_record fs "now" "forms" 5
           (initial_world "start")
           (Index [forms_meta; JObj [("description", JStr "Drafts")]]
              [MissingField "drafts" "name"])
           [("description", JStr "Drafts")]).
  - reflexivity.
  - reflexivity.
  - reflexivity.
  - simpl. lia.
  - right. now left.
  - reflexivity.
Defined.

(** ** The keys of the content index *)

Lemma index_folder_keys skill_name folder label files idx k :
  k ∈ (index_folder skill_name folder label files idx).*1 <->
  k ∈ idx.*1
  \/ exists file, In file (folder_files folder (Some files))
                  /\ k = (skill_name ++ ":" ++ file)%string.
Proof.
  unfold index_folder, folder_files. revert idx.
  induction files as [| f files IH]; intros idx; cbn [fold_left List.filter map].
  - split; [now left | intros [H | (file & [] & _)]; exact H].
  - rewrite IH. unfold readable at 2.
    destruct (read_text_ignore (md_read f)) as [text | e]; [| reflexivity].
    rewrite dict_set_keys. cbn [map]. split.
    + intros [[-> | H] | (file & Hin & ->)].
      * right. eexists. split; [left; reflexivity | reflexivity].
      * now left.
      * right. exists file. split; [now right | reflexivity].
    + intros [H | (file & [<- | Hin] & ->)].
      * left. now right.
      * left. now left.
      * right. now exists file.
Qed.

Lemma index_skill_dir_keys idx e k :
  k ∈ (index_skill_dir idx e).*1 <->
  k ∈ idx.*1
  \/ (e_is_dir e = true
      /\ exists file, In file (readable_files e)
                      /\ k = (e_name e ++ ":" ++ file)%string).
Proof.
  unfold index_skill_dir, readable_files.
  destruct (e_is_dir e); cbn [negb]; cbv iota.
  2: { split; [now left | intros [H | [Hfalse _]]; [exact H | discriminate Hfalse]]. }
  set (idx1 := match e_skill_md e with
               | Some r =>
                   match read_text_ignore r with
                   | Ok text =>
                       dict_set (e_name e ++ ":SKILL.md")
                         (ContentEntry (e_name e) None "SKILL.md" (PyStr.lower text))
                         idx
                   | Err _ => idx
                   end
               | None => idx
               end).
  assert (H1 : k ∈ idx1.*1 <->
               k ∈ idx.*1
               \/ exists file,
                    In file (match e_skill_md e with
                             | Some r => if readable r then ["SKILL.md"] else []
                             | None => []
                             end)
                    /\ k = (e_name e ++ ":" ++ file)%string).
  { unfold idx1, readable. destruct (e_skill_md e) as [r |].
    - destruct (read_text_ignore r) as [text | err].
      + rewrite dict_set_keys. split.
        * intros [-> | H]; [right | now left].
          exists "SKILL.md". split; [now left | reflexivity].
        * intros [H | (file & [<- | []] & ->)]; [now right | now left].
      + split; [now left | intros [H | (file & [] & _)]; exact H].
    - split; [now left | intros [H | (file & [] & _)]; exact H]. }
  assert (H2 : forall folder label files base,
            k ∈ (match files with
                 | Some fl => index_folder (e_name e) folder label fl base
                 | None => base
                 end).*1 <->
            k ∈ base.*1
            \/ exists file, In file (folder_files folder files)
                            /\ k = (e_name e ++ ":" ++ file)%string).
  { intros folder label [fl |] base; [apply index_folder_keys |].
    split; [now left | intros [H | (file & [] & _)]; exact H]. }
  rewrite (H2 "scripts" _ (e_scripts e)), (H2 "references" _ (e_references e)), H1.
  split.
  - intros [[[H | (file & Hin & ->)] | (file & Hin & ->)] | (file & Hin & ->)].
    + now left.
    + right. split; [reflexivity |]. exists file. split; [| reflexivity].
      apply in_or_app. now left.
    + right. split; [reflexivity |]. exists file. split; [| reflexivity].
      apply in_or_app. right. apply in_or_app. now left.
    + right. split; [reflexivity |]. exists file. split; [| reflexivity].
      apply in_or_app. right. apply in_or_app. now right.
  - intros [H | (_ & file & Hin & ->)]; [now repeat left |].
    apply in_app_or in Hin. destruct Hin as [Hin | Hin].
    + left. left. right. now exists file.
    + apply in_app_or in Hin. destruct Hin as [Hin | Hin].
      * left. right. now exists file.
      * right. now exists file.
Qed.

(** X26. The keys of the content index are exactly [<domain>:<file>] for
    the directories of the store and, in each, the [SKILL.md], the
    [references/*.md] and the [scripts/*.md] that can be read: every such
    file is indexed and nothing else is. *)
Theorem content_index_keys (fs : store) (k : string) :
  k ∈ (build_content_index fs).*1 <->
  root_exists fs = true /\
  exists e file,
    In e (entries fs) /\ e_is_dir e = true /\ In file (readable_files e) /\
    k = (e_name e ++ ":" ++ file)%string.
Proof.
  unfold build_content_index. destruct (root_exists fs); cbn [negb]; cbv iota.
  2: { split; [intros H; now apply elem_of_nil in H | intros [H _]; discriminate H]. }
  assert (H : forall es idx,
            k ∈ (fold_left index_skill_dir es idx).*1 <->
            k ∈ idx.*1
            \/ exists e file,
                 In e es /\ e_is_dir e = true /\ In file (readable_files e) /\
                 k = (e_name e ++ ":" ++ file)%string).
  { induction es as [| e es IH]; intros idx; cbn [fold_left].
    - split; [now left | intros [H | (e & file & [] & _)]; exact H].
    - rewrite IH, index_skill_dir_keys. split.
      + intros [[H | (Hdir & file & Hin & ->)] | (e' & file & Hin' & Hdir & Hin & ->)].
        * now left.
        * right. exists e, file. repeat split; [now left | exact Hdir | exact Hin].
        * right. exists e', file. repeat split; [now right | exact Hdir | exact Hin].
      + intros [H | (e' & file & [<- | Hin'] & Hdir & Hin & ->)].
        * left. now left.
        * left. right. split; [exact Hdir |]. now exists file.
        * right. exists e', file. repeat split; assumption. }
  rewrite H. split.
  - intros [Hnil | Hex]; [now apply elem_of_nil in Hnil | now split].
  - intros [_ Hex]. now right.
Qed.

(** ** A load that raises *)

Lemma get_index_failed fs e c m u a t :
  scan fs = Err e ->
  get_index fs (World None c m u a [] t)
  = (Raise e,
     World None c m u a [] ((t ++ [Acquire INDEX_LOCK]) ++ [Release INDEX_LOCK])).
Proof.
  unfold scan, get_index, load_index, with_lock, acquire.
  destruct (root_exists fs); cbn [negb]; cbv iota; [| discriminate].
  intros Hscan. unfold bind, lift. cbn [held holds existsb _INDEX set_locks].
  cbv iota. rewrite Hscan. reflexivity.
Qed.

(** X27. When the walk of the store raises, with no lock held:
    [_reload_index] raises the same exception and leaves the whole state as
    it was, the old index included; a first [get_index] raises it too,
    releases its lock and leaves both indexes unset, so that the next call
    walks the store again. *)
Theorem failed_load_changes_nothing (fs : store) (now : string) (w : world)
    (e : exn) :
  idle w -> scan fs = Err e ->
  _reload_index fs now w = (Raise e, w) /\
  (_INDEX w = None ->
   exists w',
     get_index fs w = (Raise e, w') /\ idle w' /\
     _INDEX w' = None /\ _CONTENT_INDEX w' = _CONTENT_INDEX w /\
     _USAGE_STATS w' = _USAGE_STATS w /\
     fst (get_index fs w') = Raise e).
Proof.
  intros Hidle Hscan. split.
  - pose proof (load_index_idle fs w Hidle) as Hload. rewrite Hscan in Hload.
    unfold _reload_index, bind. now rewrite Hload.
  - intros Hnone. destruct w as [i c m u a h t]. unfold idle in Hidle.
    simpl in Hidle, Hnone. subst h i.
    eexists. split; [now apply get_index_failed |].
    split; [reflexivity |]. split; [reflexivity |]. split; [reflexivity |].
    split; [reflexivity |].
    now rewrite (get_index_failed fs e c m u a _ Hscan).
Qed.

Lemma failed_load_changes_nothing_witness :
  let fs := store_of [forms_dir; bad_sub_dir] in
  let w := initial_world "start" in
  _reload_index fs "now" w = (Raise TypeError, w) /\
  (_INDEX w = None ->
   exists w',
     get_index fs w = (Raise TypeError, w') /\ idle w' /\
     _INDEX w' = None /\ _CONTENT_INDEX w' = _CONTENT_INDEX w /\
     _USAGE_STATS w' = _USAGE_STATS w /\
     fst (get_index fs w') = Raise TypeError).
Proof.
  intros fs w. apply (failed_load_changes_nothing fs "now" w TypeError); reflexivity.
Defined.
